(** * Dense reconstruction orchestration (opensfm/dense.py)

    A shallow embedding of the view-selection, depth-range, stage-runner and
    merging code of [opensfm/dense.py], with the properties its
    specification states about it.

    Conventions of the embedding:
    - Python [float] and NumPy [float64] values are IEEE binary64 numbers
      ([PrimFloat.float]); Python [int] is [Z].
    - A two-dimensional array is the list of its rows. The maps of
      [pydense] are [float32] arrays: an element is held as the binary64
      float of the same value, and a Python float that meets such an array
      is rounded to float32 first.
    - A Python [dict] whose iteration order is observed is an insertion-
      ordered association list ([PyDict]); the maps of the reconstruction
      and of the dataset are [gmap]s, and where [reconstruction.shots] is
      iterated the order is a parameter.
    - A raised exception is the [Raise] case of [result]; side effects on
      the dataset, the logger and the [pydense] objects are threaded
      through the state monad [M].
    - Routines of NumPy, OpenCV and [pydense] are not part of the
      repository: they are parameters of the sections that use them. *)

From Stdlib Require Import ZArith List String Bool Lia.
From Stdlib Require Import Floats.
From Stdlib Require Import Sorting.Sorted Sorting.Permutation.
From stdpp Require Import base option list gmap strings.

Set Warnings "-inexact-float".

Local Open Scope Z_scope.

(* ===================================================================== *)
(** ** Python values, exceptions and containers                          *)
(* ===================================================================== *)

Inductive exn : Type :=
| IndexError
| KeyError (key : string)
| ValueError (msg : string)
| AssertionError
| ZeroDivisionError
| IOError (path : string).

Inductive result (A : Type) : Type :=
| Ok (a : A)
| Raise (e : exn).
Arguments Ok {A} a.
Arguments Raise {A} e.

Definition is_Ok {A} (r : result A) : Prop :=
  match r with Ok _ => True | Raise _ => False end.

Definition result_bind {A B} (r : result A) (k : A -> result B) : result B :=
  match r with
  | Ok a => k a
  | Raise e => Raise e
  end.

(** [l[:n]] for a Python list: a negative [n] counts from the end. *)
Definition py_slice_to {A} (l : list A) (n : Z) : list A :=
  if 0 <=? n then take (Z.to_nat n) l
  else take (Z.to_nat (Z.of_nat (length l) + n)) l.

(** [l[n:]] for a non-negative literal [n]. *)
Definition py_slice_from {A} (l : list A) (n : nat) : list A := drop n l.

(** Insertion-ordered dictionaries with string keys. [set] keeps the
    position of a key that is already present and appends a new one, as
    [d[k] = v] does. *)
Module PyDict.

Definition dict (V : Type) : Type := list (string * V).

Definition empty {V} : dict V := [].

Fixpoint get {V} (d : dict V) (k : string) : option V :=
  match d with
  | [] => None
  | (k', v) :: d' => if decide (k' = k) then Some v else get d' k
  end.

Fixpoint set {V} (d : dict V) (k : string) (v : V) : dict V :=
  match d with
  | [] => [(k, v)]
  | (k', v') :: d' =>
      if decide (k' = k) then (k', v) :: d' else (k', v') :: set d' k v
  end.

Definition items {V} (d : dict V) : list (string * V) := d.

(** [d.get(k, default)] *)
Definition get_default {V} (d : dict V) (k : string) (default : V) : V :=
  match get d k with
  | Some v => v
  | None => default
  end.

End PyDict.

(* ===================================================================== *)
(** ** Geometry and the data model                                       *)
(* ===================================================================== *)

(** A 3-vector of [float64]: a point, a camera centre, a translation. *)
Definition Vec3 : Type := (float * float * float)%type.

(** A 3x3 matrix of [float64], row by row. *)
Definition Mat3 : Type := (Vec3 * Vec3 * Vec3)%type.

(** [np.pi] *)
Definition np_pi : float := 0x1.921fb54442d18p+1%float.

(** A [pymap] pose, seen through the methods the module calls. *)
Record Pose : Type := {
  get_origin : Vec3;
  transform : Vec3 -> Vec3;
  get_rotation_matrix : Mat3;
  translation : Vec3
}.

Record Camera : Type := {
  projection_type : string;
  width : Z;
  height : Z;
  get_K_in_pixel_coordinates : Z -> Z -> Mat3
}.

Record Shot : Type := {
  shot_id : string;
  pose : Pose;
  camera : Camera
}.

Record Point : Type := { coordinates : Vec3 }.

Record Reconstruction : Type := {
  shots : gmap string Shot;
  points : gmap string Point
}.

(** The track graph, seen through the two queries the module makes. *)
Record TracksManager : Type := {
  get_shot_ids : list string;
  get_shot_observations : string -> list string
}.

(* ===================================================================== *)
(** ** Neighbor selection                                                *)
(* ===================================================================== *)

Section Neighbors.

(** [np.arccos] *)
Variable arccos : float -> float.

Definition angle_between_points (origin p1 p2 : Vec3) : float :=
  let '(o0, o1, o2) := origin in
  let '(p10, p11, p12) := p1 in
  let '(p20, p21, p22) := p2 in
  let a0 := (p10 - o0)%float in
  let a1 := (p11 - o1)%float in
  let a2 := (p12 - o2)%float in
  let b0 := (p20 - o0)%float in
  let b1 := (p21 - o1)%float in
  let b2 := (p22 - o2)%float in
  let dot := (a0 * b0 + a1 * b1 + a2 * b2)%float in
  let la := (a0 * a0 + a1 * a1 + a2 * a2)%float in
  let lb := (b0 * b0 + b1 * b1 + b2 * b2)%float in
  arccos (dot / PrimFloat.sqrt (la * lb))%float.

Definition theta_min : float := (np_pi / 60)%float.
Definition theta_max : float := (np_pi / 6)%float.

(** The test of the inner loop: the track has a reconstructed point and
    the angle at it is strictly inside ([theta_min], [theta_max]). *)
Definition good_track (reconstruction : Reconstruction) (C1 C2 : Vec3)
    (track : string) : bool :=
  match points reconstruction !! track with
  | Some pt =>
      let theta := angle_between_points (coordinates pt) C1 C2 in
      (theta_min <? theta)%float && (theta <? theta_max)%float
  | None => false
  end.

(** The inner loop: [score] starts at 0 and is incremented per good
    track. *)
Definition track_score (reconstruction : Reconstruction) (C1 C2 : Vec3)
    (tracks : list string) : Z :=
  fold_left
    (fun score track =>
       if good_track reconstruction C1 C2 track then score + 1 else score)
    tracks 0.

(** One iteration of the outer loop over the row of the table. *)
Definition neighbor_step (shot : Shot) (reconstruction : Reconstruction)
    (ns : list (Shot * Z)) (item : string * list string) : list (Shot * Z) :=
  let '(other_id, tracks) := item in
  match shots reconstruction !! other_id with
  | None => ns
  | Some other =>
      let score :=
        track_score reconstruction (get_origin (pose shot))
          (get_origin (pose other)) tracks in
      if 20 <? score then ns ++ [(other, score)] else ns
  end.

(** [ns] when the outer loop ends. *)
Definition scored_neighbors (shot : Shot)
    (common_tracks : PyDict.dict (PyDict.dict (list string)))
    (reconstruction : Reconstruction) : list (Shot * Z) :=
  fold_left (neighbor_step shot reconstruction)
    (PyDict.items
       (PyDict.get_default common_tracks (shot_id shot) PyDict.empty))
    [].

(** [list.sort(key=lambda ns: ns[1], reverse=True)]: a stable sort by
    descending score. *)
Fixpoint insert_by_score (x : Shot * Z) (l : list (Shot * Z))
    : list (Shot * Z) :=
  match l with
  | [] => [x]
  | y :: l' =>
      if x.2 <? y.2 then y :: insert_by_score x l' else x :: y :: l'
  end.

Fixpoint sort_by_score_desc (l : list (Shot * Z)) : list (Shot * Z) :=
  match l with
  | [] => []
  | x :: l' => insert_by_score x (sort_by_score_desc l')
  end.

Definition find_neighboring_images (shot : Shot)
    (common_tracks : PyDict.dict (PyDict.dict (list string)))
    (reconstruction : Reconstruction) (num_neighbors : Z) : list Shot :=
  let ns :=
    sort_by_score_desc (scored_neighbors shot common_tracks reconstruction) in
  [shot] ++ map fst (py_slice_to ns num_neighbors).

End Neighbors.

(* ===================================================================== *)
(** ** Configuration                                                     *)
(* ===================================================================== *)

(** A numeric configuration entry as YAML gives it. *)
Inductive PyValue : Type :=
| PyNone
| PyInt (z : Z)
| PyFloat (f : float).

(** Python truthiness: [None], [0] and [0.0] are false. *)
Definition truthy (v : PyValue) : bool :=
  match v with
  | PyNone => false
  | PyInt z => negb (z =? 0)
  | PyFloat f => negb (f =? 0)%float
  end.

(** [a or b] *)
Definition py_or (a b : PyValue) : PyValue := if truthy a then a else b.

(** The entries of [data.config] the module reads. *)
Record Config : Type := {
  depthmap_method : string;
  depthmap_min_depth : PyValue;
  depthmap_max_depth : PyValue;
  depthmap_patchmatch_iterations : Z;
  depthmap_patch_size : Z;
  depthmap_min_patch_sd : float;
  depthmap_min_correlation_score : float;
  depthmap_same_depth_threshold : float;
  depthmap_min_consistent_views : Z;
  depthmap_num_matching_views : Z;
  depthmap_resolution : Z;
  depthmap_save_debug_files : bool;
  (** the truth value of [data.config.get("interactive")], false when the
      key is absent *)
  interactive : bool
}.

(* ===================================================================== *)
(** ** Depth range                                                       *)
(* ===================================================================== *)

Section DepthRange.

(** [np.percentile(sample, q)] *)
Variable percentile : list float -> float -> result float.

(** One iteration of the loop that collects the depths. *)
Definition depth_step (reconstruction : Reconstruction) (shot : Shot)
    (depths : list float) (track : string) : list float :=
  match points reconstruction !! track with
  | Some pt =>
      let p := coordinates pt in
      let z := (transform (pose shot) p).2 in
      depths ++ [z]
  | None => depths
  end.

Definition collect_depths (tracks_manager : TracksManager)
    (reconstruction : Reconstruction) (shot : Shot) : list float :=
  fold_left (depth_step reconstruction shot)
    (get_shot_observations tracks_manager (shot_id shot)) [].

Definition compute_depth_range (tracks_manager : TracksManager)
    (reconstruction : Reconstruction) (shot : Shot) (config : Config)
    : result (PyValue * PyValue) :=
  let depths := collect_depths tracks_manager reconstruction shot in
  result_bind (percentile depths 10%float) (fun p10 =>
  let min_depth := (p10 * 0.9)%float in
  result_bind (percentile depths 90%float) (fun p90 =>
  let max_depth := (p90 * 1.1)%float in
  let config_min_depth := depthmap_min_depth config in
  let config_max_depth := depthmap_max_depth config in
  Ok (py_or config_min_depth (PyFloat min_depth),
      py_or config_max_depth (PyFloat max_depth)))).

End DepthRange.

(* ===================================================================== *)
(** ** Common-track table                                                *)
(* ===================================================================== *)

Section CommonTracks.

(** [tracking.all_common_tracks_without_features]: the items of the
    dictionary it returns, keyed by image pair. *)
Variable all_common_tracks_without_features :
  TracksManager -> list ((string * string) * list string).

(** [res[im1][im2] = v]: [res[im1]] raises [KeyError] when absent. *)
Definition set_item2 (res : PyDict.dict (PyDict.dict (list string)))
    (im1 im2 : string) (v : list string)
    : result (PyDict.dict (PyDict.dict (list string))) :=
  match PyDict.get res im1 with
  | Some row => Ok (PyDict.set res im1 (PyDict.set row im2 v))
  | None => Raise (KeyError im1)
  end.

(** The body of the loop over the pairs. *)
Definition double_dict_step
    (res : result (PyDict.dict (PyDict.dict (list string))))
    (item : (string * string) * list string)
    : result (PyDict.dict (PyDict.dict (list string))) :=
  let '((im1, im2), v) := item in
  result_bind res (fun res0 =>
  result_bind (set_item2 res0 im1 im2 v) (fun res1 =>
  set_item2 res1 im2 im1 v)).

Definition common_tracks_double_dict (tracks_manager : TracksManager)
    : result (PyDict.dict (PyDict.dict (list string))) :=
  let common_tracks_per_pair :=
    all_common_tracks_without_features tracks_manager in
  let res :=
    fold_left (fun d image => PyDict.set d image PyDict.empty)
      (get_shot_ids tracks_manager) PyDict.empty in
  fold_left double_dict_step common_tracks_per_pair (Ok res).

End CommonTracks.

(** [res[a][b]], when both levels have the key. *)
Definition lookup2 (res : PyDict.dict (PyDict.dict (list string)))
    (a b : string) : option (list string) :=
  match PyDict.get res a with
  | Some row => PyDict.get row b
  | None => None
  end.

(* ===================================================================== *)
(** ** Arrays, artifacts and the dataset                                 *)
(* ===================================================================== *)

(** Two-dimensional arrays are lists of rows. *)
Definition DepthArray : Type := list (list float).
Definition ScoreArray : Type := list (list float).
Definition PlaneArray : Type := list (list Vec3).
Definition IndexArray : Type := list (list Z).

(** An image, a mask or a label map: rows of pixels, a pixel being its
    channels. *)
Definition Image : Type := list (list (list Z)).

(** [a.shape] of a two-dimensional array: rows, then columns. *)
Definition shape {A} (a : list (list A)) : Z * Z :=
  (Z.of_nat (length a),
   match a with
   | [] => 0
   | row :: _ => Z.of_nat (length row)
   end).

Record RawDepthmap : Type := {
  raw_depth : DepthArray;
  raw_plane : PlaneArray;
  raw_score : ScoreArray;
  raw_nghbr : IndexArray;
  raw_nghbrs : list string
}.

Record CleanDepthmap : Type := {
  clean_depth : DepthArray;
  clean_plane : PlaneArray;
  clean_score : ScoreArray
}.

(** The four arrays of a pruned depthmap and of a point cloud, one entry
    per point. *)
Record PointArrays : Type := {
  pa_points : list Vec3;
  pa_normals : list Vec3;
  pa_colors : list (Z * Z * Z);
  pa_labels : list Z
}.

(** What an [UndistortedDataSet] holds on disk. *)
Record DataSet : Type := {
  config : Config;
  raw_depthmaps : gmap string RawDepthmap;
  clean_depthmaps : gmap string CleanDepthmap;
  pruned_depthmaps : gmap string PointArrays;
  undistorted_images : gmap string Image;
  undistorted_combined_masks : gmap string Image;
  undistorted_segmentations : gmap string Image;
  point_clouds : gmap string PointArrays;
  text_files : gmap string string
}.

(* ===================================================================== *)
(** ** Effects: dataset, logger and pydense objects                      *)
(* ===================================================================== *)

Inductive LogLevel : Type := INFO | WARNING | ERROR.

Inductive Capability : Type := Estimator | Cleaner | Pruner.

(** The world a stage runner acts on: the dataset, the records the module
    logger received, and the method calls made on [pydense] objects, each
    by the kind of object and the method's name, in order. *)
Record World : Type := {
  data : DataSet;
  log_records : list (LogLevel * string);
  pydense_calls : list (Capability * string)
}.

Definition M (A : Type) : Type := World -> result A * World.

#[global] Instance M_ret : MRet M := fun A a w => (Ok a, w).

#[global] Instance M_bind : MBind M := fun A B k c w =>
  match c w with
  | (Ok a, w') => k a w'
  | (Raise e, w') => (Raise e, w')
  end.

Definition raise {A} (e : exn) : M A := fun w => (Raise e, w).

Definition lift {A} (r : result A) : M A := fun w => (r, w).

Definition get_data : M DataSet := fun w => (Ok (data w), w).

Definition put_data (d : DataSet) : M unit := fun w =>
  (Ok tt,
   {| data := d; log_records := log_records w;
      pydense_calls := pydense_calls w |}).

Definition logger_log (level : LogLevel) (msg : string) : M unit := fun w =>
  (Ok tt,
   {| data := data w; log_records := log_records w ++ [(level, msg)];
      pydense_calls := pydense_calls w |}).

Definition logger_info : string -> M unit := logger_log INFO.
Definition logger_warning : string -> M unit := logger_log WARNING.

Definition pydense_call (c : Capability) (method : string) : M unit := fun w =>
  (Ok tt,
   {| data := data w; log_records := log_records w;
      pydense_calls := pydense_calls w ++ [(c, method)] |}).

(** [for x in l: s = body(s, x)] *)
Fixpoint for_each {A S} (l : list A) (body : S -> A -> M S) (s : S) : M S :=
  match l with
  | [] => mret s
  | x :: l' => s' ← body s x; for_each l' body s'
  end.

(** *** Dataset methods *)

Definition raw_depthmap_exists (image : string) : M bool :=
  d ← get_data; mret (bool_decide (is_Some (raw_depthmaps d !! image))).

Definition clean_depthmap_exists (image : string) : M bool :=
  d ← get_data; mret (bool_decide (is_Some (clean_depthmaps d !! image))).

Definition pruned_depthmap_exists (image : string) : M bool :=
  d ← get_data; mret (bool_decide (is_Some (pruned_depthmaps d !! image))).

Definition undistorted_segmentation_exists (image : string) : M bool :=
  d ← get_data;
  mret (bool_decide (is_Some (undistorted_segmentations d !! image))).

Definition load_from {V} (store : DataSet -> gmap string V) (image : string)
    : M V :=
  d ← get_data;
  match store d !! image with
  | Some v => mret v
  | None => raise (IOError image)
  end.

Definition load_raw_depthmap : string -> M RawDepthmap :=
  load_from raw_depthmaps.
Definition load_clean_depthmap : string -> M CleanDepthmap :=
  load_from clean_depthmaps.
Definition load_pruned_depthmap : string -> M PointArrays :=
  load_from pruned_depthmaps.
Definition load_undistorted_image : string -> M Image :=
  load_from undistorted_images.
Definition load_undistorted_segmentation : string -> M Image :=
  load_from undistorted_segmentations.

(** Returns [None] when the shot has no mask. *)
Definition load_undistorted_combined_mask (image : string) : M (option Image) :=
  d ← get_data; mret (undistorted_combined_masks d !! image).

Definition save_raw_depthmap (image : string) (depth : DepthArray)
    (plane : PlaneArray) (score : ScoreArray) (nghbr : IndexArray)
    (nghbrs : list string) : M unit :=
  d ← get_data;
  put_data
    {| config := config d;
       raw_depthmaps :=
         <[image := {| raw_depth := depth; raw_plane := plane;
                       raw_score := score; raw_nghbr := nghbr;
                       raw_nghbrs := nghbrs |}]> (raw_depthmaps d);
       clean_depthmaps := clean_depthmaps d;
       pruned_depthmaps := pruned_depthmaps d;
       undistorted_images := undistorted_images d;
       undistorted_combined_masks := undistorted_combined_masks d;
       undistorted_segmentations := undistorted_segmentations d;
       point_clouds := point_clouds d;
       text_files := text_files d |}.

Definition save_clean_depthmap (image : string) (depth : DepthArray)
    (plane : PlaneArray) (score : ScoreArray) : M unit :=
  d ← get_data;
  put_data
    {| config := config d;
       raw_depthmaps := raw_depthmaps d;
       clean_depthmaps :=
         <[image := {| clean_depth := depth; clean_plane := plane;
                       clean_score := score |}]> (clean_depthmaps d);
       pruned_depthmaps := pruned_depthmaps d;
       undistorted_images := undistorted_images d;
       undistorted_combined_masks := undistorted_combined_masks d;
       undistorted_segmentations := undistorted_segmentations d;
       point_clouds := point_clouds d;
       text_files := text_files d |}.

Definition save_pruned_depthmap (image : string) (pa : PointArrays) : M unit :=
  d ← get_data;
  put_data
    {| config := config d;
       raw_depthmaps := raw_depthmaps d;
       clean_depthmaps := clean_depthmaps d;
       pruned_depthmaps := <[image := pa]> (pruned_depthmaps d);
       undistorted_images := undistorted_images d;
       undistorted_combined_masks := undistorted_combined_masks d;
       undistorted_segmentations := undistorted_segmentations d;
       point_clouds := point_clouds d;
       text_files := text_files d |}.

Definition save_point_cloud (pa : PointArrays) (filename : string) : M unit :=
  d ← get_data;
  put_data
    {| config := config d;
       raw_depthmaps := raw_depthmaps d;
       clean_depthmaps := clean_depthmaps d;
       pruned_depthmaps := pruned_depthmaps d;
       undistorted_images := undistorted_images d;
       undistorted_combined_masks := undistorted_combined_masks d;
       undistorted_segmentations := undistorted_segmentations d;
       point_clouds := <[filename := pa]> (point_clouds d);
       text_files := text_files d |}.

(** [data.depthmap_file(image, suffix)] *)
Definition depthmap_file (image suffix : string) : string :=
  image +:+ "." +:+ suffix.

(** [with io.open_wt(path) as fout: fout.write(text)] *)
Definition write_text (path text : string) : M unit :=
  d ← get_data;
  put_data
    {| config := config d;
       raw_depthmaps := raw_depthmaps d;
       clean_depthmaps := clean_depthmaps d;
       pruned_depthmaps := pruned_depthmaps d;
       undistorted_images := undistorted_images d;
       undistorted_combined_masks := undistorted_combined_masks d;
       undistorted_segmentations := undistorted_segmentations d;
       point_clouds := point_clouds d;
       text_files := <[path := text]> (text_files d) |}.

(* ===================================================================== *)
(** ** Merging                                                           *)
(* ===================================================================== *)

#[global] Instance result_mret : MRet result := fun A a => Ok a.

#[global] Instance result_mbind : MBind result := fun A B k r =>
  result_bind r k.

(** [np.concatenate(arrays)], which refuses an empty sequence. *)
Definition np_concatenate {A} (arrays : list (list A)) : result (list A) :=
  match arrays with
  | [] => Raise (ValueError "need at least one array to concatenate")
  | _ :: _ => Ok (concat arrays)
  end.

(** [np.array([])] four times. *)
Definition empty_point_arrays : PointArrays :=
  {| pa_points := []; pa_normals := []; pa_colors := []; pa_labels := [] |}.

(** The four lists the loop of [aggregate_depthmaps] appends to. *)
Record Aggregated : Type := {
  ag_points : list (list Vec3);
  ag_normals : list (list Vec3);
  ag_colors : list (list (Z * Z * Z));
  ag_labels : list (list Z)
}.

Definition aggregate_step (depthmap_provider : string -> result PointArrays)
    (acc : result Aggregated) (shot_id : string) : result Aggregated :=
  a ← acc;
  pa ← depthmap_provider shot_id;
  mret {| ag_points := ag_points a ++ [pa_points pa];
          ag_normals := ag_normals a ++ [pa_normals pa];
          ag_colors := ag_colors a ++ [pa_colors pa];
          ag_labels := ag_labels a ++ [pa_labels pa] |}.

Definition aggregate_depthmaps (shot_ids : list string)
    (depthmap_provider : string -> result PointArrays) : result PointArrays :=
  a ← fold_left (aggregate_step depthmap_provider) shot_ids
        (Ok {| ag_points := []; ag_normals := []; ag_colors := [];
               ag_labels := [] |});
  points ← np_concatenate (ag_points a);
  normals ← np_concatenate (ag_normals a);
  colors ← np_concatenate (ag_colors a);
  labels ← np_concatenate (ag_labels a);
  mret {| pa_points := points; pa_normals := normals; pa_colors := colors;
          pa_labels := labels |}.

Definition merge_depthmaps_from_provider (shot_ids : list string)
    (depthmap_provider : string -> result PointArrays) : M PointArrays :=
  logger_info "Merging depthmaps";;
  if bool_decide (shot_ids = []) then
    logger_warning "Depthmaps contain no points.  Try using more images.";;
    mret empty_point_arrays
  else
    lift (aggregate_depthmaps shot_ids depthmap_provider).

(* ===================================================================== *)
(** ** Element-wise array arithmetic                                     *)
(* ===================================================================== *)

(** The maps of [pydense] are [float32] arrays. An element is held as the
    binary64 float of the same value: every float32 is one, the comparisons
    agree, and the product of a float32 with 1.0 or 0.0 is exact. *)

(** [np.float32(x)] for a Python float [x]: the nearest float32, ties to
    even, an infinity past the largest one. *)
Definition np_float32 (x : float) : float :=
  match Prim2SF x with
  | S754_finite s m e => SF2Prim (binary_round 24 128 s m e)
  | _ => x
  end.

(** A boolean operand of a float product is 1.0 or 0.0. *)
Definition bool_to_float (b : bool) : float :=
  if b then 1%float else 0%float.

(** [a < x] and [a > x] for a float32 array [a] and a Python float [x]:
    the scalar takes the type of the array, so the elements are compared
    with [np.float32(x)]. Both thresholds of the masking are Python floats:
    [max_depth: float] in the signature of [compute_depthmap], and the
    score threshold of the configuration. *)
Definition array_lt (a : list (list float)) (x : float) : list (list bool) :=
  map (map (fun v => (v <? np_float32 x)%float)) a.

Definition array_gt (a : list (list float)) (x : float) : list (list bool) :=
  map (map (fun v => (np_float32 x <? v)%float)) a.

(** The second entry of [a.shape]. The empty list is the array of shape
    (0, 0). *)
Definition ncols {A} (a : list (list A)) : nat :=
  match a with
  | [] => 0
  | row :: _ => length row
  end.

(** The rows of an array all have one length; a list whose rows differ is
    no array. *)
Definition rectangular {A} (a : list (list A)) : bool :=
  forallb (fun row => Nat.eqb (length row) (ncols a)) a.

(** Broadcasting of one dimension: the sizes agree, or one of them is 1
    and gives way to the other. *)
Definition broadcast_dim (n m : nat) : option nat :=
  if Nat.eqb n m then Some n
  else if Nat.eqb n 1 then Some m
  else if Nat.eqb m 1 then Some n
  else None.

(** A dimension of size one repeated to the size [n]; any other is left
    as it is. *)
Definition stretch {A} (n : nat) (l : list A) : list A :=
  match l with
  | [x] => replicate n x
  | _ => l
  end.

Definition broadcast_to {A} (h w : nat) (a : list (list A))
    : list (list A) :=
  stretch h (map (stretch w) a).

(** [a * m] for a float array and a boolean array, with NumPy's
    broadcasting of the two shapes. An array with no row is represented
    for the shape (0, 0) only. *)
Definition array_mul_bool (a : list (list float)) (m : list (list bool))
    : result (list (list float)) :=
  if rectangular a && rectangular m then
    match broadcast_dim (length a) (length m),
          broadcast_dim (ncols a) (ncols m) with
    | Some h, Some w =>
        Ok (zip_with (zip_with (fun v b => (v * bool_to_float b)%float))
              (broadcast_to h w a) (broadcast_to h w m))
    | _, _ => Raise (ValueError "operands could not be broadcast together")
    end
  else
    Raise (ValueError "setting an array element with a sequence").

(** Lines 133-134 of [compute_depthmap]. *)
Definition mask_depth (depth : DepthArray) (score : ScoreArray)
    (max_depth min_correlation_score : float) : result DepthArray :=
  let good_score := array_gt score min_correlation_score in
  d ← array_mul_bool depth (array_lt depth max_depth);
  array_mul_bool d good_score.

(** What the two products leave of one pixel, for the two thresholds as
    the comparisons take them. *)
Definition mask_pixel (d s max_depth min_correlation_score : float) : float :=
  (d * bool_to_float (d <? max_depth)
     * bool_to_float (min_correlation_score <? s))%float.

(* ===================================================================== *)
(** ** pydense objects                                                   *)
(* ===================================================================== *)

Record EstimatorView : Type := {
  ev_K : Mat3; ev_R : Mat3; ev_t : Vec3; ev_image : Image; ev_mask : Image
}.

Record DepthmapEstimator : Type := {
  de_depth_range : option (float * float * Z);
  de_patchmatch_iterations : option Z;
  de_patch_size : option Z;
  de_min_patch_sd : option float;
  de_views : list EstimatorView
}.

Record CleanerView : Type := {
  cv_K : Mat3; cv_R : Mat3; cv_t : Vec3; cv_depth : DepthArray
}.

Record DepthmapCleaner : Type := {
  dc_same_depth_threshold : option float;
  dc_min_consistent_views : option Z;
  dc_views : list CleanerView
}.

Record PrunerView : Type := {
  pv_K : Mat3; pv_R : Mat3; pv_t : Vec3; pv_depth : DepthArray;
  pv_plane : PlaneArray; pv_image : Image; pv_labels : Image
}.

Record DepthmapPruner : Type := {
  dp_same_depth_threshold : option float;
  dp_views : list PrunerView
}.

(** Each constructor and method records its call and returns the object
    as the call leaves it. *)
Definition new_DepthmapEstimator : M DepthmapEstimator :=
  pydense_call Estimator "__init__";;
  mret {| de_depth_range := None; de_patchmatch_iterations := None;
          de_patch_size := None; de_min_patch_sd := None; de_views := [] |}.

Definition de_set_depth_range (de : DepthmapEstimator)
    (min_depth max_depth : float) (num_depth_planes : Z) : M DepthmapEstimator :=
  pydense_call Estimator "set_depth_range";;
  mret {| de_depth_range := Some (min_depth, max_depth, num_depth_planes);
          de_patchmatch_iterations := de_patchmatch_iterations de;
          de_patch_size := de_patch_size de;
          de_min_patch_sd := de_min_patch_sd de; de_views := de_views de |}.

Definition de_set_patchmatch_iterations (de : DepthmapEstimator) (n : Z)
    : M DepthmapEstimator :=
  pydense_call Estimator "set_patchmatch_iterations";;
  mret {| de_depth_range := de_depth_range de;
          de_patchmatch_iterations := Some n;
          de_patch_size := de_patch_size de;
          de_min_patch_sd := de_min_patch_sd de; de_views := de_views de |}.

Definition de_set_patch_size (de : DepthmapEstimator) (n : Z)
    : M DepthmapEstimator :=
  pydense_call Estimator "set_patch_size";;
  mret {| de_depth_range := de_depth_range de;
          de_patchmatch_iterations := de_patchmatch_iterations de;
          de_patch_size := Some n;
          de_min_patch_sd := de_min_patch_sd de; de_views := de_views de |}.

Definition de_set_min_patch_sd (de : DepthmapEstimator) (sd : float)
    : M DepthmapEstimator :=
  pydense_call Estimator "set_min_patch_sd";;
  mret {| de_depth_range := de_depth_range de;
          de_patchmatch_iterations := de_patchmatch_iterations de;
          de_patch_size := de_patch_size de;
          de_min_patch_sd := Some sd; de_views := de_views de |}.

Definition de_add_view (de : DepthmapEstimator) (v : EstimatorView)
    : M DepthmapEstimator :=
  pydense_call Estimator "add_view";;
  mret {| de_depth_range := de_depth_range de;
          de_patchmatch_iterations := de_patchmatch_iterations de;
          de_patch_size := de_patch_size de;
          de_min_patch_sd := de_min_patch_sd de;
          de_views := de_views de ++ [v] |}.

Definition new_DepthmapCleaner : M DepthmapCleaner :=
  pydense_call Cleaner "__init__";;
  mret {| dc_same_depth_threshold := None; dc_min_consistent_views := None;
          dc_views := [] |}.

Definition dc_set_same_depth_threshold (dc : DepthmapCleaner) (t : float)
    : M DepthmapCleaner :=
  pydense_call Cleaner "set_same_depth_threshold";;
  mret {| dc_same_depth_threshold := Some t;
          dc_min_consistent_views := dc_min_consistent_views dc;
          dc_views := dc_views dc |}.

Definition dc_set_min_consistent_views (dc : DepthmapCleaner) (n : Z)
    : M DepthmapCleaner :=
  pydense_call Cleaner "set_min_consistent_views";;
  mret {| dc_same_depth_threshold := dc_same_depth_threshold dc;
          dc_min_consistent_views := Some n;
          dc_views := dc_views dc |}.

Definition dc_add_view (dc : DepthmapCleaner) (v : CleanerView)
    : M DepthmapCleaner :=
  pydense_call Cleaner "add_view";;
  mret {| dc_same_depth_threshold := dc_same_depth_threshold dc;
          dc_min_consistent_views := dc_min_consistent_views dc;
          dc_views := dc_views dc ++ [v] |}.

Definition new_DepthmapPruner : M DepthmapPruner :=
  pydense_call Pruner "__init__";;
  mret {| dp_same_depth_threshold := None; dp_views := [] |}.

Definition dp_set_same_depth_threshold (dp : DepthmapPruner) (t : float)
    : M DepthmapPruner :=
  pydense_call Pruner "set_same_depth_threshold";;
  mret {| dp_same_depth_threshold := Some t; dp_views := dp_views dp |}.

Definition dp_add_view (dp : DepthmapPruner) (v : PrunerView)
    : M DepthmapPruner :=
  pydense_call Pruner "add_view";;
  mret {| dp_same_depth_threshold := dp_same_depth_threshold dp;
          dp_views := dp_views dp ++ [v] |}.

(** [cv2] interpolation flags the module passes. *)
Inductive Interpolation : Type := INTER_AREA | INTER_NEAREST.

(** [np.ones(size, dtype=np.uint8)] and [np.zeros(size, dtype=np.uint8)] *)
Definition np_full (v : Z) (size : Z * Z) : Image :=
  replicate (Z.to_nat size.1) (replicate (Z.to_nat size.2) [v]).

(** [a // b] *)
Definition floor_div (a b : Z) : M Z :=
  if b =? 0 then raise ZeroDivisionError
  else mret (a / b).

(** [sep.join(l)] *)
Fixpoint join (sep : string) (l : list string) : string :=
  match l with
  | [] => ""
  | [x] => x
  | x :: l' => x +:+ sep +:+ join sep l'
  end.

(** What a subplot of the interactive display shows: an image, the plane
    normals as colours ([color_plane_normals(plane)]), or a map with its
    colour bar. *)
Inductive Subplot : Type :=
| ShowImage (image : Image)
| ShowNormals (plane : PlaneArray)
| ShowDepth (depth : DepthArray)
| ShowScore (score : ScoreArray)
| ShowIndex (nghbr : IndexArray).

(* ===================================================================== *)
(** ** Stage runners                                                     *)
(* ===================================================================== *)

Section Stages.

(** The numerical kernels of [pydense], as functions of the configured
    object. *)
Variable compute_brute_force :
  DepthmapEstimator -> result (DepthArray * PlaneArray * ScoreArray * IndexArray).
Variable compute_patch_match :
  DepthmapEstimator -> result (DepthArray * PlaneArray * ScoreArray * IndexArray).
Variable compute_patch_match_sample :
  DepthmapEstimator -> result (DepthArray * PlaneArray * ScoreArray * IndexArray).
Variable cleaner_clean : DepthmapCleaner -> result DepthArray.
Variable pruner_prune : DepthmapPruner -> result PointArrays.

(** [cv2.cvtColor(image, cv2.COLOR_RGB2GRAY)] and
    [cv2.resize(image, (width, height), interpolation=...)] *)
Variable cv2_cvtColor_RGB2GRAY : Image -> Image.
Variable cv2_resize : Image -> Z -> Z -> Interpolation -> result Image.

(** [depthmap_to_ply], the debug export, whose text no property here
    reads. *)
Variable depthmap_to_ply : Shot -> DepthArray -> Image -> string.

(** The interactive display, from [import matplotlib.pyplot] to
    [plt.show()], for the title and the subplots of the figure. It writes
    nothing to the dataset; it may raise, and it returns only when the
    window is closed. *)
Variable plt_show : string -> list Subplot -> result unit.

Definition scale_image (image : Image) (width height : Z)
    (interpolation : Interpolation) : M Image :=
  lift (cv2_resize image width height interpolation).

Definition scale_down_image (image : Image) (width height : Z)
    (interpolation : Interpolation) : M Image :=
  let width := Z.min width (shape image).2 in
  let height := Z.min height (shape image).1 in
  scale_image image width height interpolation.

Definition load_combined_mask (shot : Shot) : M Image :=
  mask ← load_undistorted_combined_mask (shot_id shot);
  match mask with
  | None =>
      let size := (height (camera shot), width (camera shot)) in
      mret (np_full 1 size)
  | Some mask => mret mask
  end.

Definition load_segmentation_labels (shot : Shot) : M Image :=
  b ← undistorted_segmentation_exists (shot_id shot);
  if b : bool then load_undistorted_segmentation (shot_id shot)
  else
    let size := (height (camera shot), width (camera shot)) in
    mret (np_full 0 size).

Definition add_views_to_depth_estimator (neighbors : list Shot)
    (de : DepthmapEstimator) : M DepthmapEstimator :=
  d ← get_data;
  let num_neighbors := depthmap_num_matching_views (config d) in
  for_each (py_slice_to neighbors (num_neighbors + 1))
    (fun de shot =>
       if bool_decide (projection_type (camera shot) = "perspective") then
         color_image ← load_undistorted_image (shot_id shot);
         mask ← load_combined_mask shot;
         let gray_image := cv2_cvtColor_RGB2GRAY color_image in
         let '(original_height, original_width) := shape gray_image in
         let width := Z.min original_width (depthmap_resolution (config d)) in
         height ← floor_div (width * original_height) original_width;
         image ← scale_down_image gray_image width height INTER_AREA;
         mask ← scale_image mask (shape image).2 (shape image).1 INTER_NEAREST;
         let K := get_K_in_pixel_coordinates (camera shot) width height in
         let R := get_rotation_matrix (pose shot) in
         let t := translation (pose shot) in
         de_add_view de
           {| ev_K := K; ev_R := R; ev_t := t; ev_image := image;
              ev_mask := mask |}
       else raise AssertionError)
    de.

Definition add_views_to_depth_cleaner (neighbors : list Shot)
    (dc : DepthmapCleaner) : M DepthmapCleaner :=
  for_each neighbors
    (fun dc shot =>
       b ← raw_depthmap_exists (shot_id shot);
       if negb b then mret dc
       else
         raw ← load_raw_depthmap (shot_id shot);
         let depth := raw_depth raw in
         let '(height, width) := shape depth in
         let K := get_K_in_pixel_coordinates (camera shot) width height in
         let R := get_rotation_matrix (pose shot) in
         let t := translation (pose shot) in
         dc_add_view dc {| cv_K := K; cv_R := R; cv_t := t; cv_depth := depth |})
    dc.

Definition add_views_to_depth_pruner (neighbors : list Shot)
    (dp : DepthmapPruner) : M DepthmapPruner :=
  for_each neighbors
    (fun dp shot =>
       b ← clean_depthmap_exists (shot_id shot);
       if negb b then mret dp
       else
         cl ← load_clean_depthmap (shot_id shot);
         let depth := clean_depth cl in
         let plane := clean_plane cl in
         color_image ← load_undistorted_image (shot_id shot);
         labels ← load_segmentation_labels shot;
         let '(height, width) := shape depth in
         image ← scale_down_image color_image width height INTER_AREA;
         labels ← scale_image labels (shape image).2 (shape image).1
                    INTER_NEAREST;
         let K := get_K_in_pixel_coordinates (camera shot) width height in
         let R := get_rotation_matrix (pose shot) in
         let t := translation (pose shot) in
         dp_add_view dp
           {| pv_K := K; pv_R := R; pv_t := t; pv_depth := depth;
              pv_plane := plane; pv_image := image; pv_labels := labels |})
    dp.

(** The dispatch on [depthmap_method]; the call is recorded before the
    kernel runs. *)
Definition de_compute (method : string) (de : DepthmapEstimator)
    : M (DepthArray * PlaneArray * ScoreArray * IndexArray) :=
  if bool_decide (method = "BRUTE_FORCE") then
    pydense_call Estimator "compute_brute_force";;
    lift (compute_brute_force de)
  else if bool_decide (method = "PATCH_MATCH") then
    pydense_call Estimator "compute_patch_match";;
    lift (compute_patch_match de)
  else if bool_decide (method = "PATCH_MATCH_SAMPLE") then
    pydense_call Estimator "compute_patch_match_sample";;
    lift (compute_patch_match_sample de)
  else
    raise (ValueError
      "Unknown depthmap method type (must be BRUTE_FORCE, PATCH_MATCH or PATCH_MATCH_SAMPLE)").

(** The estimator as [compute_depthmap] configures it, before the views
    are added. *)
Definition configure_estimator (min_depth max_depth : float)
    : M DepthmapEstimator :=
  d ← get_data;
  de ← new_DepthmapEstimator;
  de ← de_set_depth_range de min_depth max_depth 100;
  de ← de_set_patchmatch_iterations de
         (depthmap_patchmatch_iterations (config d));
  de ← de_set_patch_size de (depthmap_patch_size (config d));
  de_set_min_patch_sd de (depthmap_min_patch_sd (config d)).

(** [compute_depthmap(arguments)], with [arguments] unpacked; the dataset
    [arguments[0]] is the one of the world. *)
Definition compute_depthmap (neighbors : list Shot) (min_depth max_depth : float)
    (shot : Shot) : M unit :=
  d ← get_data;
  let method := depthmap_method (config d) in
  b ← raw_depthmap_exists (shot_id shot);
  if b : bool then
    logger_info ("Using precomputed raw depthmap " +:+ shot_id shot)
  else
    logger_info ("Computing depthmap for image " +:+ shot_id shot
                 +:+ " with " +:+ method);;
    de ← configure_estimator min_depth max_depth;
    de ← add_views_to_depth_estimator neighbors de;
    '(depth, plane, score, nghbr) ← de_compute method de;
    depth ← lift (mask_depth depth score max_depth
                    (depthmap_min_correlation_score (config d)));
    let neighbor_ids := map shot_id (py_slice_from neighbors 1) in
    save_raw_depthmap (shot_id shot) depth plane score nghbr neighbor_ids;;
    image ←
      (if depthmap_save_debug_files (config d) then
         image ← load_undistorted_image (shot_id shot);
         image ← scale_down_image image (shape depth).2 (shape depth).1
                   INTER_AREA;
         let ply := depthmap_to_ply shot depth image in
         write_text (depthmap_file (shot_id shot) "raw.npz.ply") ply;;
         mret (Some image)
       else mret None);
    if interactive (config d) then
      lift (plt_show
              ("Shot: " +:+ shot_id shot +:+ ", neighbors: "
               +:+ join ", " neighbor_ids)
              (match image with
               | Some image => [ShowImage image]
               | None => []
               end ++
               [ShowNormals plane; ShowDepth depth; ShowScore score;
                ShowIndex nghbr]))
    else mret tt.

(** [clean_depthmap(arguments)] *)
Definition clean_depthmap (neighbors : list Shot) (shot : Shot) : M unit :=
  d ← get_data;
  b ← clean_depthmap_exists (shot_id shot);
  if b : bool then
    logger_info ("Using precomputed clean depthmap " +:+ shot_id shot)
  else
    logger_info ("Cleaning depthmap for image " +:+ shot_id shot);;
    dc ← new_DepthmapCleaner;
    dc ← dc_set_same_depth_threshold dc
           (depthmap_same_depth_threshold (config d));
    dc ← dc_set_min_consistent_views dc
           (depthmap_min_consistent_views (config d));
    dc ← add_views_to_depth_cleaner neighbors dc;
    pydense_call Cleaner "clean";;
    depth ← lift (cleaner_clean dc);
    raw ← load_raw_depthmap (shot_id shot);
    save_clean_depthmap (shot_id shot) depth (raw_plane raw) (raw_score raw);;
    (if depthmap_save_debug_files (config d) then
       image ← load_undistorted_image (shot_id shot);
       image ← scale_down_image image (shape depth).2 (shape depth).1
                 INTER_AREA;
       let ply := depthmap_to_ply shot depth image in
       write_text (depthmap_file (shot_id shot) "clean.npz.ply") ply
     else mret tt);;
    if interactive (config d) then
      lift (plt_show ("Shot: " +:+ shot_id shot)
              [ShowDepth (raw_depth raw); ShowDepth depth])
    else mret tt.

(** [prune_depthmap(arguments)] *)
Definition prune_depthmap (neighbors : list Shot) (shot : Shot) : M unit :=
  d ← get_data;
  b ← pruned_depthmap_exists (shot_id shot);
  if b : bool then
    logger_info ("Using precomputed pruned depthmap " +:+ shot_id shot)
  else
    logger_info ("Pruning depthmap for image " +:+ shot_id shot);;
    dp ← new_DepthmapPruner;
    dp ← dp_set_same_depth_threshold dp
           (depthmap_same_depth_threshold (config d));
    dp ← add_views_to_depth_pruner neighbors dp;
    pydense_call Pruner "prune";;
    pa ← lift (pruner_prune dp);
    save_pruned_depthmap (shot_id shot) pa;;
    if depthmap_save_debug_files (config d) then
      save_point_cloud pa "pruned.npz.ply"
    else mret tt.

End Stages.

(* ===================================================================== *)
(** ** Job wrappers and the merge of the pruned depthmaps                *)
(* ===================================================================== *)

Definition logger_error : string -> M unit := logger_log ERROR.

Section Jobs.

Variable compute_brute_force :
  DepthmapEstimator -> result (DepthArray * PlaneArray * ScoreArray * IndexArray).
Variable compute_patch_match :
  DepthmapEstimator -> result (DepthArray * PlaneArray * ScoreArray * IndexArray).
Variable compute_patch_match_sample :
  DepthmapEstimator -> result (DepthArray * PlaneArray * ScoreArray * IndexArray).
Variable cleaner_clean : DepthmapCleaner -> result DepthArray.
Variable pruner_prune : DepthmapPruner -> result PointArrays.
Variable cv2_cvtColor_RGB2GRAY : Image -> Image.
Variable cv2_resize : Image -> Z -> Z -> Interpolation -> result Image.
Variable depthmap_to_ply : Shot -> DepthArray -> Image -> string.
Variable plt_show : string -> list Subplot -> result unit.

(** The text [logger.exception(e)] records for an exception. *)
Variable format_exception : exn -> string.

(** [try: job except Exception as e: logger.error(...); logger.exception(e)],
    where [arguments] is the text of ["{}".format(arguments)]. *)
Definition try_except_log (arguments : string) (job : M unit) : M unit :=
  fun w =>
    match job w with
    | (Ok _, w') => (Ok tt, w')
    | (Raise e, w') =>
        (logger_error ("Exception on child. Arguments: " +:+ arguments);;
         logger_error (format_exception e)) w'
    end.

Definition compute_depthmap_catched (arguments : string)
    (neighbors : list Shot) (min_depth max_depth : float) (shot : Shot)
    : M unit :=
  try_except_log arguments
    (compute_depthmap compute_brute_force compute_patch_match
       compute_patch_match_sample cv2_cvtColor_RGB2GRAY cv2_resize
       depthmap_to_ply plt_show neighbors min_depth max_depth shot).

Definition clean_depthmap_catched (arguments : string)
    (neighbors : list Shot) (shot : Shot) : M unit :=
  try_except_log arguments
    (clean_depthmap cleaner_clean cv2_resize depthmap_to_ply plt_show
       neighbors shot).

Definition prune_depthmap_catched (arguments : string)
    (neighbors : list Shot) (shot : Shot) : M unit :=
  try_except_log arguments
    (prune_depthmap pruner_prune cv2_resize neighbors shot).

End Jobs.

Section Merge.

(** The shot ids in the order in which [reconstruction.shots] iterates
    them, which is the mapping type's own. *)
Variable iter_shots : Reconstruction -> list string.

(** [merge_depthmaps(data, reconstruction)]. The shot ids are those that
    iterating [reconstruction.shots] gives, in that order, that have a
    pruned depthmap; the provider loads from the dataset, which merging does
    not change. *)
Definition merge_depthmaps (reconstruction : Reconstruction) : M PointArrays :=
  shot_ids ←
    for_each (iter_shots reconstruction)
      (fun shot_ids s =>
         b ← pruned_depthmap_exists s;
         mret (if b : bool then shot_ids ++ [s] else shot_ids))
      [];
  d ← get_data;
  let depthmap_provider := fun shot_id =>
    match pruned_depthmaps d !! shot_id with
    | Some pa => Ok pa
    | None => Raise (IOError shot_id)
    end in
  merge_depthmaps_from_provider shot_ids depthmap_provider.

End Merge.

(* ===================================================================== *)
(** ** Vocabulary of the properties                                      *)
(* ===================================================================== *)

(** The row of the common-track table that [find_neighboring_images]
    iterates over for [shot]. *)
Definition candidate_row (common_tracks : PyDict.dict (PyDict.dict (list string)))
    (shot : Shot) : list (string * list string) :=
  PyDict.items (PyDict.get_default common_tracks (shot_id shot) PyDict.empty).

(** The shared tracks that qualify: a reconstructed point, seen under an
    angle strictly between pi/60 and pi/6. *)
Definition qualifying_tracks (arccos : float -> float)
    (reconstruction : Reconstruction) (shot other : Shot)
    (tracks : list string) : list string :=
  List.filter
    (good_track arccos reconstruction (get_origin (pose shot))
       (get_origin (pose other)))
    tracks.

(** What one entry of the row adds to [ns]. *)
Definition candidate_entry (arccos : float -> float) (shot : Shot)
    (reconstruction : Reconstruction) (item : string * list string)
    : list (Shot * Z) :=
  match shots reconstruction !! item.1 with
  | Some other =>
      let score :=
        track_score arccos reconstruction (get_origin (pose shot))
          (get_origin (pose other)) item.2 in
      if 20 <? score then [(other, score)] else []
  | None => []
  end.

(** Descending order of the scores of two ranked candidates. *)
Definition score_ge (a b : Shot * Z) : Prop := b.2 <= a.2.

(** The view the clean stage gives the cleaner for a neighbor that has a
    raw depthmap. *)
Definition cleaner_view (shot : Shot) (raw : RawDepthmap) : CleanerView :=
  let depth := raw_depth raw in
  let '(height, width) := shape depth in
  {| cv_K := get_K_in_pixel_coordinates (camera shot) width height;
     cv_R := get_rotation_matrix (pose shot);
     cv_t := translation (pose shot);
     cv_depth := depth |}.

Definition cleaner_views (d : DataSet) (neighbors : list Shot)
    : list CleanerView :=
  omap
    (fun shot => cleaner_view shot <$> raw_depthmaps d !! shot_id shot)
    neighbors.

(** The cleaner as [clean_depthmap] has it when it calls [clean]. *)
Definition configured_cleaner (d : DataSet) (neighbors : list Shot)
    : DepthmapCleaner :=
  {| dc_same_depth_threshold := Some (depthmap_same_depth_threshold (config d));
     dc_min_consistent_views := Some (depthmap_min_consistent_views (config d));
     dc_views := cleaner_views d neighbors |}.

(** A computation that leaves the dataset as it found it, whether it
    returns or raises. *)
Definition keeps_data {A} (c : M A) : Prop :=
  forall w, data (c w).2 = data w.

(** A computation that leaves the three depthmap stores as it found them. *)
Definition keeps_depthmaps {A} (c : M A) : Prop :=
  forall w,
    raw_depthmaps (data (c w).2) = raw_depthmaps (data w) /\
    clean_depthmaps (data (c w).2) = clean_depthmaps (data w) /\
    pruned_depthmaps (data (c w).2) = pruned_depthmaps (data w).

(** An array of [h] rows of [w] elements. *)
Definition has_shape {A} (h w : nat) (a : list (list A)) : Prop :=
  length a = h /\ Forall (fun row => length row = w) a.

(** The first product of the masking, for one pixel. *)
Definition below (t : float) (x : float) : float :=
  (x * bool_to_float (x <? t))%float.

(** The outcome of a wrapped job, for the outcome of the job itself: a
    normal return, the dataset and the pydense calls as the job left them,
    and the log of the job, followed after a failure by the two ERROR
    records. *)
Definition catches (format_exception : exn -> string) (arguments : string)
    (job wrapped : result unit * World) : Prop :=
  wrapped.1 = Ok tt /\
  data wrapped.2 = data job.2 /\
  pydense_calls wrapped.2 = pydense_calls job.2 /\
  log_records wrapped.2
  = log_records job.2 ++
    match job.1 with
    | Ok _ => []
    | Raise e =>
        [(ERROR, "Exception on child. Arguments: " +:+ arguments);
         (ERROR, format_exception e)]
    end.

(** The pixel of a two-dimensional array at row [i] and column [j]. *)
Definition pixel {A} (a : list (list A)) (i j : nat) : option A :=
  match a !! i with
  | Some row => row !! j
  | None => None
  end.

(** C4 as the specification words it, for the depth and score maps the
    estimator returned and the depth map that was saved: a pixel at or above
    the maximum depth or at or below the score threshold is saved as zero,
    every other pixel is saved non-zero and equal to the estimator's. *)
Definition masking_as_stated (depth : DepthArray) (score : ScoreArray)
    (saved : DepthArray) (max_depth min_correlation_score : float) : Prop :=
  forall i j d s v,
    pixel depth i j = Some d -> pixel score i j = Some s ->
    pixel saved i j = Some v ->
    (((max_depth <=? d) || (s <=? min_correlation_score))%float = true ->
     is_zero v = true) /\
    (((max_depth <=? d) || (s <=? min_correlation_score))%float = false ->
     is_zero v = false /\ v = d).

(** The invariant of the loop over the pairs, after the pairs [done]. *)
Definition table_invariant (ids : list string)
    (done : list ((string * string) * list string))
    (res : PyDict.dict (PyDict.dict (list string))) : Prop :=
  (forall a b, lookup2 res a b = lookup2 res b a) /\
  (forall a b v, In ((a, b), v) done -> is_Some (lookup2 res a b)) /\
  (forall a b v, lookup2 res a b = Some v ->
     In ((a, b), v) done \/ In ((b, a), v) done) /\
  (forall image, In image ids -> is_Some (PyDict.get res image)) /\
  (forall image, In image ids ->
     (forall a b v, In ((a, b), v) done -> image ≠ a /\ image ≠ b) ->
     PyDict.get res image = Some PyDict.empty).

(** A store after a stage that may have written the entry of [image] and
    nothing else. *)
Definition writes_at {V} (image : string) (before after : gmap string V)
    : Prop :=
  after = before \/ exists a, after = <[image := a]> before.

(** The datasets a stage may leave behind: it may have written the entry of
    its shot in its own store, the other two stores are as before. *)
Definition estimate_frame (image : string) (d d' : DataSet) : Prop :=
  writes_at image (raw_depthmaps d) (raw_depthmaps d') /\
  clean_depthmaps d' = clean_depthmaps d /\
  pruned_depthmaps d' = pruned_depthmaps d.

Definition clean_frame (image : string) (d d' : DataSet) : Prop :=
  raw_depthmaps d' = raw_depthmaps d /\
  writes_at image (clean_depthmaps d) (clean_depthmaps d') /\
  pruned_depthmaps d' = pruned_depthmaps d.

Definition prune_frame (image : string) (d d' : DataSet) : Prop :=
  raw_depthmaps d' = raw_depthmaps d /\
  clean_depthmaps d' = clean_depthmaps d /\
  writes_at image (pruned_depthmaps d) (pruned_depthmaps d').

(* ===================================================================== *)
(** ** Executable stand-ins for the NumPy routines                       *)
(* ===================================================================== *)

(** The theorems below hold for every [arccos] and [percentile]. The
    closed examples need functions that run; these are used there. *)

Definition float_of_nat (n : nat) : float :=
  PrimFloat.of_uint63 (Uint63.of_Z (Z.of_nat n)).

(** The cosine by its Taylor polynomial of degree 40, in Horner form. *)
Fixpoint cos_horner (k : nat) (x2 acc : float) : float :=
  match k with
  | O => acc
  | S k' =>
      let n := float_of_nat ((2 * k) * (2 * k - 1)) in
      cos_horner k' x2 (1 - x2 / n * acc)%float
  end.

Definition cos_taylor (x : float) : float := cos_horner 20 (x * x)%float 1%float.

Fixpoint bisect_cos (fuel : nat) (lo hi x : float) : float :=
  match fuel with
  | O => ((lo + hi) / 2)%float
  | S fuel' =>
      let mid := ((lo + hi) / 2)%float in
      if (cos_taylor mid <? x)%float then bisect_cos fuel' lo mid x
      else bisect_cos fuel' mid hi x
  end.

(** The angle in [0, pi] whose cosine is [x], by bisection; [nan] outside
    [-1, 1]. *)
Definition arccos_bisect (x : float) : float :=
  if ((-1 <=? x) && (x <=? 1))%float then bisect_cos 64 0%float np_pi x
  else nan.

Fixpoint insert_float (x : float) (l : list float) : list float :=
  match l with
  | [] => [x]
  | y :: l' => if (x <=? y)%float then x :: y :: l' else y :: insert_float x l'
  end.

Definition sort_floats (l : list float) : list float :=
  foldr insert_float [] l.

(** The largest [k <= fuel + k0] with [k <= v], counting up from [k0]. *)
Fixpoint floor_index (fuel k0 : nat) (v : float) : nat :=
  match fuel with
  | O => k0
  | S fuel' =>
      if (float_of_nat (S k0) <=? v)%float then floor_index fuel' (S k0) v
      else k0
  end.

(** NumPy's interpolation between two neighbours. *)
Definition np_lerp (a b t : float) : float :=
  let diff_b_a := (b - a)%float in
  if (diff_b_a =? 0)%float then a
  else if (0.5 <=? t)%float then (b - diff_b_a * (1 - t))%float
  else (a + diff_b_a * t)%float.

(** The percentile of a sample without NaN by NumPy's default (linear)
    method; an empty sample has no element to take and raises. *)
Definition np_percentile (sample : list float) (q : float) : result float :=
  if negb ((0 <=? q) && (q <=? 100))%float then
    Raise (ValueError "Percentiles must be in the range [0, 100]")
  else
    match sort_floats sample with
    | [] => Raise IndexError
    | (x0 :: _) as sorted =>
        let n := length sorted in
        let virtual_index := (float_of_nat (n - 1) * (q / 100))%float in
        let previous := floor_index n 0 virtual_index in
        let gamma := (virtual_index - float_of_nat previous)%float in
        let a := nth previous sorted x0 in
        let b := nth (Nat.min (S previous) (n - 1)) sorted x0 in
        Ok (np_lerp a b gamma)
    end.

(* ===================================================================== *)
(** ** A small scene for the closed examples                             *)
(* ===================================================================== *)

Module Scene.

(** A pose with the identity rotation and the given camera centre. *)
Definition pose_at (origin : Vec3) : Pose :=
  let '(o0, o1, o2) := origin in
  {| get_origin := origin;
     transform := fun p =>
       let '(p0, p1, p2) := p in ((p0 - o0)%float, (p1 - o1)%float, (p2 - o2)%float);
     get_rotation_matrix :=
       ((1%float, 0%float, 0%float), (0%float, 1%float, 0%float),
        (0%float, 0%float, 1%float));
     translation := ((- o0)%float, (- o1)%float, (- o2)%float) |}.

Definition perspective_camera : Camera :=
  {| projection_type := "perspective"; width := 2; height := 2;
     get_K_in_pixel_coordinates := fun w h =>
       ((float_of_nat (Z.to_nat w), 0%float, 0%float),
        (0%float, float_of_nat (Z.to_nat h), 0%float),
        (0%float, 0%float, 1%float)) |}.

Definition shot_at (name : string) (origin : Vec3) : Shot :=
  {| shot_id := name; pose := pose_at origin; camera := perspective_camera |}.

Definition shot_a : Shot := shot_at "a" (0%float, 0%float, 0%float).
Definition shot_b : Shot := shot_at "b" (1%float, 0%float, 0%float).
Definition shot_c : Shot := shot_at "c" ((-1)%float, 0%float, 0%float).

(** Twenty-one tracks, each triangulated four units in front of the
    cameras; [track_ids20] lacks the last one. *)
Definition track_ids : list string :=
  ["t01"; "t02"; "t03"; "t04"; "t05"; "t06"; "t07"; "t08"; "t09"; "t10";
   "t11"; "t12"; "t13"; "t14"; "t15"; "t16"; "t17"; "t18"; "t19"; "t20";
   "t21"].

Definition track_ids20 : list string := take 20 track_ids.

Definition reconstruction : Reconstruction :=
  {| shots :=
       <["a" := shot_a]> (<["b" := shot_b]> (<["c" := shot_c]> ∅));
     points :=
       list_to_map
         (map (fun t => (t, {| coordinates := (0.5%float, 0%float, 4%float) |}))
            track_ids) |}.

(** The row of [a] lists [b], then [c], then a shot [d] that the
    reconstruction does not have. *)
Definition common_tracks : PyDict.dict (PyDict.dict (list string)) :=
  [("a", [("b", track_ids); ("c", track_ids); ("d", track_ids)]);
   ("b", [("a", track_ids)]);
   ("c", [("a", track_ids)]);
   ("d", [("a", track_ids)])].

Definition tracks_manager : TracksManager :=
  {| get_shot_ids := ["a"; "b"; "c"; "d"];
     get_shot_observations := fun _ => track_ids |}.

Definition common_tracks_per_pair (_ : TracksManager)
    : list ((string * string) * list string) :=
  [(("a", "b"), track_ids); (("a", "c"), track_ids); (("a", "d"), track_ids)].

(** A shot whose observed tracks were not triangulated. *)
Definition tracks_manager_unreconstructed : TracksManager :=
  {| get_shot_ids := ["a"];
     get_shot_observations := fun _ => ["u1"; "u2"] |}.

(** The minimum depth is left to the reconstruction, the maximum is set. *)
Definition settings : Config :=
  {| depthmap_method := "PATCH_MATCH";
     depthmap_min_depth := PyInt 0;
     depthmap_max_depth := PyFloat 7;
     depthmap_patchmatch_iterations := 3;
     depthmap_patch_size := 7;
     depthmap_min_patch_sd := 1;
     depthmap_min_correlation_score := 0.1;
     depthmap_same_depth_threshold := 0.01;
     depthmap_min_consistent_views := 3;
     depthmap_num_matching_views := 6;
     depthmap_resolution := 640;
     depthmap_save_debug_files := true;
     interactive := false |}.

(** A two-by-two colour picture, used for every shot. *)
Definition picture : Image :=
  [[[10; 10; 10]; [20; 20; 20]]; [[30; 30; 30]; [40; 40; 40]]].

(** A dataset with the pictures of [a], [b] and [c] and no depthmap yet. *)
Definition dataset : DataSet :=
  {| config := settings;
     raw_depthmaps := ∅;
     clean_depthmaps := ∅;
     pruned_depthmaps := ∅;
     undistorted_images :=
       <["a" := picture]> (<["b" := picture]> (<["c" := picture]> ∅));
     undistorted_combined_masks := ∅;
     undistorted_segmentations := ∅;
     point_clouds := ∅;
     text_files := ∅ |}.

Definition world : World :=
  {| data := dataset; log_records := []; pydense_calls := [] |}.

(** An estimator whose four pixels are: depth zero with a good score, a
    good pixel, a depth beyond the maximum 7, and the score
    [np.float32(0.1)], which is above the configured 0.1 and not above its
    float32. *)
Definition estimated_depth : DepthArray :=
  [[0%float; 2%float]; [8%float; 3%float]].

Definition estimated_score : ScoreArray :=
  [[0.5%float; 0.5%float]; [0.5%float; 0x1.99999ap-4%float]].

Definition estimated_plane : PlaneArray :=
  replicate 2 (replicate 2 (0%float, 0%float, 1%float)).

Definition estimator_kernel (_ : DepthmapEstimator)
    : result (DepthArray * PlaneArray * ScoreArray * IndexArray) :=
  Ok (estimated_depth, estimated_plane, estimated_score, [[1; 1]; [1; 1]]).

Definition cleaner_kernel (_ : DepthmapCleaner) : result DepthArray :=
  Ok [[0%float; 2%float]; [0%float; 0%float]].

Definition points_of_a : PointArrays :=
  {| pa_points := [(0.5%float, 0%float, 4%float); (0.6%float, 0%float, 4%float)];
     pa_normals := [(0%float, 0%float, 1%float); (0%float, 0%float, 1%float)];
     pa_colors := [(10, 10, 10); (20, 20, 20)];
     pa_labels := [0; 0] |}.

Definition points_of_b : PointArrays :=
  {| pa_points := [(0.7%float, 0%float, 4%float)];
     pa_normals := [(0%float, 0%float, 1%float)];
     pa_colors := [(30, 30, 30)];
     pa_labels := [1] |}.

Definition pruner_kernel (_ : DepthmapPruner) : result PointArrays :=
  Ok points_of_a.

Definition pruned_provider (image : string) : result PointArrays :=
  if decide (image = "a") then Ok points_of_a
  else if decide (image = "b") then Ok points_of_b
  else Raise (IOError image).

(** Stand-ins for OpenCV: the first channel as the grey value, and a
    blank picture of the requested size. *)
Definition to_gray (image : Image) : Image := map (map (take 1)) image.

Definition resize (image : Image) (w h : Z) (_ : Interpolation)
    : result Image :=
  Ok (np_full 0 (h, w)).

Definition to_ply (_ : Shot) (_ : DepthArray) (_ : Image) : string := "ply".

(** A display that is closed at once. *)
Definition show (_ : string) (_ : list Subplot) : result unit := Ok tt.

(** The estimate, clean and prune stages of [a] with neighbor [b]. *)
Definition run_estimate (w : World) : result unit * World :=
  compute_depthmap estimator_kernel estimator_kernel estimator_kernel to_gray
    resize to_ply show [shot_a; shot_b] 1%float 7%float shot_a w.

Definition run_clean (w : World) : result unit * World :=
  clean_depthmap cleaner_kernel resize to_ply show [shot_a; shot_b] shot_a w.

Definition run_prune (w : World) : result unit * World :=
  prune_depthmap pruner_kernel resize [shot_a; shot_b] shot_a w.

(** A track graph that knows [a], [b] and [c] only, while a pair names
    [d]. *)
Definition tracks_manager_abc : TracksManager :=
  {| get_shot_ids := ["a"; "b"; "c"];
     get_shot_observations := fun _ => track_ids |}.

(** The dataset again, configured with a method the module does not
    know. *)
Definition world_unknown_method : World :=
  {| data :=
       {| config :=
            {| depthmap_method := "SEMI_GLOBAL";
               depthmap_min_depth := PyInt 0;
               depthmap_max_depth := PyFloat 7;
               depthmap_patchmatch_iterations := 3;
               depthmap_patch_size := 7;
               depthmap_min_patch_sd := 1;
               depthmap_min_correlation_score := 0.1;
               depthmap_same_depth_threshold := 0.01;
               depthmap_min_consistent_views := 3;
               depthmap_num_matching_views := 6;
               depthmap_resolution := 640;
               depthmap_save_debug_files := true;
               interactive := false |};
          raw_depthmaps := ∅;
          clean_depthmaps := ∅;
          pruned_depthmaps := ∅;
          undistorted_images :=
            <["a" := picture]> (<["b" := picture]> (<["c" := picture]> ∅));
          undistorted_combined_masks := ∅;
          undistorted_segmentations := ∅;
          point_clouds := ∅;
          text_files := ∅ |};
     log_records := [];
     pydense_calls := [] |}.

End Scene.

(* ===================================================================== *)
(** * Properties                                                         *)
(* ===================================================================== *)

(** ** Python containers *)

Lemma get_set_eq {V} (d : PyDict.dict V) k v :
  PyDict.get (PyDict.set d k v) k = Some v.
Proof.
  induction d as [|[k' v'] d IH]; simpl.
  - by rewrite decide_True.
  - destruct (decide (k' = k)) as [->|Hne]; simpl.
    + by rewrite decide_True.
    + by rewrite decide_False.
Qed.

Lemma get_set_ne {V} (d : PyDict.dict V) k k0 v :
  k ≠ k0 -> PyDict.get (PyDict.set d k v) k0 = PyDict.get d k0.
Proof.
  intros Hne. induction d as [|[k' v'] d IH]; simpl.
  - by rewrite decide_False.
  - destruct (decide (k' = k)) as [->|Hne']; simpl.
    + by rewrite !decide_False.
    + destruct (decide (k' = k0)); [done | apply IH].
Qed.

Lemma py_slice_to_take {A} (l : list A) (n : Z) :
  exists k, py_slice_to l n = take k l.
Proof. unfold py_slice_to. destruct (0 <=? n); eauto. Qed.

Lemma py_slice_to_length {A} (l : list A) (n : Z) :
  0 <= n -> Z.of_nat (length (py_slice_to l n)) <= n.
Proof.
  intros Hn. unfold py_slice_to.
  destruct (Z.leb_spec 0 n); [|lia].
  rewrite length_take. lia.
Qed.

Lemma py_slice_to_all {A} (l : list A) (n : Z) :
  Z.of_nat (length l) <= n -> py_slice_to l n = l.
Proof.
  intros Hn. unfold py_slice_to.
  destruct (Z.leb_spec 0 n); [|lia].
  apply take_ge. lia.
Qed.

Lemma In_take {A} (k : nat) (l : list A) x : In x (take k l) -> In x l.
Proof.
  revert k. induction l as [|y l IH]; intros [|k]; simpl; try tauto.
  intros [->|H]; [by left | right; eauto].
Qed.

Lemma StronglySorted_take {A} (R : A -> A -> Prop) (k : nat) (l : list A) :
  StronglySorted R l -> StronglySorted R (take k l).
Proof.
  intros Hs. revert k. induction Hs as [|x l Hs IH Hall]; intros [|k]; simpl.
  - constructor.
  - constructor.
  - constructor.
  - constructor; [apply IH|].
    rewrite Forall_forall in Hall |- *.
    intros y Hy. apply Hall. apply list_elem_of_In.
    apply list_elem_of_In in Hy. by eapply In_take.
Qed.

(** ** Neighbor selection *)

Section NeighborFacts.

Variable arccos : float -> float.

Lemma track_score_fold reconstruction C1 C2 tracks acc :
  fold_left
    (fun score track =>
       if good_track arccos reconstruction C1 C2 track then score + 1
       else score)
    tracks acc
  = acc + Z.of_nat
      (length (List.filter (good_track arccos reconstruction C1 C2) tracks)).
Proof.
  revert acc. induction tracks as [|t tracks IH]; intros acc; simpl.
  - lia.
  - rewrite IH. destruct (good_track _ _ _ _ t); simpl; lia.
Qed.

Lemma track_score_count reconstruction shot other tracks :
  track_score arccos reconstruction (get_origin (pose shot))
    (get_origin (pose other)) tracks
  = Z.of_nat (length (qualifying_tracks arccos reconstruction shot other tracks)).
Proof. unfold track_score, qualifying_tracks. by rewrite track_score_fold. Qed.

Lemma neighbor_step_fold shot reconstruction row acc :
  fold_left (neighbor_step arccos shot reconstruction) row acc
  = acc ++ flat_map (candidate_entry arccos shot reconstruction) row.
Proof.
  revert acc. induction row as [|[other_id tracks] row IH]; intros acc; simpl.
  - by rewrite app_nil_r.
  - rewrite IH. unfold candidate_entry; simpl.
    destruct (shots reconstruction !! other_id) as [other|]; [|done].
    destruct (20 <? _); [|done].
    by rewrite <- app_assoc.
Qed.

Lemma scored_neighbors_entries shot common_tracks reconstruction :
  scored_neighbors arccos shot common_tracks reconstruction
  = flat_map (candidate_entry arccos shot reconstruction)
      (candidate_row common_tracks shot).
Proof. unfold scored_neighbors. by rewrite neighbor_step_fold. Qed.

Lemma In_scored_neighbors shot common_tracks reconstruction x :
  In x (scored_neighbors arccos shot common_tracks reconstruction) <->
  exists other_id tracks,
    In (other_id, tracks) (candidate_row common_tracks shot) /\
    shots reconstruction !! other_id = Some x.1 /\
    x.2 = track_score arccos reconstruction (get_origin (pose shot))
            (get_origin (pose x.1)) tracks /\
    20 < x.2.
Proof.
  rewrite scored_neighbors_entries, in_flat_map. split.
  - intros [[other_id tracks] [Hin Hx]]. exists other_id, tracks.
    unfold candidate_entry in Hx; simpl in Hx.
    destruct (shots reconstruction !! other_id) as [other|]; [|done].
    destruct (Z.ltb_spec 20
      (track_score arccos reconstruction (get_origin (pose shot))
         (get_origin (pose other)) tracks)); [|done].
    destruct Hx as [<-|[]]. simpl. auto.
  - intros (other_id & tracks & Hin & Hs & Hsc & Hlt).
    exists (other_id, tracks). split; [done|].
    unfold candidate_entry; simpl. rewrite Hs, <- Hsc.
    destruct (Z.ltb_spec 20 x.2); [|lia].
    left. by destruct x.
Qed.

Lemma insert_by_score_perm x l : Permutation (insert_by_score x l) (x :: l).
Proof.
  induction l as [|y l IH]; simpl; [done|].
  destruct (x.2 <? y.2); [|done].
  rewrite IH. apply perm_swap.
Qed.

Lemma sort_by_score_desc_perm l : Permutation (sort_by_score_desc l) l.
Proof.
  induction l as [|x l IH]; simpl; [done|].
  rewrite insert_by_score_perm. by constructor.
Qed.

Lemma insert_by_score_sorted x l :
  StronglySorted score_ge l -> StronglySorted score_ge (insert_by_score x l).
Proof.
  induction 1 as [|y l Hs IH Hall]; simpl.
  - repeat constructor.
  - destruct (Z.ltb_spec x.2 y.2) as [Hlt|Hge].
    + constructor; [done|].
      rewrite (insert_by_score_perm x l).
      constructor; [unfold score_ge; lia | done].
    + constructor; [by constructor|].
      constructor; [unfold score_ge; lia|].
      eapply Forall_impl; [exact Hall|].
      unfold score_ge. intros z Hz. simpl in Hz. lia.
Qed.

Lemma sort_by_score_desc_sorted l : StronglySorted score_ge (sort_by_score_desc l).
Proof.
  induction l as [|x l IH]; simpl; [constructor|].
  by apply insert_by_score_sorted.
Qed.

End NeighborFacts.

Section NeighborTheorems.

Variable arccos : float -> float.

Lemma result_tail shot common_tracks reconstruction N :
  tail (find_neighboring_images arccos shot common_tracks reconstruction N)
  = map fst
      (py_slice_to
         (sort_by_score_desc
            (scored_neighbors arccos shot common_tracks reconstruction)) N).
Proof. reflexivity. Qed.

Lemma In_result_tail shot common_tracks reconstruction N n :
  In n (tail (find_neighboring_images arccos shot common_tracks reconstruction N)) ->
  exists score,
    In (n, score) (scored_neighbors arccos shot common_tracks reconstruction).
Proof.
  rewrite result_tail, in_map_iff. intros [[n' score] [Hn Hin]].
  simpl in Hn; subst n'. exists score.
  destruct (py_slice_to_take
    (sort_by_score_desc
       (scored_neighbors arccos shot common_tracks reconstruction)) N)
    as [k Hk].
  rewrite Hk in Hin. apply In_take in Hin.
  eapply Permutation_in; [apply sort_by_score_desc_perm | exact Hin].
Qed.

(** C1 (amended). For an entry of the target's row whose shot the
    reconstruction has: the score is the number of shared tracks that have a
    reconstructed point seen under an angle strictly between pi/60 and pi/6;
    the candidate is entered in the ranked list exactly when its score is
    strictly greater than 20; a candidate above the threshold (21 qualifying
    tracks suffice) is returned whenever the survivors fit in the budget;
    every returned neighbor comes from an entry above the threshold, so a
    candidate with 20 qualifying tracks or fewer is not returned. *)
Theorem neighbor_score_threshold shot common_tracks reconstruction N
    other_id tracks other :
  In (other_id, tracks) (candidate_row common_tracks shot) ->
  shots reconstruction !! other_id = Some other ->
  let score :=
    track_score arccos reconstruction (get_origin (pose shot))
      (get_origin (pose other)) tracks in
  let result :=
    find_neighboring_images arccos shot common_tracks reconstruction N in
  score
  = Z.of_nat
      (length (qualifying_tracks arccos reconstruction shot other tracks)) /\
  (In (other, score)
      (scored_neighbors arccos shot common_tracks reconstruction)
   <-> 20 < score) /\
  (20 < score ->
   Z.of_nat
     (length (scored_neighbors arccos shot common_tracks reconstruction)) <= N ->
   In other (tail result)) /\
  (forall n, In n (tail result) ->
     exists id' tracks',
       In (id', tracks') (candidate_row common_tracks shot) /\
       shots reconstruction !! id' = Some n /\
       20 < track_score arccos reconstruction (get_origin (pose shot))
              (get_origin (pose n)) tracks') /\
  (score <= 20 ->
   NoDup (map fst (candidate_row common_tracks shot)) ->
   (forall k s, shots reconstruction !! k = Some s -> shot_id s = k) ->
   ~ In other (tail result)).
Proof.
  intros Hrow Hshot score result.
  assert (Hback : forall n, In n (tail result) ->
     exists id' tracks',
       In (id', tracks') (candidate_row common_tracks shot) /\
       shots reconstruction !! id' = Some n /\
       20 < track_score arccos reconstruction (get_origin (pose shot))
              (get_origin (pose n)) tracks').
  { intros n Hn. apply In_result_tail in Hn as [sc Hsc].
    apply In_scored_neighbors in Hsc as (id' & tracks' & Hin & Hs & Heq & Hlt).
    simpl in *. exists id', tracks'. rewrite <- Heq. auto. }
  split; [apply track_score_count|].
  split.
  { rewrite In_scored_neighbors. simpl. split.
    - intros (_ & _ & _ & _ & _ & Hlt). exact Hlt.
    - intros Hlt. exists other_id, tracks. auto. }
  split.
  { intros Hlt Hfit. subst result. rewrite result_tail.
    rewrite py_slice_to_all.
    2:{ rewrite (Permutation_length (sort_by_score_desc_perm _)). exact Hfit. }
    apply (in_map fst _ (other, score)).
    eapply Permutation_in; [symmetry; apply sort_by_score_desc_perm|].
    apply In_scored_neighbors. simpl. exists other_id, tracks. auto. }
  split; [exact Hback|].
  intros Hle Hnodup Hid Hin.
  destruct (Hback _ Hin) as (id' & tracks' & Hin' & Hs' & Hlt).
  assert (id' = other_id) as ->.
  { rewrite <- (Hid _ _ Hs'). apply (Hid _ _ Hshot). }
  assert (tracks' = tracks) as ->.
  { clear -Hnodup Hin' Hrow.
    induction (candidate_row common_tracks shot) as [|[k v] row IH];
      simpl in *; [done|].
    apply NoDup_cons in Hnodup as [Hnotin Hnodup].
    destruct Hin' as [Heq1|Hin1], Hrow as [Heq2|Hin2].
    - congruence.
    - injection Heq1 as -> ->. exfalso. apply Hnotin.
      apply list_elem_of_In. by apply (in_map fst _ (other_id, tracks)).
    - injection Heq2 as -> ->. exfalso. apply Hnotin.
      apply list_elem_of_In. by apply (in_map fst _ (other_id, tracks')).
    - by apply IH. }
  subst score. lia.
Qed.

(** C2. For a budget [N >= 0] the result starts with the queried shot, has
    at most [N + 1] elements, and its other elements are candidates of the
    ranked list in descending order of their scores. *)
Theorem neighbor_list_shape shot common_tracks reconstruction N :
  0 <= N ->
  let result :=
    find_neighboring_images arccos shot common_tracks reconstruction N in
  head result = Some shot /\
  Z.of_nat (length result) <= N + 1 /\
  exists ns,
    tail result = map fst ns /\
    StronglySorted score_ge ns /\
    forall x, In x ns ->
      In x (scored_neighbors arccos shot common_tracks reconstruction).
Proof.
  intros HN result. split; [done|]. split.
  - subst result. unfold find_neighboring_images.
    rewrite length_app, length_map. simpl.
    pose proof (py_slice_to_length
      (sort_by_score_desc
         (scored_neighbors arccos shot common_tracks reconstruction)) N HN).
    lia.
  - exists (py_slice_to
      (sort_by_score_desc
         (scored_neighbors arccos shot common_tracks reconstruction)) N).
    split; [apply result_tail|].
    destruct (py_slice_to_take
      (sort_by_score_desc
         (scored_neighbors arccos shot common_tracks reconstruction)) N)
      as [k ->].
    split.
    + apply StronglySorted_take, sort_by_score_desc_sorted.
    + intros x Hx. apply In_take in Hx.
      eapply Permutation_in; [apply sort_by_score_desc_perm | exact Hx].
Qed.

(** C10. Every returned neighbor is looked up in the reconstruction's
    shot mapping under a key of the target's row; an entry of the row whose
    key the mapping lacks can be deleted from the table without changing
    the result, whatever tracks it lists. *)
Theorem absent_shot_skipped shot common_tracks reconstruction N :
  (forall n,
     In n (tail (find_neighboring_images arccos shot common_tracks
                   reconstruction N)) ->
     exists other_id tracks,
       In (other_id, tracks) (candidate_row common_tracks shot) /\
       shots reconstruction !! other_id = Some n) /\
  (forall pre post other_id tracks,
     PyDict.get common_tracks (shot_id shot)
       = Some (pre ++ (other_id, tracks) :: post) ->
     shots reconstruction !! other_id = None ->
     candidate_entry arccos shot reconstruction (other_id, tracks) = [] /\
     find_neighboring_images arccos shot common_tracks reconstruction N
     = find_neighboring_images arccos shot
         (PyDict.set common_tracks (shot_id shot) (pre ++ post))
         reconstruction N).
Proof.
  split.
  - intros n Hn. apply In_result_tail in Hn as [sc Hsc].
    apply In_scored_neighbors in Hsc as (id' & tracks' & Hin & Hs & _).
    eauto.
  - intros pre post other_id tracks Hget Habs.
    assert (Hentry :
      candidate_entry arccos shot reconstruction (other_id, tracks) = []).
    { unfold candidate_entry; simpl. by rewrite Habs. }
    split; [exact Hentry|].
    unfold find_neighboring_images. do 3 f_equal.
    rewrite !scored_neighbors_entries. unfold candidate_row, PyDict.get_default.
    rewrite Hget, get_set_eq. unfold PyDict.items.
    rewrite !flat_map_app. simpl. by rewrite Hentry.
Qed.

End NeighborTheorems.

(** In the scene, [b] and [c] each share 21 qualifying tracks with [a]. *)
Example scene_scores :
  map (fun x => (shot_id x.1, x.2))
    (scored_neighbors arccos_bisect Scene.shot_a Scene.common_tracks
       Scene.reconstruction)
  = [("b", 21); ("c", 21)].
Proof. vm_compute. reflexivity. Qed.

(** Dropping one of the 21 tracks leaves [c] at 20, and out. *)
Example scene_boundary_20 :
  map shot_id
    (find_neighboring_images arccos_bisect Scene.shot_a
       [("a", [("b", Scene.track_ids); ("c", Scene.track_ids20)])]
       Scene.reconstruction 5)
  = ["a"; "b"].
Proof. vm_compute. reflexivity. Qed.

(** With room for both survivors, the candidate with 21 qualifying tracks
    is returned. *)
Lemma neighbor_score_threshold_witness :
  In Scene.shot_c
    (tail (find_neighboring_images arccos_bisect Scene.shot_a
             Scene.common_tracks Scene.reconstruction 2)).
Proof.
  assert (Hrow : In ("c", Scene.track_ids)
                   (candidate_row Scene.common_tracks Scene.shot_a)).
  { vm_compute. right. left. reflexivity. }
  assert (Hshot : shots Scene.reconstruction !! "c" = Some Scene.shot_c).
  { vm_compute. reflexivity. }
  destruct (neighbor_score_threshold arccos_bisect Scene.shot_a
              Scene.common_tracks Scene.reconstruction 2 "c" Scene.track_ids
              Scene.shot_c Hrow Hshot) as (_ & _ & Hin & _).
  apply Hin; vm_compute; [reflexivity | discriminate].
Defined.

(** C1 as stated fails: with a budget of one neighbor, [c] has exactly 21
    qualifying tracks and is not in the result, because [b] takes the only
    place. *)
Lemma neighbor_score_threshold_counterexample :
  In ("c", Scene.track_ids) (candidate_row Scene.common_tracks Scene.shot_a) /\
  shots Scene.reconstruction !! "c" = Some Scene.shot_c /\
  length (qualifying_tracks arccos_bisect Scene.reconstruction Scene.shot_a
            Scene.shot_c Scene.track_ids) = 21%nat /\
  ~ In Scene.shot_c
      (find_neighboring_images arccos_bisect Scene.shot_a Scene.common_tracks
         Scene.reconstruction 1).
Proof.
  split; [vm_compute; right; left; reflexivity|].
  split; [vm_compute; reflexivity|].
  split; [vm_compute; reflexivity|].
  assert (Hres :
    find_neighboring_images arccos_bisect Scene.shot_a Scene.common_tracks
      Scene.reconstruction 1 = [Scene.shot_a; Scene.shot_b]).
  { vm_compute. reflexivity. }
  rewrite Hres. intros [H|[H|[]]]; apply (f_equal shot_id) in H; discriminate H.
Qed.

Lemma neighbor_list_shape_witness :
  head (find_neighboring_images arccos_bisect Scene.shot_a Scene.common_tracks
          Scene.reconstruction 1) = Some Scene.shot_a /\
  Z.of_nat
    (length (find_neighboring_images arccos_bisect Scene.shot_a
               Scene.common_tracks Scene.reconstruction 1)) <= 1 + 1.
Proof.
  assert (HN : 0 <= 1) by lia.
  destruct (neighbor_list_shape arccos_bisect Scene.shot_a Scene.common_tracks
              Scene.reconstruction 1 HN) as (Hhead & Hlen & _).
  split; [exact Hhead | exact Hlen].
Defined.

(** The row of [a] lists a shot [d] that the reconstruction lacks. *)
Lemma absent_shot_skipped_witness :
  find_neighboring_images arccos_bisect Scene.shot_a Scene.common_tracks
    Scene.reconstruction 5
  = find_neighboring_images arccos_bisect Scene.shot_a
      (PyDict.set Scene.common_tracks "a"
         [("b", Scene.track_ids); ("c", Scene.track_ids)])
      Scene.reconstruction 5.
Proof.
  apply (proj2 (absent_shot_skipped arccos_bisect Scene.shot_a
                  Scene.common_tracks Scene.reconstruction 5)
           [("b", Scene.track_ids); ("c", Scene.track_ids)] [] "d"
           Scene.track_ids).
  - vm_compute. reflexivity.
  - vm_compute. reflexivity.
Defined.

(** ** Common-track table *)

Lemma init_rows_get (ids : list string)
    (d : PyDict.dict (PyDict.dict (list string))) (k : string) :
  PyDict.get
    (fold_left (fun d image => PyDict.set d image PyDict.empty) ids d) k
  = if decide (k ∈ ids) then Some PyDict.empty else PyDict.get d k.
Proof.
  revert d. induction ids as [|i ids IH]; intros d; cbn [fold_left].
  - destruct (decide (k ∈ [])) as [H|H]; [|done].
    by apply not_elem_of_nil in H.
  - rewrite IH.
    destruct (decide (k ∈ ids)) as [Hin|Hnin],
      (decide (k ∈ i :: ids)) as [Hin'|Hnin']; try done.
    + exfalso. apply Hnin'. by apply list_elem_of_further.
    + apply elem_of_cons in Hin' as [->|?]; [|done]. apply get_set_eq.
    + apply get_set_ne. intros ->. apply Hnin'. apply list_elem_of_here.
Qed.

Lemma set_item2_spec res a b v row :
  PyDict.get res a = Some row ->
  exists res',
    set_item2 res a b v = Ok res' /\
    (forall x y,
       lookup2 res' x y
       = if decide (x = a /\ y = b) then Some v else lookup2 res x y) /\
    (forall x, is_Some (PyDict.get res' x) <-> is_Some (PyDict.get res x)) /\
    (forall x, x ≠ a -> PyDict.get res' x = PyDict.get res x).
Proof.
  intros Hrow. unfold set_item2. rewrite Hrow.
  eexists. split; [reflexivity|]. split; [|split].
  - intros x y. unfold lookup2.
    destruct (decide (x = a)) as [->|Hxa].
    + rewrite get_set_eq, Hrow.
      destruct (decide (y = b)) as [->|Hyb].
      * rewrite get_set_eq. by rewrite decide_True.
      * rewrite get_set_ne by done. by rewrite decide_False by tauto.
    + rewrite get_set_ne by done. by rewrite decide_False by tauto.
  - intros x. destruct (decide (x = a)) as [->|Hxa].
    + rewrite get_set_eq, Hrow. split; eauto.
    + by rewrite get_set_ne.
  - intros x Hxa. by rewrite get_set_ne.
Qed.

(** What one pair does to a table that has a row for both images. *)
Lemma double_dict_step_spec res im1 im2 v :
  is_Some (PyDict.get res im1) ->
  is_Some (PyDict.get res im2) ->
  exists res',
    double_dict_step (Ok res) ((im1, im2), v) = Ok res' /\
    (forall x y,
       lookup2 res' x y
       = if decide ((x = im1 /\ y = im2) \/ (x = im2 /\ y = im1)) then Some v
         else lookup2 res x y) /\
    (forall x, is_Some (PyDict.get res' x) <-> is_Some (PyDict.get res x)) /\
    (forall x, x ≠ im1 -> x ≠ im2 -> PyDict.get res' x = PyDict.get res x).
Proof.
  intros [row1 H1] H2.
  destruct (set_item2_spec res im1 im2 v row1 H1)
    as (res1 & Hr1 & Hl1 & Hk1 & Ho1).
  destruct (proj2 (Hk1 im2) H2) as [row2 H2'].
  destruct (set_item2_spec res1 im2 im1 v row2 H2')
    as (res2 & Hr2 & Hl2 & Hk2 & Ho2).
  exists res2. split; [|split; [|split]].
  - unfold double_dict_step, result_bind. by rewrite Hr1.
  - intros x y. rewrite Hl2, Hl1.
    destruct (decide (x = im2 /\ y = im1)), (decide (x = im1 /\ y = im2));
      (rewrite decide_True by tauto) || (rewrite decide_False by tauto); done.
  - intros x. by rewrite Hk2, Hk1.
  - intros x Hx1 Hx2. by rewrite Ho2, Ho1.
Qed.

Section CommonTrackTheorems.

Variable all_common_tracks_without_features :
  TracksManager -> list ((string * string) * list string).

Lemma table_invariant_fold ids pairs :
  (forall a b v, In ((a, b), v) pairs -> In a ids /\ In b ids) ->
  exists res,
    fold_left double_dict_step pairs
      (Ok (fold_left (fun d image => PyDict.set d image PyDict.empty) ids
             PyDict.empty)) = Ok res /\
    table_invariant ids pairs res.
Proof.
  induction pairs as [|[[im1 im2] v] pairs IH] using rev_ind; intros Hwf.
  - eexists. split; [reflexivity|]. unfold table_invariant.
    assert (Hl : forall a b,
      lookup2 (fold_left (fun d image => PyDict.set d image PyDict.empty) ids
                 PyDict.empty) a b = None).
    { intros a b. unfold lookup2. rewrite init_rows_get.
      by destruct (decide (a ∈ ids)). }
    repeat split.
    + intros a b. by rewrite !Hl.
    + intros a b v [].
    + intros a b v Hab. by rewrite Hl in Hab.
    + intros image Hin. rewrite init_rows_get.
      rewrite decide_True; [done | by apply list_elem_of_In].
    + intros image Hin _. rewrite init_rows_get.
      rewrite decide_True; [done | by apply list_elem_of_In].
  - destruct IH as (res & Hfold & Hsym & Hdone & Hprov & Hkeys & Hempty).
    { intros a b v' Hin. apply (Hwf a b v'). apply in_or_app. by left. }
    destruct (Hwf im1 im2 v) as [Hi1 Hi2].
    { apply in_or_app. right. by left. }
    destruct (double_dict_step_spec res im1 im2 v (Hkeys _ Hi1) (Hkeys _ Hi2))
      as (res' & Hstep & Hl & Hk & Ho).
    exists res'. split.
    { by rewrite fold_left_app, Hfold. }
    repeat split.
    + intros a b. rewrite !Hl, (Hsym a b).
      destruct (decide ((a = im1 /\ b = im2) \/ (a = im2 /\ b = im1)));
        (rewrite decide_True by tauto) || (rewrite decide_False by tauto);
        done.
    + intros a b v' Hin. rewrite Hl.
      destruct (decide ((a = im1 /\ b = im2) \/ (a = im2 /\ b = im1)));
        [eauto|].
      apply in_app_or in Hin as [Hin|[Heq|[]]]; [by eapply Hdone|].
      injection Heq as -> -> ->. tauto.
    + intros a b v' Hab. rewrite Hl in Hab.
      destruct (decide ((a = im1 /\ b = im2) \/ (a = im2 /\ b = im1)))
        as [Hd|Hd].
      * injection Hab as <-.
        destruct Hd as [[-> ->]|[-> ->]]; [left|right];
          apply in_or_app; right; by left.
      * destruct (Hprov _ _ _ Hab); [left|right]; apply in_or_app; by left.
    + intros image Hin. apply Hk. by apply Hkeys.
    + intros image Hin Hfree.
      destruct (Hfree im1 im2 v) as [Hn1 Hn2].
      { apply in_or_app. right. by left. }
      rewrite Ho by done. apply Hempty; [done|].
      intros a b v' Hin'. apply (Hfree a b v'). apply in_or_app. by left.
Qed.

(** C5. When the images of every pair are among the shot ids of the track
    graph, the table is built, it is symmetric ([res[a][b]] and [res[b][a]]
    are both absent or hold the same track list, and both are present for
    every pair), every list in it is a list of the pair, and every shot id
    of the graph has a row, empty for a shot that is in no pair. *)
Theorem common_tracks_table_symmetric (tracks_manager : TracksManager) :
  (forall a b v,
     In ((a, b), v) (all_common_tracks_without_features tracks_manager) ->
     In a (get_shot_ids tracks_manager) /\ In b (get_shot_ids tracks_manager)) ->
  exists res,
    common_tracks_double_dict all_common_tracks_without_features tracks_manager
      = Ok res /\
    (forall a b, lookup2 res a b = lookup2 res b a) /\
    (forall a b v,
       In ((a, b), v) (all_common_tracks_without_features tracks_manager) ->
       exists v', lookup2 res a b = Some v' /\ lookup2 res b a = Some v') /\
    (forall a b v, lookup2 res a b = Some v ->
       In ((a, b), v) (all_common_tracks_without_features tracks_manager) \/
       In ((b, a), v) (all_common_tracks_without_features tracks_manager)) /\
    (forall image, In image (get_shot_ids tracks_manager) ->
       is_Some (PyDict.get res image)) /\
    (forall image, In image (get_shot_ids tracks_manager) ->
       (forall a b v,
          In ((a, b), v) (all_common_tracks_without_features tracks_manager) ->
          image ≠ a /\ image ≠ b) ->
       PyDict.get res image = Some PyDict.empty).
Proof.
  intros Hwf.
  destruct (table_invariant_fold (get_shot_ids tracks_manager)
              (all_common_tracks_without_features tracks_manager) Hwf)
    as (res & Hfold & Hsym & Hdone & Hprov & Hkeys & Hempty).
  exists res. split; [exact Hfold|].
  split; [exact Hsym|]. split; [|auto].
  intros a b v Hin. destruct (Hdone a b v Hin) as [v' Hv'].
  exists v'. split; [done|]. by rewrite <- Hsym.
Qed.

End CommonTrackTheorems.

Lemma common_tracks_table_symmetric_witness :
  exists res,
    common_tracks_double_dict Scene.common_tracks_per_pair Scene.tracks_manager
      = Ok res /\
    lookup2 res "a" "b" = lookup2 res "b" "a" /\
    lookup2 res "a" "b" = Some Scene.track_ids.
Proof.
  destruct (common_tracks_table_symmetric Scene.common_tracks_per_pair
              Scene.tracks_manager) as (res & Hres & Hsym & _).
  - intros a b v Hin. vm_compute in Hin.
    destruct Hin as [H|[H|[H|[]]]]; injection H as <- <- <-;
      vm_compute; tauto.
  - exists res. split; [exact Hres|]. split; [apply Hsym|].
    vm_compute in Hres. injection Hres as <-. vm_compute. reflexivity.
Defined.

(** ** Depth range *)

Section DepthRangeTheorems.

Variable percentile : list float -> float -> result float.

(** The depths the loop collects: one per observed track that has a
    reconstructed point, in the order of the observations. *)
Lemma collect_depths_omap tracks_manager reconstruction shot :
  collect_depths tracks_manager reconstruction shot
  = omap
      (fun track =>
         (fun pt => (transform (pose shot) (coordinates pt)).2)
           <$> points reconstruction !! track)
      (get_shot_observations tracks_manager (shot_id shot)).
Proof.
  unfold collect_depths.
  assert (H : forall tracks acc,
    fold_left (depth_step reconstruction shot) tracks acc
    = acc ++ omap
        (fun track =>
           (fun pt => (transform (pose shot) (coordinates pt)).2)
             <$> points reconstruction !! track) tracks).
  { induction tracks as [|t tracks IH]; intros acc; simpl.
    - by rewrite app_nil_r.
    - rewrite IH. unfold depth_step.
      destruct (points reconstruction !! t) as [pt|]; simpl; [|done].
      by rewrite <- app_assoc. }
  by rewrite H.
Qed.

Lemma collect_depths_nonempty tracks_manager reconstruction shot track pt :
  In track (get_shot_observations tracks_manager (shot_id shot)) ->
  points reconstruction !! track = Some pt ->
  collect_depths tracks_manager reconstruction shot <> [].
Proof.
  intros Hin Hpt. rewrite collect_depths_omap.
  induction (get_shot_observations tracks_manager (shot_id shot))
    as [|t tracks IH]; simpl in *; [done|].
  destruct Hin as [->|Hin].
  - by rewrite Hpt.
  - destruct (points reconstruction !! t); simpl; [done | by apply IH].
Qed.

Lemma collect_depths_empty tracks_manager reconstruction shot :
  (forall track,
     In track (get_shot_observations tracks_manager (shot_id shot)) ->
     points reconstruction !! track = None) ->
  collect_depths tracks_manager reconstruction shot = [].
Proof.
  intros Hnone. rewrite collect_depths_omap.
  induction (get_shot_observations tracks_manager (shot_id shot))
    as [|t tracks IH]; simpl in *; [done|].
  rewrite (Hnone t) by auto. simpl. apply IH. auto.
Qed.

(** C3. With a percentile routine that is defined on every non-empty
    sample, a shot that observes a track with a reconstructed point gets
    the range (0.9 x P10, 1.1 x P90) of the camera-relative depths of those
    points, where a configured bound that is truthy (non-zero) replaces the
    computed one, each bound on its own. *)
Theorem depth_range_percentiles tracks_manager reconstruction shot config
    track pt :
  (forall sample q, sample <> [] ->
     ((0 <=? q) && (q <=? 100))%float = true ->
     is_Ok (percentile sample q)) ->
  In track (get_shot_observations tracks_manager (shot_id shot)) ->
  points reconstruction !! track = Some pt ->
  let depths :=
    omap
      (fun track =>
         (fun pt => (transform (pose shot) (coordinates pt)).2)
           <$> points reconstruction !! track)
      (get_shot_observations tracks_manager (shot_id shot)) in
  exists p10 p90 min_depth max_depth,
    percentile depths 10%float = Ok p10 /\
    percentile depths 90%float = Ok p90 /\
    compute_depth_range percentile tracks_manager reconstruction shot config
      = Ok (min_depth, max_depth) /\
    (truthy (depthmap_min_depth config) = true ->
     min_depth = depthmap_min_depth config) /\
    (truthy (depthmap_min_depth config) = false ->
     min_depth = PyFloat (p10 * 0.9)%float) /\
    (truthy (depthmap_max_depth config) = true ->
     max_depth = depthmap_max_depth config) /\
    (truthy (depthmap_max_depth config) = false ->
     max_depth = PyFloat (p90 * 1.1)%float).
Proof.
  intros Hdef Hin Hpt depths.
  assert (Hne : depths <> []).
  { subst depths. rewrite <- collect_depths_omap.
    by eapply collect_depths_nonempty. }
  pose proof (Hdef depths 10%float Hne eq_refl) as H10.
  pose proof (Hdef depths 90%float Hne eq_refl) as H90.
  destruct (percentile depths 10%float) as [p10|] eqn:E10; [|done].
  destruct (percentile depths 90%float) as [p90|] eqn:E90; [|done].
  exists p10, p90.
  exists (py_or (depthmap_min_depth config) (PyFloat (p10 * 0.9)%float)).
  exists (py_or (depthmap_max_depth config) (PyFloat (p90 * 1.1)%float)).
  split; [done|]. split; [done|]. split.
  - unfold compute_depth_range. rewrite collect_depths_omap.
    fold depths. rewrite E10. simpl. by rewrite E90.
  - unfold py_or. repeat split; intros ->; done.
Qed.

(** C6. With a percentile routine that raises on the empty sample, a shot
    none of whose observed tracks has a reconstructed point makes
    [compute_depth_range] raise, whatever the configuration overrides. *)
Theorem depth_range_no_points tracks_manager reconstruction shot config :
  (forall q, exists e, percentile [] q = Raise e) ->
  (forall track,
     In track (get_shot_observations tracks_manager (shot_id shot)) ->
     points reconstruction !! track = None) ->
  exists e,
    compute_depth_range percentile tracks_manager reconstruction shot config
      = Raise e.
Proof.
  intros Hraise Hnone. unfold compute_depth_range.
  rewrite (collect_depths_empty _ _ _ Hnone).
  destruct (Hraise 10%float) as [e He]. exists e. by rewrite He.
Qed.

End DepthRangeTheorems.

Lemma sort_floats_nonempty (l : list float) : l <> [] -> sort_floats l <> [].
Proof.
  destruct l as [|x l]; [done|]. intros _. unfold sort_floats. simpl.
  destruct (foldr insert_float [] l) as [|y l']; simpl; [done|].
  by destruct (x <=? y)%float.
Qed.

Lemma np_percentile_defined (sample : list float) (q : float) :
  sample <> [] -> ((0 <=? q) && (q <=? 100))%float = true ->
  is_Ok (np_percentile sample q).
Proof.
  intros Hne Hq. unfold np_percentile. rewrite Hq. simpl.
  pose proof (sort_floats_nonempty sample Hne).
  by destruct (sort_floats sample).
Qed.

Lemma np_percentile_empty (q : float) : exists e, np_percentile [] q = Raise e.
Proof.
  unfold np_percentile.
  destruct (negb ((0 <=? q) && (q <=? 100))%float); simpl; eauto.
Qed.

(** In the scene every point is four units in front of [a]: the computed
    minimum is 4 x 0.9 and the configured maximum 7 stands. *)
Lemma depth_range_percentiles_witness :
  compute_depth_range np_percentile Scene.tracks_manager Scene.reconstruction
    Scene.shot_a Scene.settings
  = Ok (PyFloat (4 * 0.9)%float, PyFloat 7).
Proof.
  destruct (depth_range_percentiles np_percentile Scene.tracks_manager
              Scene.reconstruction Scene.shot_a Scene.settings "t01"
              {| coordinates := (0.5%float, 0%float, 4%float) |})
    as (p10 & p90 & min_depth & max_depth & H10 & H90 & Hres & _ & Hmin & Hmax & _).
  - exact np_percentile_defined.
  - vm_compute. left. reflexivity.
  - vm_compute. reflexivity.
  - rewrite Hres, Hmin, Hmax by (vm_compute; reflexivity).
    vm_compute in H10. injection H10 as <-. reflexivity.
Defined.

Lemma depth_range_no_points_witness :
  exists e,
    compute_depth_range np_percentile Scene.tracks_manager_unreconstructed
      Scene.reconstruction Scene.shot_a Scene.settings = Raise e.
Proof.
  apply (depth_range_no_points np_percentile
           Scene.tracks_manager_unreconstructed Scene.reconstruction
           Scene.shot_a Scene.settings np_percentile_empty).
  intros track Hin. vm_compute in Hin.
  destruct Hin as [<-|[<-|[]]]; vm_compute; reflexivity.
Defined.

(** The percentiles of the depths 1, 2, ..., 100. *)
Example percentile_1_100 :
  np_percentile (map float_of_nat (seq 1 100)) 10%float = Ok 10.9%float /\
  np_percentile (map float_of_nat (seq 1 100)) 90%float
  = Ok 0x1.6866666666667p+6%float.
Proof. split; vm_compute; reflexivity. Qed.

(** ** Merging *)

Lemma aggregate_fold (depthmap_provider : string -> result PointArrays)
    (shot_ids : list string) (arrays : list PointArrays) (acc : Aggregated) :
  Forall2 (fun shot_id pa => depthmap_provider shot_id = Ok pa) shot_ids arrays ->
  fold_left (aggregate_step depthmap_provider) shot_ids (Ok acc)
  = Ok {| ag_points := ag_points acc ++ map pa_points arrays;
          ag_normals := ag_normals acc ++ map pa_normals arrays;
          ag_colors := ag_colors acc ++ map pa_colors arrays;
          ag_labels := ag_labels acc ++ map pa_labels arrays |}.
Proof.
  intros H. revert acc.
  induction H as [|shot_id pa shot_ids arrays Hp _ IH]; intros acc;
    cbn [fold_left map].
  - rewrite !app_nil_r. by destruct acc.
  - replace (aggregate_step depthmap_provider (Ok acc) shot_id)
      with (Ok {| ag_points := ag_points acc ++ [pa_points pa];
                  ag_normals := ag_normals acc ++ [pa_normals pa];
                  ag_colors := ag_colors acc ++ [pa_colors pa];
                  ag_labels := ag_labels acc ++ [pa_labels pa] |}).
    2:{ unfold aggregate_step. simpl. by rewrite Hp. }
    rewrite IH. simpl. by rewrite <- !app_assoc.
Qed.

Lemma aggregate_depthmaps_concat
    (depthmap_provider : string -> result PointArrays)
    (shot_ids : list string) (arrays : list PointArrays) :
  shot_ids <> [] ->
  Forall2 (fun shot_id pa => depthmap_provider shot_id = Ok pa) shot_ids arrays ->
  aggregate_depthmaps shot_ids depthmap_provider
  = Ok {| pa_points := concat (map pa_points arrays);
          pa_normals := concat (map pa_normals arrays);
          pa_colors := concat (map pa_colors arrays);
          pa_labels := concat (map pa_labels arrays) |}.
Proof.
  intros Hne H. unfold aggregate_depthmaps.
  rewrite (aggregate_fold _ _ _ _ H). simpl.
  destruct H as [|shot_id pa shot_ids arrays]; [done|].
  reflexivity.
Qed.

(** C7. Merging no shot returns four empty arrays and logs a warning, and
    does not raise. Merging shots whose provider returns arrays gives, for
    each of the four arrays, the concatenation of the shots' arrays in the
    order of the shot ids; for two shots with [P1] and [P2] points the
    merged points are the first shot's followed by the second's, [P1 + P2]
    in all. *)
Theorem merge_concatenates (depthmap_provider : string -> result PointArrays)
    (w : World) :
  merge_depthmaps_from_provider [] depthmap_provider w
  = (Ok empty_point_arrays,
     {| data := data w;
        log_records :=
          log_records w ++
          [(INFO, "Merging depthmaps");
           (WARNING, "Depthmaps contain no points.  Try using more images.")];
        pydense_calls := pydense_calls w |}) /\
  (forall shot_ids arrays,
     shot_ids <> [] ->
     Forall2 (fun shot_id pa => depthmap_provider shot_id = Ok pa)
       shot_ids arrays ->
     merge_depthmaps_from_provider shot_ids depthmap_provider w
     = (Ok {| pa_points := concat (map pa_points arrays);
              pa_normals := concat (map pa_normals arrays);
              pa_colors := concat (map pa_colors arrays);
              pa_labels := concat (map pa_labels arrays) |},
        {| data := data w;
           log_records := log_records w ++ [(INFO, "Merging depthmaps")];
           pydense_calls := pydense_calls w |})) /\
  (forall s1 s2 pa1 pa2,
     depthmap_provider s1 = Ok pa1 ->
     depthmap_provider s2 = Ok pa2 ->
     exists merged w',
       merge_depthmaps_from_provider [s1; s2] depthmap_provider w
         = (Ok merged, w') /\
       pa_points merged = pa_points pa1 ++ pa_points pa2 /\
       pa_normals merged = pa_normals pa1 ++ pa_normals pa2 /\
       pa_colors merged = pa_colors pa1 ++ pa_colors pa2 /\
       pa_labels merged = pa_labels pa1 ++ pa_labels pa2 /\
       length (pa_points merged)
       = (length (pa_points pa1) + length (pa_points pa2))%nat).
Proof.
  assert (Hmany : forall shot_ids arrays,
     shot_ids <> [] ->
     Forall2 (fun shot_id pa => depthmap_provider shot_id = Ok pa)
       shot_ids arrays ->
     merge_depthmaps_from_provider shot_ids depthmap_provider w
     = (Ok {| pa_points := concat (map pa_points arrays);
              pa_normals := concat (map pa_normals arrays);
              pa_colors := concat (map pa_colors arrays);
              pa_labels := concat (map pa_labels arrays) |},
        {| data := data w;
           log_records := log_records w ++ [(INFO, "Merging depthmaps")];
           pydense_calls := pydense_calls w |})).
  { intros shot_ids arrays Hne H.
    unfold merge_depthmaps_from_provider, mbind, M_bind, logger_info,
      logger_log, lift. simpl.
    rewrite bool_decide_eq_false_2 by done.
    by rewrite (aggregate_depthmaps_concat _ _ _ Hne H). }
  split.
  { unfold merge_depthmaps_from_provider, mbind, M_bind, mret, M_ret,
      logger_info, logger_warning, logger_log. simpl.
    by rewrite <- app_assoc. }
  split; [exact Hmany|].
  intros s1 s2 pa1 pa2 H1 H2.
  eexists _, _. split.
  - apply (Hmany [s1; s2] [pa1; pa2]); [done|].
    repeat constructor; done.
  - simpl. rewrite !app_nil_r. repeat split; try done.
    by rewrite length_app.
Qed.

(** ** IEEE arithmetic of the masking *)

Lemma Prim2SF_one : Prim2SF 1 = S754_finite false 4503599627370496 (-52).
Proof. reflexivity. Qed.

Lemma Prim2SF_zero : Prim2SF 0 = S754_zero false.
Proof. reflexivity. Qed.

(** In the specification of binary64, a product with 1.0 is exact: the
    mantissa gains 52 zero bits, which the rounding shifts out again. *)
Lemma SFmul_one_r (X : spec_float) :
  valid_binary X = true ->
  SFmul prec emax X (S754_finite false 4503599627370496 (-52)) = X.
Proof.
  destruct X as [s|s| |s m e]; simpl; intros Hv;
    try (rewrite xorb_false_r; reflexivity); try reflexivity.
  unfold bounded, canonical_mantissa in Hv.
  apply andb_prop in Hv as [Hcan Hle].
  apply Z.eqb_eq in Hcan.
  rewrite xorb_false_r.
  rewrite Pos.mul_comm.
  let t := eval cbv [Pos.mul] in (4503599627370496 * m)%positive in
  change (4503599627370496 * m)%positive with t.
  unfold binary_round_aux, shr_fexp.
  cbn [Zdigits2 digits2_pos shr_record_of_loc].
  match goal with |- context [fexp prec emax (Z.pos ?d + (e + -52))] =>
    replace (Z.pos d + (e + -52)) with (Z.pos (digits2_pos m) + e) by lia end.
  replace (fexp prec emax (Z.pos (digits2_pos m) + e)) with e
    by (symmetry; exact Hcan).
  replace (e - (e + -52)) with 52 by lia.
  cbn [shr SpecFloat.iter_pos shr_1 shr_m shr_r shr_s orb loc_of_shr_record
       round_nearest_even].
  cbn [Zdigits2].
  replace (e + -52 + 52) with e by lia.
  replace (fexp prec emax (Z.pos (digits2_pos m) + e)) with e
    by (symmetry; exact Hcan).
  replace (e - e) with 0 by lia.
  cbn [shr shr_m].
  replace (e <=? emax - prec) with true by (symmetry; exact Hle).
  reflexivity.
Qed.

Lemma mul_one_r (x : float) : (x * 1)%float = x.
Proof.
  apply Prim2SF_inj. rewrite mul_spec, Prim2SF_one.
  apply SFmul_one_r, Prim2SF_valid.
Qed.

Lemma SFcompare_antisym (X Y : spec_float) :
  SFcompare Y X = option_map CompOpp (SFcompare X Y).
Proof.
  destruct X as [s1|s1| |s1 m1 e1], Y as [s2|s2| |s2 m2 e2]; simpl;
    try reflexivity;
    try (destruct s1; reflexivity); try (destruct s2; reflexivity);
    try (destruct s1, s2; reflexivity).
  f_equal.
  pose proof (Z.compare_antisym e1 e2) as He.
  pose proof (Pos.compare_cont_antisym m1 m2 Eq) as Hm. simpl in Hm.
  destruct s1, s2; try reflexivity.
  - change (IntDef.Z.compare e2 e1) with (Z.compare e2 e1).
    rewrite He. destruct (e1 ?= e2); simpl; try reflexivity.
    change (PosDef.Pos.compare_cont Eq m2 m1) with (Pos.compare_cont Eq m2 m1).
    rewrite <- Hm. reflexivity.
  - change (IntDef.Z.compare e2 e1) with (Z.compare e2 e1).
    rewrite He. destruct (e1 ?= e2); simpl; try reflexivity.
    change (PosDef.Pos.compare_cont Eq m2 m1) with (Pos.compare_cont Eq m2 m1).
    rewrite <- Hm. destruct (Pos.compare_cont Eq m1 m2); reflexivity.
Qed.

Lemma not_nan_Prim2SF (x : float) :
  is_nan x = false -> Prim2SF x <> S754_nan.
Proof.
  unfold is_nan. rewrite FloatAxioms.eqb_spec. intros H Hn.
  rewrite Hn in H. discriminate H.
Qed.

(** For numbers, [a >= b] is the negation of [a < b]. *)
Lemma leb_negb_ltb (a b : float) :
  is_nan a = false -> is_nan b = false ->
  (b <=? a)%float = negb (a <? b)%float.
Proof.
  intros Ha Hb. apply not_nan_Prim2SF in Ha, Hb.
  rewrite leb_spec, ltb_spec. unfold SFleb, SFltb.
  rewrite (SFcompare_antisym (Prim2SF a) (Prim2SF b)).
  destruct (SFcompare (Prim2SF a) (Prim2SF b)) as [[]|] eqn:E; try reflexivity.
  destruct (Prim2SF a), (Prim2SF b); simpl in E; congruence.
Qed.

Lemma finite_Prim2SF (x : float) :
  is_finite x = true ->
  (exists s, Prim2SF x = S754_zero s) \/
  (exists s m e, Prim2SF x = S754_finite s m e).
Proof.
  unfold is_finite, is_nan, is_infinity.
  rewrite !FloatAxioms.eqb_spec, abs_spec.
  change (Prim2SF infinity) with (S754_infinity false).
  destruct (Prim2SF x) as [s|s| |s m e]; simpl; intros H.
  - left. by exists s.
  - destruct s; discriminate H.
  - discriminate H.
  - right. by exists s, m, e.
Qed.

Lemma is_zero_Prim2SF (z : float) (s : bool) :
  Prim2SF z = S754_zero s -> is_zero z = true.
Proof.
  intros H. unfold is_zero. rewrite FloatAxioms.eqb_spec, H. reflexivity.
Qed.

Lemma mul_zero_finite (x : float) :
  is_finite x = true -> exists s, Prim2SF (x * 0)%float = S754_zero s.
Proof.
  intros H. rewrite mul_spec, Prim2SF_zero.
  destruct (finite_Prim2SF x H) as [[s ->]|(s & m & e & ->)]; simpl; eauto.
Qed.

Lemma zero_mul_bool (z : float) (s : bool) (b : bool) :
  Prim2SF z = S754_zero s ->
  exists s', Prim2SF (z * bool_to_float b)%float = S754_zero s'.
Proof.
  intros H. rewrite mul_spec, H.
  destruct b; cbn [bool_to_float];
    [rewrite Prim2SF_one | rewrite Prim2SF_zero]; simpl; eauto.
Qed.

(** A pixel that passes both tests keeps its depth, bit for bit. *)
Lemma mask_pixel_kept (d s max_depth min_score : float) :
  (d <? max_depth)%float = true -> (min_score <? s)%float = true ->
  mask_pixel d s max_depth min_score = d.
Proof.
  intros H1 H2. unfold mask_pixel. rewrite H1, H2. simpl.
  by rewrite !mul_one_r.
Qed.

(** A pixel of finite depth that fails a test is left at zero (of either
    sign). *)
Lemma mask_pixel_zeroed (d s max_depth min_score : float) :
  is_finite d = true ->
  (d <? max_depth)%float = false \/ (min_score <? s)%float = false ->
  is_zero (mask_pixel d s max_depth min_score) = true.
Proof.
  intros Hfin H. unfold mask_pixel.
  destruct (d <? max_depth)%float eqn:E1.
  - destruct H as [H|H]; [done|]. rewrite H. simpl. rewrite mul_one_r.
    destruct (mul_zero_finite d Hfin) as [s' Hs']. by eapply is_zero_Prim2SF.
  - simpl. destruct (mul_zero_finite d Hfin) as [s1 Hs1].
    destruct (zero_mul_bool _ _ (min_score <? s)%float Hs1) as [s2 Hs2].
    by eapply is_zero_Prim2SF.
Qed.

(** ** Running computations *)

Lemma bind_run {A B} (c : M A) (k : A -> M B) (w w1 : World) (a : A) :
  c w = (Ok a, w1) -> (c ≫= k) w = k a w1.
Proof. intros H. unfold mbind, M_bind. by rewrite H. Qed.

Lemma bind_raise {A B} (c : M A) (k : A -> M B) (w w1 : World) (e : exn) :
  c w = (Raise e, w1) -> (c ≫= k) w = (Raise e, w1).
Proof. intros H. unfold mbind, M_bind. by rewrite H. Qed.

Lemma keeps_data_ret {A} (a : A) : keeps_data (mret a : M A).
Proof. by intros w. Qed.

Lemma keeps_data_raise {A} (e : exn) : keeps_data (raise e : M A).
Proof. by intros w. Qed.

Lemma keeps_data_lift {A} (r : result A) : keeps_data (lift r).
Proof. by intros w. Qed.

Lemma keeps_data_get : keeps_data get_data.
Proof. by intros w. Qed.

Lemma keeps_data_log level msg : keeps_data (logger_log level msg).
Proof. by intros w. Qed.

Lemma keeps_data_call c method : keeps_data (pydense_call c method).
Proof. by intros w. Qed.

Lemma keeps_data_bind {A B} (c : M A) (k : A -> M B) :
  keeps_data c -> (forall a, keeps_data (k a)) -> keeps_data (c ≫= k).
Proof.
  intros Hc Hk w. unfold mbind, M_bind. specialize (Hc w).
  destruct (c w) as [[a|e] w1]; simpl in *; [|done].
  by rewrite Hk.
Qed.

Lemma keeps_data_for_each {A S} (l : list A) (body : S -> A -> M S) (s : S) :
  (forall s x, keeps_data (body s x)) -> keeps_data (for_each l body s).
Proof.
  intros Hbody. revert s. induction l as [|x l IH]; intros s; simpl.
  - apply keeps_data_ret.
  - apply keeps_data_bind; [apply Hbody | apply IH].
Qed.

Ltac keeps_data_tac :=
  repeat first
    [ progress intros
    | apply keeps_data_bind
    | apply keeps_data_ret
    | apply keeps_data_raise
    | apply keeps_data_lift
    | apply keeps_data_get
    | apply keeps_data_log
    | apply keeps_data_call
    | apply keeps_data_for_each
    | match goal with
      | |- keeps_data (if ?b then _ else _) => destruct b
      | |- keeps_data (match ?x with _ => _ end) => destruct x
      end ].

Lemma keeps_data_load_from {V} (store : DataSet -> gmap string V) image :
  keeps_data (load_from store image).
Proof. unfold load_from. keeps_data_tac. Qed.

Lemma keeps_depthmaps_of_data {A} (c : M A) : keeps_data c -> keeps_depthmaps c.
Proof. intros H w. by rewrite (H w). Qed.

Lemma keeps_depthmaps_bind {A B} (c : M A) (k : A -> M B) :
  keeps_depthmaps c -> (forall a, keeps_depthmaps (k a)) ->
  keeps_depthmaps (c ≫= k).
Proof.
  intros Hc Hk w. unfold mbind, M_bind. specialize (Hc w).
  destruct (c w) as [[a|e] w1]; simpl in *; [|done].
  destruct (Hk a w1) as (-> & -> & ->). done.
Qed.

Lemma keeps_depthmaps_write_text path text :
  keeps_depthmaps (write_text path text).
Proof. by intros w. Qed.

(** The loop of the clean stage adds one view per neighbor that has a raw
    depthmap, and touches nothing but the cleaner. *)
Lemma add_views_to_depth_cleaner_run neighbors dc w :
  add_views_to_depth_cleaner neighbors dc w
  = (Ok {| dc_same_depth_threshold := dc_same_depth_threshold dc;
           dc_min_consistent_views := dc_min_consistent_views dc;
           dc_views := dc_views dc ++ cleaner_views (data w) neighbors |},
     {| data := data w; log_records := log_records w;
        pydense_calls :=
          pydense_calls w ++
          replicate (length (cleaner_views (data w) neighbors))
            (Cleaner, "add_view") |}).
Proof.
  unfold add_views_to_depth_cleaner.
  match goal with |- context [for_each _ ?b] => set (body := b) end.
  assert (Hbody : forall dc shot w,
    body dc shot w
    = match raw_depthmaps (data w) !! shot_id shot with
      | Some raw =>
          (Ok {| dc_same_depth_threshold := dc_same_depth_threshold dc;
                 dc_min_consistent_views := dc_min_consistent_views dc;
                 dc_views := dc_views dc ++ [cleaner_view shot raw] |},
           {| data := data w; log_records := log_records w;
              pydense_calls := pydense_calls w ++ [(Cleaner, "add_view")] |})
      | None => (Ok dc, w)
      end).
  { intros dc0 shot w0. subst body.
    unfold raw_depthmap_exists, load_raw_depthmap, load_from, get_data,
      mbind, M_bind, mret, M_ret. cbn beta iota.
    destruct (raw_depthmaps (data w0) !! shot_id shot) as [raw|] eqn:E.
    - rewrite bool_decide_eq_true_2 by eauto. cbn [negb].
      rewrite E. cbn beta iota.
      unfold cleaner_view, dc_add_view, pydense_call, mbind, M_bind, mret, M_ret.
      by destruct (shape (raw_depth raw)) as [h wd].
    - rewrite bool_decide_eq_false_2 by (intros [? ?]; done). done. }
  clearbody body.
  revert dc w. induction neighbors as [|shot neighbors IH]; intros dc w.
  - simpl. rewrite !app_nil_r. by destruct dc, w.
  - cbn [for_each]. unfold cleaner_views. cbn [omap list_omap].
    fold (cleaner_views (data w) neighbors).
    unfold mbind at 1, M_bind at 1. rewrite Hbody.
    destruct (raw_depthmaps (data w) !! shot_id shot) as [raw|] eqn:E.
    + rewrite IH. cbn. by rewrite <- !app_assoc.
    + apply IH.
Qed.

(** ** Stage runners *)

Section StageTheorems.

Variable compute_brute_force :
  DepthmapEstimator -> result (DepthArray * PlaneArray * ScoreArray * IndexArray).
Variable compute_patch_match :
  DepthmapEstimator -> result (DepthArray * PlaneArray * ScoreArray * IndexArray).
Variable compute_patch_match_sample :
  DepthmapEstimator -> result (DepthArray * PlaneArray * ScoreArray * IndexArray).
Variable cleaner_clean : DepthmapCleaner -> result DepthArray.
Variable pruner_prune : DepthmapPruner -> result PointArrays.
Variable cv2_cvtColor_RGB2GRAY : Image -> Image.
Variable cv2_resize : Image -> Z -> Z -> Interpolation -> result Image.
Variable depthmap_to_ply : Shot -> DepthArray -> Image -> string.
Variable plt_show : string -> list Subplot -> result unit.

Lemma keeps_data_scale_down_image image wd h interpolation :
  keeps_data (scale_down_image cv2_resize image wd h interpolation).
Proof. unfold scale_down_image, scale_image. keeps_data_tac. Qed.

Lemma keeps_data_add_views_estimator neighbors de :
  keeps_data
    (add_views_to_depth_estimator cv2_cvtColor_RGB2GRAY cv2_resize neighbors de).
Proof.
  unfold add_views_to_depth_estimator, load_undistorted_image, load_from,
    load_combined_mask, load_undistorted_combined_mask, floor_div,
    scale_down_image, scale_image, de_add_view.
  keeps_data_tac.
Qed.

Lemma keeps_data_configure_estimator min_depth max_depth :
  keeps_data (configure_estimator min_depth max_depth).
Proof.
  unfold configure_estimator, new_DepthmapEstimator, de_set_depth_range,
    de_set_patchmatch_iterations, de_set_patch_size, de_set_min_patch_sd.
  keeps_data_tac.
Qed.

Lemma keeps_data_de_compute method de :
  keeps_data
    (de_compute compute_brute_force compute_patch_match
       compute_patch_match_sample method de).
Proof. unfold de_compute. keeps_data_tac. Qed.

(** The debug export after a stage has saved its artifact. *)
Lemma keeps_depthmaps_debug_export (debug : bool) shot depth suffix :
  keeps_depthmaps
    (if debug then
       image ← load_undistorted_image (shot_id shot);
       image ← scale_down_image cv2_resize image (shape depth).2
                 (shape depth).1 INTER_AREA;
       write_text (depthmap_file (shot_id shot) suffix)
         (depthmap_to_ply shot depth image)
     else mret tt).
Proof.
  destruct debug.
  - apply keeps_depthmaps_bind.
    { apply keeps_depthmaps_of_data, keeps_data_load_from. }
    intros image. apply keeps_depthmaps_bind.
    { apply keeps_depthmaps_of_data, keeps_data_scale_down_image. }
    intros image'. apply keeps_depthmaps_write_text.
  - apply keeps_depthmaps_of_data, keeps_data_ret.
Qed.

(** The interactive display. *)
Lemma keeps_data_display (on : bool) title plots :
  keeps_data (if on then lift (plt_show title plots) else mret tt).
Proof. destruct on; keeps_data_tac. Qed.

(** What the estimate stage does after it has saved: the debug export,
    then the display. *)
Lemma keeps_depthmaps_estimate_tail (debug on : bool) shot depth title
    plots :
  keeps_depthmaps
    (image ←
       (if debug then
          image ← load_undistorted_image (shot_id shot);
          image ← scale_down_image cv2_resize image (shape depth).2
                    (shape depth).1 INTER_AREA;
          write_text (depthmap_file (shot_id shot) "raw.npz.ply")
            (depthmap_to_ply shot depth image);;
          mret (Some image)
        else mret None);
     if on then
       lift (plt_show title
               (match image with
                | Some image => [ShowImage image]
                | None => []
                end ++ plots))
     else mret tt).
Proof.
  apply keeps_depthmaps_bind.
  - destruct debug.
    + apply keeps_depthmaps_bind.
      { apply keeps_depthmaps_of_data, keeps_data_load_from. }
      intros image. apply keeps_depthmaps_bind.
      { apply keeps_depthmaps_of_data, keeps_data_scale_down_image. }
      intros image'. apply keeps_depthmaps_bind.
      { apply keeps_depthmaps_write_text. }
      intros _. apply keeps_depthmaps_of_data, keeps_data_ret.
    + apply keeps_depthmaps_of_data, keeps_data_ret.
  - intros image. apply keeps_depthmaps_of_data, keeps_data_display.
Qed.

(** What the clean stage does after it has saved. *)
Lemma keeps_depthmaps_clean_tail (debug on : bool) shot depth title plots :
  keeps_depthmaps
    ((if debug then
        image ← load_undistorted_image (shot_id shot);
        image ← scale_down_image cv2_resize image (shape depth).2
                  (shape depth).1 INTER_AREA;
        write_text (depthmap_file (shot_id shot) "clean.npz.ply")
          (depthmap_to_ply shot depth image)
      else mret tt);;
     if on then lift (plt_show title plots) else mret tt).
Proof.
  apply keeps_depthmaps_bind.
  - apply keeps_depthmaps_debug_export.
  - intros _. apply keeps_depthmaps_of_data, keeps_data_display.
Qed.

(** C8. When the artifact of its stage exists for the shot, each of the
    three runners returns at once: the only effect is one log record; the
    dataset, and so every artifact, is as before, and no method of a
    pydense object is called. *)
Theorem stage_guard_idempotent neighbors min_depth max_depth shot w :
  (is_Some (raw_depthmaps (data w) !! shot_id shot) ->
   compute_depthmap compute_brute_force compute_patch_match
     compute_patch_match_sample cv2_cvtColor_RGB2GRAY cv2_resize
     depthmap_to_ply plt_show neighbors min_depth max_depth shot w
   = (Ok tt,
      {| data := data w;
         log_records :=
           log_records w ++
           [(INFO, "Using precomputed raw depthmap " +:+ shot_id shot)];
         pydense_calls := pydense_calls w |})) /\
  (is_Some (clean_depthmaps (data w) !! shot_id shot) ->
   clean_depthmap cleaner_clean cv2_resize depthmap_to_ply plt_show
     neighbors shot w
   = (Ok tt,
      {| data := data w;
         log_records :=
           log_records w ++
           [(INFO, "Using precomputed clean depthmap " +:+ shot_id shot)];
         pydense_calls := pydense_calls w |})) /\
  (is_Some (pruned_depthmaps (data w) !! shot_id shot) ->
   prune_depthmap pruner_prune cv2_resize neighbors shot w
   = (Ok tt,
      {| data := data w;
         log_records :=
           log_records w ++
           [(INFO, "Using precomputed pruned depthmap " +:+ shot_id shot)];
         pydense_calls := pydense_calls w |})).
Proof.
  split; [|split]; intros Hex.
  - unfold compute_depthmap.
    erewrite bind_run by reflexivity.
    erewrite bind_run by reflexivity.
    by rewrite bool_decide_eq_true_2.
  - unfold clean_depthmap.
    erewrite bind_run by reflexivity.
    erewrite bind_run by reflexivity.
    by rewrite bool_decide_eq_true_2.
  - unfold prune_depthmap.
    erewrite bind_run by reflexivity.
    erewrite bind_run by reflexivity.
    by rewrite bool_decide_eq_true_2.
Qed.

(** C9. When the shot has a raw depthmap and no clean one, and the
    cleaner returns a depth map, the clean stage saves a clean depthmap
    whose depth is the cleaner's output and whose plane and score are those
    of the shot's raw depthmap; the raw depthmaps are as before. *)
Theorem clean_carries_plane_and_score neighbors shot w raw depth :
  clean_depthmaps (data w) !! shot_id shot = None ->
  raw_depthmaps (data w) !! shot_id shot = Some raw ->
  cleaner_clean (configured_cleaner (data w) neighbors) = Ok depth ->
  let w' :=
    (clean_depthmap cleaner_clean cv2_resize depthmap_to_ply plt_show
      neighbors shot w).2
  in
  clean_depthmaps (data w') !! shot_id shot
  = Some {| clean_depth := depth; clean_plane := raw_plane raw;
            clean_score := raw_score raw |} /\
  raw_depthmaps (data w') = raw_depthmaps (data w).
Proof.
  intros Hnone Hraw Hclean w'. subst w'. unfold clean_depthmap.
  erewrite bind_run by reflexivity.
  erewrite bind_run by reflexivity.
  rewrite bool_decide_eq_false_2 by (rewrite Hnone; intros [? ?]; done).
  erewrite bind_run by reflexivity.
  erewrite bind_run by reflexivity.
  erewrite bind_run by reflexivity.
  erewrite bind_run by reflexivity.
  erewrite bind_run by apply add_views_to_depth_cleaner_run.
  erewrite bind_run by reflexivity.
  cbn [dc_same_depth_threshold dc_min_consistent_views dc_views app data].
  fold (configured_cleaner (data w) neighbors).
  erewrite bind_run by (unfold lift; rewrite Hclean; reflexivity).
  erewrite bind_run.
  2:{ unfold load_raw_depthmap, load_from.
      erewrite bind_run by reflexivity. cbn [data]. rewrite Hraw. reflexivity. }
  erewrite bind_run by reflexivity.
  match goal with |- context [(_ ≫= _) ?w0] =>
    destruct (keeps_depthmaps_clean_tail
                (depthmap_save_debug_files (config (data w)))
                (interactive (config (data w))) shot depth
                ("Shot: " +:+ shot_id shot)
                [ShowDepth (raw_depth raw); ShowDepth depth] w0)
      as (Hr & Hc & _)
  end.
  rewrite Hr, Hc. cbn [data clean_depthmaps raw_depthmaps].
  by rewrite lookup_insert_eq.
Qed.

End StageTheorems.

(** ** Masking of the estimate stage *)

Lemma lookup_map {A B} (f : A -> B) (l : list A) (i : nat) :
  map f l !! i = f <$> l !! i.
Proof.
  revert i. induction l as [|x l IH]; intros [|i]; simpl; try done.
Qed.

Lemma pixel_map {A B} (f : A -> B) (a : list (list A)) i j v :
  pixel a i j = Some v -> pixel (map (map f) a) i j = Some (f v).
Proof.
  unfold pixel. rewrite lookup_map.
  destruct (a !! i) as [row|]; simpl; [|done].
  rewrite lookup_map. by intros ->.
Qed.

(** *** Broadcasting *)

Lemma stretch_lookup {A} (n : nat) (l : list A) i x :
  l !! i = Some x -> (i < n)%nat -> stretch n l !! i = Some x.
Proof.
  intros Hl Hi. destruct l as [|y [|z l]]; try done.
  destruct i as [|i]; [|done]. injection Hl as ->.
  simpl. by apply lookup_replicate_2.
Qed.

Lemma stretch_same {A} (n : nat) (l : list A) :
  length l = n -> stretch n l = l.
Proof. destruct l as [|y [|z l]]; try done. by intros <-. Qed.

Lemma Forall_stretch {A} (P : A -> Prop) (n : nat) (l : list A) :
  Forall P l -> Forall P (stretch n l).
Proof.
  intros H. destruct l as [|y [|z l]]; try done.
  simpl. apply Forall_replicate. by inversion H.
Qed.

Lemma length_stretch {A} (n : nat) (l : list A) :
  length l = n \/ length l = 1%nat -> length (stretch n l) = n.
Proof.
  destruct l as [|y [|z l]]; simpl; intros [H|H]; try done;
    by rewrite length_replicate.
Qed.

Lemma broadcast_dim_cases n m k :
  broadcast_dim n m = Some k ->
  (n = k \/ n = 1%nat) /\ (m = k \/ m = 1%nat).
Proof.
  unfold broadcast_dim.
  destruct (Nat.eqb_spec n m) as [->|Hnm]; [intros [= ->]; auto|].
  destruct (Nat.eqb_spec n 1) as [->|Hn]; [intros [= ->]; auto|].
  destruct (Nat.eqb_spec m 1) as [->|Hm]; [intros [= ->]; auto|done].
Qed.

Lemma broadcast_dim_same n : broadcast_dim n n = Some n.
Proof. unfold broadcast_dim. by rewrite Nat.eqb_refl. Qed.

Lemma broadcast_dim_again n m k :
  broadcast_dim n m = Some k -> broadcast_dim k m = Some k.
Proof.
  intros H. destruct (broadcast_dim_cases _ _ _ H) as [_ [->| ->]].
  - apply broadcast_dim_same.
  - unfold broadcast_dim. destruct (Nat.eqb_spec k 1) as [->|Hk]; [done|].
    by rewrite Nat.eqb_refl.
Qed.

Lemma rectangular_rows {A} (a : list (list A)) :
  rectangular a = true <-> Forall (fun row => length row = ncols a) a.
Proof.
  unfold rectangular. rewrite forallb_forall, Forall_forall.
  split; intros H row Hin.
  - apply Nat.eqb_eq, H. by apply list_elem_of_In.
  - apply Nat.eqb_eq, H. by apply list_elem_of_In.
Qed.

Lemma has_shape_rectangular {A} h w (a : list (list A)) :
  has_shape h w a -> rectangular a = true /\ (a = [] \/ ncols a = w).
Proof.
  intros [Hh Hw]. destruct a as [|row a]; [by auto|].
  assert (Hn : ncols (row :: a) = w) by (by inversion Hw).
  split; [|by right]. apply rectangular_rows. by rewrite Hn.
Qed.

Lemma broadcast_to_same {A} h w (a : list (list A)) :
  has_shape h w a -> broadcast_to h w a = a.
Proof.
  intros [Hh Hw]. unfold broadcast_to.
  assert (Hmap : map (stretch w) a = a).
  { clear Hh. induction Hw as [|row a Hrow _ IH]; [done|].
    cbn. by rewrite IH, (stretch_same w row Hrow). }
  rewrite Hmap. by apply stretch_same.
Qed.

Lemma has_shape_broadcast_to {A} h w (a : list (list A)) :
  rectangular a = true ->
  length a = h \/ length a = 1%nat ->
  ncols a = w \/ ncols a = 1%nat ->
  has_shape h w (broadcast_to h w a).
Proof.
  intros Hr Hh Hw. apply rectangular_rows in Hr. unfold broadcast_to.
  assert (Hrows : Forall (fun row => length row = w) (map (stretch w) a)).
  { apply Forall_map. eapply Forall_impl; [exact Hr|].
    intros row Hrow. simpl. apply length_stretch. by rewrite Hrow. }
  split.
  - apply length_stretch. by rewrite length_map.
  - by apply Forall_stretch.
Qed.

Lemma has_shape_zip_with {A B C} (f : A -> B -> C) h w a b :
  has_shape h w a -> has_shape h w b ->
  has_shape h w (zip_with (zip_with f) a b).
Proof.
  intros [Ha Hra] [Hb Hrb]. split.
  - rewrite length_zip_with. lia.
  - clear Ha Hb. revert b Hrb.
    induction Hra as [|ra a Hrow _ IH]; intros [|rb b] Hrb; try done.
    inversion Hrb as [|? ? Hrow' Hrb']; subst. cbn.
    constructor; [|by apply IH].
    rewrite length_zip_with. lia.
Qed.

Lemma has_shape_map {A B} (f : A -> B) h w (a : list (list A)) :
  has_shape h w a -> has_shape h w (map (map f) a).
Proof.
  intros [Ha Hra]. split; [by rewrite length_map|].
  apply Forall_map. eapply Forall_impl; [exact Hra|].
  intros row Hrow. simpl. by rewrite length_map.
Qed.

Lemma rectangular_has_shape {A} (a : list (list A)) :
  rectangular a = true -> has_shape (length a) (ncols a) a.
Proof. intros H. split; [done|]. by apply rectangular_rows. Qed.

Lemma ncols_map {A B} (f : A -> B) (a : list (list A)) :
  ncols (map (map f) a) = ncols a.
Proof. destruct a as [|row a]; [done|]. cbn. by rewrite length_map. Qed.

Lemma rectangular_map {A B} (f : A -> B) (a : list (list A)) :
  rectangular (map (map f) a) = rectangular a.
Proof.
  unfold rectangular. rewrite ncols_map.
  generalize (ncols a). intros n.
  induction a as [|row a IH]; [done|]. cbn. by rewrite length_map, IH.
Qed.

(** The product of an array and a boolean array of its own shape. *)
Lemma array_mul_bool_same a (g : float -> bool) :
  rectangular a = true ->
  array_mul_bool a (map (map g) a)
  = Ok (zip_with (zip_with (fun v b => (v * bool_to_float b)%float)) a
          (map (map g) a)).
Proof.
  intros Hr. unfold array_mul_bool.
  rewrite rectangular_map, Hr. cbn [andb].
  rewrite length_map, ncols_map, !broadcast_dim_same.
  pose proof (rectangular_has_shape a Hr) as Hs.
  rewrite (broadcast_to_same _ _ _ Hs).
  by rewrite (broadcast_to_same _ _ _ (has_shape_map g _ _ _ Hs)).
Qed.

Lemma array_mul_bool_rectangular a m r :
  array_mul_bool a m = Ok r -> rectangular a = true /\ rectangular m = true.
Proof.
  unfold array_mul_bool.
  destruct (rectangular a), (rectangular m); by try done.
Qed.

(** What a defined product is. *)
Lemma array_mul_bool_Ok a m r :
  array_mul_bool a m = Ok r ->
  exists h w,
    broadcast_dim (length a) (length m) = Some h /\
    broadcast_dim (ncols a) (ncols m) = Some w /\
    has_shape h w (broadcast_to h w a) /\
    has_shape h w (broadcast_to h w m) /\
    r = zip_with (zip_with (fun v b => (v * bool_to_float b)%float))
          (broadcast_to h w a) (broadcast_to h w m).
Proof.
  intros H. destruct (array_mul_bool_rectangular _ _ _ H) as [Ha Hm].
  unfold array_mul_bool in H. rewrite Ha, Hm in H. cbn [andb] in H.
  destruct (broadcast_dim (length a) (length m)) as [h|] eqn:Eh; [|done].
  destruct (broadcast_dim (ncols a) (ncols m)) as [w|] eqn:Ew; [|done].
  injection H as <-. exists h, w.
  destruct (broadcast_dim_cases _ _ _ Eh) as [Hh1 Hh2].
  destruct (broadcast_dim_cases _ _ _ Ew) as [Hw1 Hw2].
  repeat split; try done; by apply has_shape_broadcast_to.
Qed.

Lemma rectangular_lookup {A} (a : list (list A)) i row :
  rectangular a = true -> a !! i = Some row -> length row = ncols a.
Proof.
  intros Hr Hi. apply rectangular_rows in Hr.
  by apply (proj1 (Forall_lookup _ _) Hr i row).
Qed.

Lemma broadcast_dim_bound n m k i :
  broadcast_dim n m = Some k -> (i < n)%nat -> (i < m)%nat -> (i < k)%nat.
Proof.
  intros H Hn Hm. destruct (broadcast_dim_cases _ _ _ H) as [[<- | ->] _]; [done|].
  destruct (broadcast_dim_cases _ _ _ H) as [_ [<- | ->]]; [done|].
  unfold broadcast_dim in H. simpl in H. by injection H as <-.
Qed.

Lemma pixel_broadcast_to {A} h w (a : list (list A)) i j v :
  pixel a i j = Some v -> (i < h)%nat -> (j < w)%nat ->
  pixel (broadcast_to h w a) i j = Some v.
Proof.
  unfold pixel, broadcast_to. intros Hp Hi Hj.
  destruct (a !! i) as [row|] eqn:E; [|done].
  rewrite (stretch_lookup h (map (stretch w) a) i (stretch w row)); [|..|done].
  - by apply stretch_lookup.
  - by rewrite lookup_map, E.
Qed.

Lemma pixel_zip_with {A B C} (f : A -> B -> C) a b i j v u :
  pixel a i j = Some v -> pixel b i j = Some u ->
  pixel (zip_with (zip_with f) a b) i j = Some (f v u).
Proof.
  unfold pixel. rewrite lookup_zip_with.
  destruct (a !! i) as [ra|]; simpl; [|done].
  destruct (b !! i) as [rb|]; simpl; [|done].
  rewrite lookup_zip_with. by intros -> ->.
Qed.

Lemma pixel_bounds {A} (a : list (list A)) i j v :
  rectangular a = true -> pixel a i j = Some v ->
  (i < length a)%nat /\ (j < ncols a)%nat.
Proof.
  unfold pixel. intros Hr Hp.
  destruct (a !! i) as [row|] eqn:E; [|done].
  split; [by eapply lookup_lt_Some|].
  rewrite <- (rectangular_lookup a i row Hr E). by eapply lookup_lt_Some.
Qed.

Lemma array_mul_bool_pixel a m r i j v b :
  array_mul_bool a m = Ok r ->
  pixel a i j = Some v -> pixel m i j = Some b ->
  pixel r i j = Some (v * bool_to_float b)%float.
Proof.
  intros H Hv Hb.
  destruct (array_mul_bool_rectangular _ _ _ H) as [Ha Hm].
  destruct (array_mul_bool_Ok _ _ _ H) as (h & w & Eh & Ew & _ & _ & ->).
  destruct (pixel_bounds _ _ _ _ Ha Hv) as [Hi1 Hj1].
  destruct (pixel_bounds _ _ _ _ Hm Hb) as [Hi2 Hj2].
  pose proof (broadcast_dim_bound _ _ _ _ Eh Hi1 Hi2) as Hi.
  pose proof (broadcast_dim_bound _ _ _ _ Ew Hj1 Hj2) as Hj.
  apply (pixel_zip_with (fun v b => (v * bool_to_float b)%float));
    by apply pixel_broadcast_to.
Qed.

Lemma mask_depth_pixel depth score max_depth min_score masked i j d s :
  mask_depth depth score max_depth min_score = Ok masked ->
  pixel depth i j = Some d -> pixel score i j = Some s ->
  pixel masked i j
  = Some (mask_pixel d s (np_float32 max_depth) (np_float32 min_score)).
Proof.
  unfold mask_depth. intros Hm Hd Hs.
  destruct (array_mul_bool depth (array_lt depth max_depth)) as [d1|] eqn:E1;
    [|done].
  simpl in Hm.
  eapply array_mul_bool_pixel; [exact Hm| |].
  - eapply array_mul_bool_pixel; [exact E1 | exact Hd |].
    unfold array_lt.
    by apply (pixel_map (fun v => (v <? np_float32 max_depth)%float)).
  - unfold array_gt.
    by apply (pixel_map (fun v => (np_float32 min_score <? v)%float)).
Qed.

(** For every pixel: a finite depth at or above the maximum, or a score at
    or below the threshold, leaves a zero; a depth below the maximum with a
    score above the threshold is kept bit for bit. *)
Lemma mask_pixel_spec (d s max_depth min_score : float) :
  (is_finite d = true ->
   ((max_depth <=? d) || (s <=? min_score))%float = true ->
   is_zero (mask_pixel d s max_depth min_score) = true) /\
  (((d <? max_depth) && (min_score <? s))%float = true ->
   mask_pixel d s max_depth min_score = d) /\
  (is_nan d = false -> is_nan s = false ->
   is_nan max_depth = false -> is_nan min_score = false ->
   ((max_depth <=? d) || (s <=? min_score))%float = false ->
   mask_pixel d s max_depth min_score = d).
Proof.
  split; [|split].
  - intros Hfin Hor. apply mask_pixel_zeroed; [done|].
    apply orb_prop in Hor as [H|H]; [left|right].
    + rewrite leb_spec in H. rewrite ltb_spec. unfold SFleb in H. unfold SFltb.
      rewrite (SFcompare_antisym (Prim2SF max_depth) (Prim2SF d)).
      by destruct (SFcompare (Prim2SF max_depth) (Prim2SF d)) as [[]|].
    + rewrite leb_spec in H. rewrite ltb_spec. unfold SFleb in H. unfold SFltb.
      rewrite (SFcompare_antisym (Prim2SF s) (Prim2SF min_score)).
      by destruct (SFcompare (Prim2SF s) (Prim2SF min_score)) as [[]|].
  - intros Hand. apply andb_prop in Hand as [H1 H2].
    by apply mask_pixel_kept.
  - intros Hd Hs Hmax Hmin Hor. apply orb_false_elim in Hor as [H1 H2].
    rewrite (leb_negb_ltb d max_depth) in H1 by done.
    rewrite (leb_negb_ltb min_score s) in H2 by done.
    apply negb_false_iff in H1, H2. by apply mask_pixel_kept.
Qed.

(** The products leave a float32 a float32. *)
Lemma mask_pixel_float32 (d s max_depth min_score : float) :
  np_float32 d = d ->
  np_float32 (mask_pixel d s max_depth min_score)
  = mask_pixel d s max_depth min_score.
Proof.
  intros Hd. unfold mask_pixel.
  assert (Hz : forall z b,
            np_float32 (z * 0 * bool_to_float b) = (z * 0 * bool_to_float b)%float).
  { intros z b. unfold np_float32.
    assert (H0 : exists X, Prim2SF (z * 0)%float = X /\
                   (X = S754_nan \/ exists s, X = S754_zero s)).
    { eexists. split; [reflexivity|]. rewrite mul_spec, Prim2SF_zero.
      destruct (Prim2SF z); simpl; eauto. }
    destruct H0 as (X & HX & HX').
    assert (Hb : Prim2SF (z * 0 * bool_to_float b)%float = X
                 \/ exists s, Prim2SF (z * 0 * bool_to_float b)%float
                              = S754_zero s).
    { rewrite mul_spec, HX.
      destruct b; cbn [bool_to_float];
        [rewrite Prim2SF_one | rewrite Prim2SF_zero];
        destruct HX' as [->|[s' ->]]; simpl; eauto. }
    destruct Hb as [Hb|[s' Hb]]; rewrite Hb; [|done].
    by destruct HX' as [->|[s' ->]]. }
  destruct (d <? max_depth)%float; cbn [bool_to_float].
  - rewrite mul_one_r.
    destruct (min_score <? s)%float; cbn [bool_to_float].
    + by rewrite mul_one_r.
    + unfold np_float32.
      assert (H0 : Prim2SF (d * 0)%float = S754_nan
                   \/ exists s', Prim2SF (d * 0)%float = S754_zero s').
      { rewrite mul_spec, Prim2SF_zero. destruct (Prim2SF d); simpl; eauto. }
      by destruct H0 as [->|[s' ->]].
  - apply Hz.
Qed.

Section EstimateTheorems.

Variable compute_brute_force :
  DepthmapEstimator -> result (DepthArray * PlaneArray * ScoreArray * IndexArray).
Variable compute_patch_match :
  DepthmapEstimator -> result (DepthArray * PlaneArray * ScoreArray * IndexArray).
Variable compute_patch_match_sample :
  DepthmapEstimator -> result (DepthArray * PlaneArray * ScoreArray * IndexArray).
Variable cv2_cvtColor_RGB2GRAY : Image -> Image.
Variable cv2_resize : Image -> Z -> Z -> Interpolation -> result Image.
Variable depthmap_to_ply : Shot -> DepthArray -> Image -> string.
Variable plt_show : string -> list Subplot -> result unit.

(** A raw depthmap that the estimate stage leaves for a shot that had none
    is the estimator's output with its depth masked. *)
Lemma compute_depthmap_saved neighbors min_depth max_depth shot w a :
  raw_depthmaps (data w) !! shot_id shot = None ->
  raw_depthmaps
    (data (compute_depthmap compute_brute_force compute_patch_match
             compute_patch_match_sample cv2_cvtColor_RGB2GRAY cv2_resize
             depthmap_to_ply plt_show neighbors min_depth max_depth shot w).2)
    !! shot_id shot = Some a ->
  exists de depth plane score nghbr w1 w2 masked,
    de_compute compute_brute_force compute_patch_match
      compute_patch_match_sample (depthmap_method (config (data w))) de w1
      = (Ok (depth, plane, score, nghbr), w2) /\
    mask_depth depth score max_depth
      (depthmap_min_correlation_score (config (data w))) = Ok masked /\
    a = {| raw_depth := masked; raw_plane := plane; raw_score := score;
           raw_nghbr := nghbr;
           raw_nghbrs := map shot_id (py_slice_from neighbors 1) |}.
Proof.
  intros Hnone Hsaved. unfold compute_depthmap in Hsaved.
  erewrite bind_run in Hsaved by reflexivity.
  erewrite bind_run in Hsaved by reflexivity.
  rewrite bool_decide_eq_false_2 in Hsaved
    by (rewrite Hnone; intros [? ?]; done).
  erewrite bind_run in Hsaved by reflexivity.
  match type of Hsaved with
  | context [(configure_estimator ?x ?y ≫= _) ?w0] =>
      pose proof (keeps_data_configure_estimator x y w0) as Hk1;
      destruct (configure_estimator x y w0) as [[de0|e] w1] eqn:E1
  end; simpl in Hk1.
  2:{ erewrite bind_raise in Hsaved by exact E1. simpl in Hsaved.
      rewrite Hk1 in Hsaved. congruence. }
  erewrite bind_run in Hsaved by exact E1. cbn beta in Hsaved.
  pose proof (keeps_data_add_views_estimator cv2_cvtColor_RGB2GRAY cv2_resize
                neighbors de0 w1) as Hk2.
  destruct (add_views_to_depth_estimator cv2_cvtColor_RGB2GRAY cv2_resize
              neighbors de0 w1) as [[de|e] w2] eqn:E2; simpl in Hk2.
  2:{ erewrite bind_raise in Hsaved by exact E2. simpl in Hsaved.
      rewrite Hk2, Hk1 in Hsaved. congruence. }
  erewrite bind_run in Hsaved by exact E2. cbn beta in Hsaved.
  pose proof (keeps_data_de_compute compute_brute_force compute_patch_match
                compute_patch_match_sample
                (depthmap_method (config (data w))) de w2) as Hk3.
  destruct (de_compute compute_brute_force compute_patch_match
              compute_patch_match_sample (depthmap_method (config (data w)))
              de w2) as [[[[[depth plane] score] nghbr]|e] w3] eqn:E3;
    simpl in Hk3.
  2:{ erewrite bind_raise in Hsaved by exact E3. simpl in Hsaved.
      rewrite Hk3, Hk2, Hk1 in Hsaved. congruence. }
  erewrite bind_run in Hsaved by exact E3. cbn beta iota in Hsaved.
  destruct (mask_depth depth score max_depth
              (depthmap_min_correlation_score (config (data w))))
    as [masked|e] eqn:E4.
  2:{ erewrite bind_raise in Hsaved by reflexivity. simpl in Hsaved.
      rewrite Hk3, Hk2, Hk1 in Hsaved. congruence. }
  erewrite bind_run in Hsaved by reflexivity. cbn beta in Hsaved.
  erewrite bind_run in Hsaved by reflexivity.
  rewrite (proj1 (keeps_depthmaps_estimate_tail cv2_resize depthmap_to_ply
                    plt_show _ _ _ _ _ _ _)) in Hsaved.
  cbn [data raw_depthmaps] in Hsaved.
  rewrite lookup_insert_eq in Hsaved. injection Hsaved as <-.
  by exists de, depth, plane, score, nghbr, w2, w3, masked.
Qed.

(** C4 (amended). In the raw depthmap that the estimate stage saves, the
    plane, score and neighbor maps are the estimator's, and every pixel of
    the depth map is the estimator's depth times the two tests, which
    compare with the maximum depth and the configured minimum correlation
    score rounded to float32: zero when the depth is finite and is at or
    above that maximum or the score is at or below that minimum, and the
    estimator's depth, bit for bit, for every other pixel of numbers (so it
    is zero there only if the estimator's depth is). A float32 depth is
    saved as a float32. *)
Theorem estimate_masking neighbors min_depth max_depth shot w a :
  raw_depthmaps (data w) !! shot_id shot = None ->
  raw_depthmaps
    (data (compute_depthmap compute_brute_force compute_patch_match
             compute_patch_match_sample cv2_cvtColor_RGB2GRAY cv2_resize
             depthmap_to_ply plt_show neighbors min_depth max_depth shot w).2)
    !! shot_id shot = Some a ->
  let max32 := np_float32 max_depth in
  let min32 :=
    np_float32 (depthmap_min_correlation_score (config (data w))) in
  exists de depth plane score nghbr w1 w2,
    de_compute compute_brute_force compute_patch_match
      compute_patch_match_sample (depthmap_method (config (data w))) de w1
      = (Ok (depth, plane, score, nghbr), w2) /\
    raw_plane a = plane /\ raw_score a = score /\ raw_nghbr a = nghbr /\
    forall i j d s,
      pixel depth i j = Some d -> pixel score i j = Some s ->
      pixel (raw_depth a) i j = Some (mask_pixel d s max32 min32) /\
      (is_finite d = true ->
       ((max32 <=? d) || (s <=? min32))%float = true ->
       is_zero (mask_pixel d s max32 min32) = true) /\
      (((d <? max32) && (min32 <? s))%float = true ->
       mask_pixel d s max32 min32 = d) /\
      (is_nan d = false -> is_nan s = false ->
       is_nan max32 = false -> is_nan min32 = false ->
       ((max32 <=? d) || (s <=? min32))%float = false ->
       mask_pixel d s max32 min32 = d) /\
      (np_float32 d = d ->
       np_float32 (mask_pixel d s max32 min32) = mask_pixel d s max32 min32).
Proof.
  intros Hnone Hsaved max32 min32.
  destruct (compute_depthmap_saved _ _ _ _ _ _ Hnone Hsaved)
    as (de & depth & plane & score & nghbr & w1 & w2 & masked & Hc & Hm & ->).
  exists de, depth, plane, score, nghbr, w1, w2.
  split; [exact Hc|]. repeat (split; [reflexivity|]).
  intros i j d s Hd Hs. split.
  - simpl. by eapply mask_depth_pixel.
  - destruct (mask_pixel_spec d s max32 min32) as (H1 & H2 & H3).
    repeat (split; [assumption|]). apply mask_pixel_float32.
Qed.

End EstimateTheorems.

(** ** The stages on the scene *)

(** The estimate stage of [a] saves the four pixels as 0, 2, 0 and 0. *)
Example scene_estimate :
  (Scene.run_estimate Scene.world).1 = Ok tt /\
  raw_depth <$> raw_depthmaps (data (Scene.run_estimate Scene.world).2) !! "a"
  = Some [[0%float; 2%float]; [0%float; 0%float]].
Proof. split; vm_compute; reflexivity. Qed.

Lemma estimate_masking_witness :
  exists a de depth plane score nghbr w1 w2,
    raw_depthmaps (data (Scene.run_estimate Scene.world).2) !! "a" = Some a /\
    de_compute Scene.estimator_kernel Scene.estimator_kernel
      Scene.estimator_kernel "PATCH_MATCH" de w1
      = (Ok (depth, plane, score, nghbr), w2) /\
    raw_score a = score /\
    pixel (raw_depth a) 0 1
    = Some (mask_pixel 2 0.5 (np_float32 7)
              (np_float32 (depthmap_min_correlation_score Scene.settings))) /\
    pixel (raw_depth a) 1 1
    = Some (mask_pixel 3 0x1.99999ap-4 (np_float32 7)
              (np_float32 (depthmap_min_correlation_score Scene.settings))).
Proof.
  destruct (raw_depthmaps (data (Scene.run_estimate Scene.world).2) !! "a")
    as [a|] eqn:E; [|vm_compute in E; discriminate E].
  assert (Hnone : raw_depthmaps (data Scene.world) !! shot_id Scene.shot_a = None).
  { vm_compute. reflexivity. }
  destruct (estimate_masking Scene.estimator_kernel Scene.estimator_kernel
              Scene.estimator_kernel Scene.to_gray Scene.resize Scene.to_ply Scene.show
              [Scene.shot_a; Scene.shot_b] 1%float 7%float Scene.shot_a
              Scene.world a Hnone E)
    as (de & depth & plane & score & nghbr & w1 & w2 & Hc & _ & Hs & _ & Hpix).
  exists a, de, depth, plane, score, nghbr, w1, w2.
  split; [reflexivity|]. split; [exact Hc|]. split; [exact Hs|].
  assert (Hout : depth = Scene.estimated_depth /\ score = Scene.estimated_score).
  { unfold de_compute in Hc. simpl in Hc.
    unfold mbind, M_bind, pydense_call, lift in Hc. simpl in Hc.
    injection Hc as -> _ -> _ _. done. }
  destruct Hout as [-> ->].
  split.
  - apply (Hpix 0%nat 1%nat 2%float 0.5%float); reflexivity.
  - apply (Hpix 1%nat 1%nat 3%float 0x1.99999ap-4%float); reflexivity.
Defined.

(** C4 as stated fails: the pixel in the first row and column has the
    depth 0 below the maximum 7 and the score 0.5 above the threshold 0.1,
    so it is not masked, and yet its saved depth is zero. *)
Lemma estimate_masking_counterexample :
  exists a,
    raw_depthmaps (data (Scene.run_estimate Scene.world).2) !! "a" = Some a /\
    ~ masking_as_stated Scene.estimated_depth Scene.estimated_score
        (raw_depth a) 7%float (depthmap_min_correlation_score Scene.settings).
Proof.
  eexists. split; [vm_compute; reflexivity|].
  intros H.
  destruct (H 0%nat 0%nat 0%float 0.5%float 0%float eq_refl eq_refl eq_refl)
    as [_ Hother].
  destruct Hother as [Hnonzero _]; [vm_compute; reflexivity|].
  vm_compute in Hnonzero. discriminate Hnonzero.
Qed.

(** The thresholds are compared as float32: the pixel in the second row
    and column has the depth 3 below the maximum 7 and the score
    [np.float32(0.1)], which is above the configured 0.1, and it is saved as
    zero, because that score is not above the float32 of 0.1. *)
Example scene_threshold_rounded :
  (3 <? 7)%float = true /\
  (depthmap_min_correlation_score Scene.settings <? 0x1.99999ap-4)%float
  = true /\
  (np_float32 (depthmap_min_correlation_score Scene.settings)
   <? 0x1.99999ap-4)%float = false /\
  pixel Scene.estimated_score 1 1 = Some 0x1.99999ap-4%float /\
  (raw_depth <$>
     raw_depthmaps (data (Scene.run_estimate Scene.world).2) !! "a")
    ≫= (fun depth => pixel depth 1 1)
  = Some 0%float.
Proof. repeat split; vm_compute; reflexivity. Qed.

(** Maps of different shapes are broadcast: a score map of one row serves
    every row of the depth map. *)
Example mask_depth_broadcast :
  mask_depth [[1%float; 2%float]; [3%float; 4%float]]
    [[0.5%float; 0.0625%float]] 7 0.1
  = Ok [[1%float; 0%float]; [3%float; 0%float]] /\
  is_Ok (mask_depth [[1%float; 2%float]; [3%float; 4%float]]
           [[0.5%float; 0.5%float; 0.5%float]] 7 0.1) = false.
Proof. split; vm_compute; reflexivity. Qed.

(** A second run of the estimate stage calls nothing and changes nothing
    but the log. *)
Lemma stage_guard_idempotent_witness :
  (Scene.run_estimate (Scene.run_estimate Scene.world).2).1 = Ok tt /\
  pydense_calls (Scene.run_estimate (Scene.run_estimate Scene.world).2).2
  = pydense_calls (Scene.run_estimate Scene.world).2 /\
  data (Scene.run_estimate (Scene.run_estimate Scene.world).2).2
  = data (Scene.run_estimate Scene.world).2.
Proof.
  assert (Hex : is_Some
    (raw_depthmaps (data (Scene.run_estimate Scene.world).2)
       !! shot_id Scene.shot_a)).
  { eexists. vm_compute. reflexivity. }
  destruct (stage_guard_idempotent Scene.estimator_kernel
              Scene.estimator_kernel Scene.estimator_kernel
              Scene.cleaner_kernel Scene.pruner_kernel Scene.to_gray
              Scene.resize Scene.to_ply Scene.show [Scene.shot_a; Scene.shot_b]
              1%float 7%float Scene.shot_a (Scene.run_estimate Scene.world).2)
    as [Hrun _].
  unfold Scene.run_estimate at 1 3 5. rewrite (Hrun Hex). done.
Defined.

Lemma clean_carries_plane_and_score_witness :
  clean_depthmaps
    (data (Scene.run_clean (Scene.run_estimate Scene.world).2).2) !! "a"
  = Some {| clean_depth := [[0%float; 2%float]; [0%float; 0%float]];
            clean_plane := Scene.estimated_plane;
            clean_score := Scene.estimated_score |}.
Proof.
  apply (clean_carries_plane_and_score Scene.cleaner_kernel Scene.resize
           Scene.to_ply Scene.show [Scene.shot_a; Scene.shot_b] Scene.shot_a
           (Scene.run_estimate Scene.world).2
           {| raw_depth := [[0%float; 2%float]; [0%float; 0%float]];
              raw_plane := Scene.estimated_plane;
              raw_score := Scene.estimated_score;
              raw_nghbr := [[1; 1]; [1; 1]];
              raw_nghbrs := ["b"] |}).
  - vm_compute. reflexivity.
  - vm_compute. reflexivity.
  - reflexivity.
Defined.

Lemma merge_concatenates_witness :
  exists merged w',
    merge_depthmaps_from_provider ["a"; "b"] Scene.pruned_provider Scene.world
      = (Ok merged, w') /\
    pa_points merged
    = pa_points Scene.points_of_a ++ pa_points Scene.points_of_b /\
    length (pa_points merged) = 3%nat.
Proof.
  destruct (merge_concatenates Scene.pruned_provider Scene.world)
    as (_ & _ & Htwo).
  destruct (Htwo "a" "b" Scene.points_of_a Scene.points_of_b eq_refl eq_refl)
    as (merged & w' & Hrun & Hpoints & _ & _ & _ & Hlen).
  exists merged, w'. split; [exact Hrun|]. split; [exact Hpoints|].
  rewrite Hlen. reflexivity.
Defined.

(** Merging no shot: four empty arrays and a warning. *)
Example merge_nothing :
  merge_depthmaps_from_provider [] Scene.pruned_provider Scene.world
  = (Ok empty_point_arrays,
     {| data := Scene.dataset;
        log_records :=
          [(INFO, "Merging depthmaps");
           (WARNING, "Depthmaps contain no points.  Try using more images.")];
        pydense_calls := [] |}).
Proof. reflexivity. Qed.

(* ===================================================================== *)
(** * Further properties of the module                                   *)
(* ===================================================================== *)

(** ** Ranking of the neighbors *)

Lemma SFmul_comm (X Y : spec_float) :
  SFmul prec emax X Y = SFmul prec emax Y X.
Proof.
  destruct X as [s1|s1| |s1 m1 e1], Y as [s2|s2| |s2 m2 e2]; simpl;
    try reflexivity; try (by rewrite xorb_comm).
  f_equal; [apply xorb_comm | f_equal; apply Pos.mul_comm | apply Z.add_comm].
Qed.

Lemma mul_comm (x y : float) : (x * y)%float = (y * x)%float.
Proof. apply Prim2SF_inj. rewrite !mul_spec. apply SFmul_comm. Qed.

Lemma In_take_drop {A} (R : A -> A -> Prop) (k : nat) (l : list A) :
  StronglySorted R l ->
  forall x y, In x (take k l) -> In y (drop k l) -> R x y.
Proof.
  intros Hs. revert k.
  induction Hs as [|z l Hs IH Hall]; intros [|k] x y; simpl; try tauto.
  intros [->|Hx] Hy.
  - rewrite Forall_forall in Hall. apply Hall, list_elem_of_In.
    revert Hy. clear. revert k. induction l as [|a l IH]; intros [|k]; simpl;
      try tauto. intros H. right. by eapply IH.
  - by eapply IH.
Qed.

Lemma filter_insert_by_score (s : Z) (x : Shot * Z) (l : list (Shot * Z)) :
  List.filter (fun c => c.2 =? s) (insert_by_score x l)
  = List.filter (fun c => c.2 =? s) (x :: l).
Proof.
  induction l as [|y l IH]; [done|].
  cbn [insert_by_score]. destruct (Z.ltb_spec x.2 y.2) as [Hlt|Hge]; [|done].
  cbn [List.filter] in *. rewrite IH.
  destruct (Z.eqb_spec y.2 s), (Z.eqb_spec x.2 s); try done. lia.
Qed.

Section RankingTheorems.

Variable arccos : float -> float.

(** X1. The angle at a point between the rays to two camera centres does
    not depend on the order of the two centres, bit for bit, so the score
    of a list of shared tracks is the same from either shot of a pair. *)
Theorem track_score_symmetric reconstruction (p C1 C2 : Vec3) tracks :
  angle_between_points arccos p C1 C2 = angle_between_points arccos p C2 C1 /\
  track_score arccos reconstruction C1 C2 tracks
  = track_score arccos reconstruction C2 C1 tracks.
Proof.
  assert (Hangle : forall q A B,
    angle_between_points arccos q A B = angle_between_points arccos q B A).
  { intros [[o0 o1] o2] [[a0 a1] a2] [[b0 b1] b2]. unfold angle_between_points.
    rewrite (mul_comm (b0 - o0) (a0 - o0)), (mul_comm (b1 - o1) (a1 - o1)),
      (mul_comm (b2 - o2) (a2 - o2)).
    by rewrite (mul_comm
      ((b0 - o0) * (b0 - o0) + (b1 - o1) * (b1 - o1) + (b2 - o2) * (b2 - o2))
      ((a0 - o0) * (a0 - o0) + (a1 - o1) * (a1 - o1) + (a2 - o2) * (a2 - o2))). }
  split; [apply Hangle|].
  unfold track_score. rewrite !track_score_fold. do 3 f_equal.
  apply filter_ext. intros t. unfold good_track.
  destruct (points reconstruction !! t); [|done]. by rewrite Hangle.
Qed.

(** X2. The ranking is stable: the candidates of any one score stand in
    the ranked list in the order in which the table lists them. *)
Theorem ranking_stable shot common_tracks reconstruction (s : Z) :
  List.filter (fun c => c.2 =? s)
    (sort_by_score_desc
       (scored_neighbors arccos shot common_tracks reconstruction))
  = List.filter (fun c => c.2 =? s)
      (scored_neighbors arccos shot common_tracks reconstruction).
Proof.
  induction (scored_neighbors arccos shot common_tracks reconstruction)
    as [|x l IH]; [done|].
  cbn [sort_by_score_desc]. rewrite filter_insert_by_score.
  cbn [List.filter]. by rewrite IH.
Qed.

(** X3. The returned neighbors are the best: the ranked candidates split
    into those returned and those dropped, and no dropped candidate has a
    higher score than a returned one. *)
Theorem returned_neighbors_are_best shot common_tracks reconstruction N :
  exists kept dropped,
    Permutation (kept ++ dropped)
      (scored_neighbors arccos shot common_tracks reconstruction) /\
    find_neighboring_images arccos shot common_tracks reconstruction N
    = shot :: map fst kept /\
    forall x y, In x kept -> In y dropped -> y.2 <= x.2.
Proof.
  destruct (py_slice_to_take
    (sort_by_score_desc
       (scored_neighbors arccos shot common_tracks reconstruction)) N)
    as [k Hk].
  exists (take k (sort_by_score_desc
            (scored_neighbors arccos shot common_tracks reconstruction))),
    (drop k (sort_by_score_desc
            (scored_neighbors arccos shot common_tracks reconstruction))).
  split; [|split].
  - rewrite take_drop. apply sort_by_score_desc_perm.
  - unfold find_neighboring_images. by rewrite Hk.
  - intros x y Hx Hy.
    apply (In_take_drop score_ge k _ (sort_by_score_desc_sorted _) x y Hx Hy).
Qed.

(** X4. The length of the result, for any integer budget: one for the
    shot, plus the smaller of the budget and the number of candidates above
    the threshold; a negative budget [-k] drops the [k] last ranked
    candidates instead. *)
Theorem neighbor_list_length shot common_tracks reconstruction N :
  let survivors :=
    Z.of_nat
      (length (scored_neighbors arccos shot common_tracks reconstruction)) in
  Z.of_nat
    (length (find_neighboring_images arccos shot common_tracks reconstruction N))
  = 1 + (if 0 <=? N then Z.min N survivors else Z.max 0 (survivors + N)).
Proof.
  intros survivors. unfold find_neighboring_images, py_slice_to.
  rewrite length_app, length_map. cbn [length].
  assert (Hlen :
    Z.of_nat
      (length (sort_by_score_desc
         (scored_neighbors arccos shot common_tracks reconstruction)))
    = survivors).
  { subst survivors. f_equal. apply Permutation_length, sort_by_score_desc_perm. }
  destruct (Z.leb_spec 0 N); rewrite length_take; lia.
Qed.

(** X5. A returned neighbor shares at least 21 tracks that have a
    reconstructed point with the queried shot. *)
Theorem neighbor_shares_21_tracks shot common_tracks reconstruction N n :
  In n (tail (find_neighboring_images arccos shot common_tracks
                reconstruction N)) ->
  exists other_id tracks,
    In (other_id, tracks) (candidate_row common_tracks shot) /\
    shots reconstruction !! other_id = Some n /\
    (21 <= length
             (List.filter
                (fun t => bool_decide (is_Some (points reconstruction !! t)))
                tracks))%nat.
Proof.
  intros Hn. apply In_result_tail in Hn as [sc Hsc].
  apply In_scored_neighbors in Hsc as (id' & tracks & Hin & Hs & Heq & Hlt).
  simpl in *. exists id', tracks. split; [done|]. split; [done|].
  rewrite Heq, track_score_count in Hlt.
  assert (Hle : forall l,
    (length (qualifying_tracks arccos reconstruction shot n l)
     <= length (List.filter
          (fun t => bool_decide (is_Some (points reconstruction !! t))) l))%nat).
  { induction l as [|t l IH]; [done|]. unfold qualifying_tracks in *.
    cbn [List.filter]. unfold good_track at 1.
    destruct (points reconstruction !! t) as [pt|] eqn:E.
    - rewrite bool_decide_eq_true_2 by eauto.
      destruct (_ && _); simpl; lia.
    - rewrite bool_decide_eq_false_2 by (intros [? ?]; done). exact IH. }
  specialize (Hle tracks). lia.
Qed.

End RankingTheorems.

(** A returned neighbor of [a] in the scene. *)
Lemma neighbor_shares_21_tracks_witness :
  exists other_id tracks,
    In (other_id, tracks) (candidate_row Scene.common_tracks Scene.shot_a) /\
    shots Scene.reconstruction !! other_id = Some Scene.shot_b /\
    (21 <= length
             (List.filter
                (fun t =>
                   bool_decide (is_Some (points Scene.reconstruction !! t)))
                tracks))%nat.
Proof.
  apply (neighbor_shares_21_tracks arccos_bisect Scene.shot_a
           Scene.common_tracks Scene.reconstruction 1 Scene.shot_b).
  assert (Hres :
    find_neighboring_images arccos_bisect Scene.shot_a Scene.common_tracks
      Scene.reconstruction 1 = [Scene.shot_a; Scene.shot_b]).
  { vm_compute. reflexivity. }
  rewrite Hres. simpl. by left.
Defined.

(** ** Errors and keys of the common-track table *)

Lemma double_dict_fold_raise (e : exn)
    (pairs : list ((string * string) * list string)) :
  fold_left double_dict_step pairs (Raise e) = Raise e.
Proof. induction pairs as [|[[a b] v] pairs IH]; [done | exact IH]. Qed.

Lemma double_dict_step_raise_first res a b v :
  PyDict.get res a = None ->
  double_dict_step (Ok res) ((a, b), v) = Raise (KeyError a).
Proof.
  intros H. unfold double_dict_step, result_bind, set_item2. by rewrite H.
Qed.

Lemma double_dict_step_raise_second res a b v :
  is_Some (PyDict.get res a) -> PyDict.get res b = None ->
  double_dict_step (Ok res) ((a, b), v) = Raise (KeyError b).
Proof.
  intros [row Ha] Hb.
  destruct (set_item2_spec res a b v row Ha) as (res1 & Hr1 & _ & Hk1 & _).
  unfold double_dict_step, result_bind. rewrite Hr1.
  unfold set_item2.
  destruct (PyDict.get res1 b) as [row'|] eqn:E; [|done].
  assert (Hs : is_Some (PyDict.get res b)) by (apply Hk1; eauto).
  rewrite Hb in Hs. by destruct Hs.
Qed.

Lemma double_dict_step_Ok_inv res a b v r :
  double_dict_step (Ok res) ((a, b), v) = Ok r ->
  is_Some (PyDict.get res a) /\ is_Some (PyDict.get res b).
Proof.
  intros H.
  destruct (PyDict.get res a) as [row|] eqn:Ea.
  2:{ by rewrite double_dict_step_raise_first in H. }
  split; [eauto|].
  destruct (PyDict.get res b) as [row'|] eqn:Eb; [eauto|].
  rewrite double_dict_step_raise_second in H; [done | eauto | done].
Qed.

(** The loop over the pairs neither adds nor removes a row. *)
Lemma double_dict_fold_keys pairs res0 res :
  fold_left double_dict_step pairs (Ok res0) = Ok res ->
  forall k, is_Some (PyDict.get res k) <-> is_Some (PyDict.get res0 k).
Proof.
  revert res0. induction pairs as [|[[a b] v] pairs IH]; intros res0 H k.
  - by injection H as ->.
  - cbn [fold_left] in H.
    destruct (double_dict_step (Ok res0) ((a, b), v)) as [res1|e] eqn:E.
    2:{ by rewrite double_dict_fold_raise in H. }
    destruct (double_dict_step_Ok_inv _ _ _ _ _ E) as [Ha Hb].
    destruct (double_dict_step_spec res0 a b v Ha Hb)
      as (res1' & Hstep & _ & Hk & _).
    rewrite E in Hstep. injection Hstep as <-.
    rewrite (IH _ H k). apply Hk.
Qed.

Section CommonTrackErrors.

Variable all_common_tracks_without_features :
  TracksManager -> list ((string * string) * list string).

(** X6. The first pair that names an image outside the shot ids of the
    track graph makes [common_tracks_double_dict] raise [KeyError] for that
    image: for the first image of the pair if it is unknown, else for the
    second. *)
Theorem common_tracks_key_error (tracks_manager : TracksManager)
    pre a b v post :
  all_common_tracks_without_features tracks_manager
    = pre ++ ((a, b), v) :: post ->
  (forall x y u, In ((x, y), u) pre ->
     In x (get_shot_ids tracks_manager) /\ In y (get_shot_ids tracks_manager)) ->
  (~ In a (get_shot_ids tracks_manager) ->
   common_tracks_double_dict all_common_tracks_without_features tracks_manager
   = Raise (KeyError a)) /\
  (In a (get_shot_ids tracks_manager) ->
   ~ In b (get_shot_ids tracks_manager) ->
   common_tracks_double_dict all_common_tracks_without_features tracks_manager
   = Raise (KeyError b)).
Proof.
  intros Hpairs Hpre. unfold common_tracks_double_dict. rewrite Hpairs.
  rewrite fold_left_app. cbn [fold_left].
  destruct (table_invariant_fold (get_shot_ids tracks_manager) pre Hpre)
    as (res & Hfold & _ & _ & _ & Hkeys & _).
  rewrite Hfold.
  assert (Hget : forall k,
    is_Some (PyDict.get res k) <-> In k (get_shot_ids tracks_manager)).
  { intros k. rewrite (double_dict_fold_keys _ _ _ Hfold k), init_rows_get.
    destruct (decide (k ∈ get_shot_ids tracks_manager)) as [Hin|Hnin].
    - apply list_elem_of_In in Hin. split; eauto.
    - split; [intros [? ?]; done|].
      intros Hin. by apply list_elem_of_In in Hin. }
  split.
  - intros Ha. rewrite double_dict_step_raise_first.
    + apply double_dict_fold_raise.
    + destruct (PyDict.get res a) eqn:E; [|done].
      exfalso. apply Ha, Hget. eauto.
  - intros Ha Hb. rewrite double_dict_step_raise_second.
    + apply double_dict_fold_raise.
    + by apply Hget.
    + destruct (PyDict.get res b) eqn:E; [|done].
      exfalso. apply Hb, Hget. eauto.
Qed.

(** X7. When every pair names shot ids of the track graph, the rows of the
    table are exactly the shot ids, and a row lists only shot ids: the table
    never mentions an image that the graph does not have. *)
Theorem common_tracks_table_keys (tracks_manager : TracksManager) :
  (forall a b v,
     In ((a, b), v) (all_common_tracks_without_features tracks_manager) ->
     In a (get_shot_ids tracks_manager) /\ In b (get_shot_ids tracks_manager)) ->
  exists res,
    common_tracks_double_dict all_common_tracks_without_features tracks_manager
      = Ok res /\
    (forall k,
       is_Some (PyDict.get res k) <-> In k (get_shot_ids tracks_manager)) /\
    (forall a b v, lookup2 res a b = Some v ->
       In a (get_shot_ids tracks_manager) /\
       In b (get_shot_ids tracks_manager)).
Proof.
  intros Hwf.
  destruct (table_invariant_fold (get_shot_ids tracks_manager)
              (all_common_tracks_without_features tracks_manager) Hwf)
    as (res & Hfold & _ & _ & Hprov & _ & _).
  exists res. split; [exact Hfold|]. split.
  - intros k. rewrite (double_dict_fold_keys _ _ _ Hfold k), init_rows_get.
    destruct (decide (k ∈ get_shot_ids tracks_manager)) as [Hin|Hnin].
    + apply list_elem_of_In in Hin. split; eauto.
    + split; [intros [? ?]; done|].
      intros Hin. by apply list_elem_of_In in Hin.
  - intros a b v Hab.
    destruct (Hprov a b v Hab) as [Hin|Hin]; apply Hwf in Hin; tauto.
Qed.

End CommonTrackErrors.

Lemma common_tracks_key_error_witness :
  common_tracks_double_dict Scene.common_tracks_per_pair
    Scene.tracks_manager_abc
  = Raise (KeyError "d").
Proof.
  apply (proj2 (common_tracks_key_error Scene.common_tracks_per_pair
                  Scene.tracks_manager_abc
                  [(("a", "b"), Scene.track_ids); (("a", "c"), Scene.track_ids)]
                  "a" "d" Scene.track_ids [] eq_refl
                  ltac:(intros x y u Hin; vm_compute in Hin;
                        destruct Hin as [H|[H|[]]]; injection H as <- <- <-;
                        vm_compute; tauto))).
  - vm_compute. tauto.
  - vm_compute. intros [H|[H|[H|[]]]]; discriminate H.
Defined.

Lemma common_tracks_table_keys_witness :
  exists res,
    common_tracks_double_dict Scene.common_tracks_per_pair Scene.tracks_manager
      = Ok res /\
    (is_Some (PyDict.get res "d") <-> In "d" ["a"; "b"; "c"; "d"]).
Proof.
  destruct (common_tracks_table_keys Scene.common_tracks_per_pair
              Scene.tracks_manager) as (res & Hres & Hkeys & _).
  - intros a b v Hin. vm_compute in Hin.
    destruct Hin as [H|[H|[H|[]]]]; injection H as <- <- <-;
      vm_compute; tauto.
  - exists res. split; [exact Hres | apply Hkeys].
Defined.

(** ** What a stage writes *)

Lemma bind_data_rel {A B} (R : DataSet -> Prop) (c : M A) (k : A -> M B)
    (w : World) (d0 : DataSet) :
  data w = d0 -> keeps_data c -> R d0 ->
  (forall a w1, data w1 = d0 -> R (data (k a w1).2)) ->
  R (data ((c ≫= k) w).2).
Proof.
  intros Hw Hc HR Hk. unfold mbind, M_bind. specialize (Hc w).
  destruct (c w) as [[a|e] w1]; simpl in *.
  - apply Hk. congruence.
  - by rewrite Hc, Hw.
Qed.

Lemma writes_at_other {V} (image other : string) (m m' : gmap string V) :
  writes_at image m m' -> other ≠ image -> m' !! other = m !! other.
Proof.
  intros [->|[a ->]] Hne; [done|]. by rewrite lookup_insert_ne.
Qed.

Lemma keeps_data_add_views_cleaner neighbors dc :
  keeps_data (add_views_to_depth_cleaner neighbors dc).
Proof. intros w. by rewrite add_views_to_depth_cleaner_run. Qed.

Section FrameTheorems.

Variable compute_brute_force :
  DepthmapEstimator -> result (DepthArray * PlaneArray * ScoreArray * IndexArray).
Variable compute_patch_match :
  DepthmapEstimator -> result (DepthArray * PlaneArray * ScoreArray * IndexArray).
Variable compute_patch_match_sample :
  DepthmapEstimator -> result (DepthArray * PlaneArray * ScoreArray * IndexArray).
Variable cleaner_clean : DepthmapCleaner -> result DepthArray.
Variable pruner_prune : DepthmapPruner -> result PointArrays.
Variable cv2_cvtColor_RGB2GRAY : Image -> Image.
Variable cv2_resize : Image -> Z -> Z -> Interpolation -> result Image.
Variable depthmap_to_ply : Shot -> DepthArray -> Image -> string.
Variable plt_show : string -> list Subplot -> result unit.
Variable format_exception : exn -> string.

Lemma keeps_data_add_views_pruner neighbors dp :
  keeps_data (add_views_to_depth_pruner cv2_resize neighbors dp).
Proof.
  unfold add_views_to_depth_pruner, clean_depthmap_exists, load_clean_depthmap,
    load_undistorted_image, load_from, load_segmentation_labels,
    undistorted_segmentation_exists, load_undistorted_segmentation, load_from,
    scale_down_image, scale_image, dp_add_view.
  keeps_data_tac.
Qed.

Lemma compute_depthmap_frame neighbors min_depth max_depth shot w :
  estimate_frame (shot_id shot) (data w)
    (data (compute_depthmap compute_brute_force compute_patch_match
             compute_patch_match_sample cv2_cvtColor_RGB2GRAY cv2_resize
             depthmap_to_ply plt_show neighbors min_depth max_depth shot w).2).
Proof.
  assert (Hrefl : estimate_frame (shot_id shot) (data w) (data w)).
  { split; [by left | done]. }
  unfold compute_depthmap.
  apply (bind_data_rel _ _ _ w (data w)); [done | apply keeps_data_get | done |].
  intros d w1 Hw1.
  apply (bind_data_rel _ _ _ w1 (data w)); [done | | done |].
  { unfold raw_depthmap_exists. keeps_data_tac. }
  intros [|] w2 Hw2.
  { unfold logger_info. by rewrite keeps_data_log, Hw2. }
  apply (bind_data_rel _ _ _ w2 (data w));
    [done | apply keeps_data_log | done |].
  intros _ w3 Hw3.
  apply (bind_data_rel _ _ _ w3 (data w));
    [done | apply keeps_data_configure_estimator | done |].
  intros de0 w4 Hw4.
  apply (bind_data_rel _ _ _ w4 (data w));
    [done | apply keeps_data_add_views_estimator | done |].
  intros de w5 Hw5.
  apply (bind_data_rel _ _ _ w5 (data w));
    [done | apply keeps_data_de_compute | done |].
  intros [[[depth plane] score] nghbr] w6 Hw6.
  apply (bind_data_rel _ _ _ w6 (data w));
    [done | apply keeps_data_lift | done |].
  intros masked w7 Hw7.
  erewrite bind_run by reflexivity.
  match goal with |- context [(_ ≫= _) ?w0] =>
    destruct (keeps_depthmaps_estimate_tail cv2_resize depthmap_to_ply
                plt_show (depthmap_save_debug_files (config d))
                (interactive (config d)) shot masked
                ("Shot: " +:+ shot_id shot +:+ ", neighbors: "
                 +:+ join ", " (map shot_id (py_slice_from neighbors 1)))
                [ShowNormals plane; ShowDepth masked; ShowScore score;
                 ShowIndex nghbr] w0) as (Hr & Hc & Hp)
  end.
  unfold estimate_frame. rewrite Hr, Hc, Hp.
  cbn [data raw_depthmaps clean_depthmaps pruned_depthmaps]. rewrite Hw7.
  split; [right; eauto | done].
Qed.

Lemma clean_depthmap_frame neighbors shot w :
  clean_frame (shot_id shot) (data w)
    (data (clean_depthmap cleaner_clean cv2_resize depthmap_to_ply plt_show
      neighbors
             shot w).2).
Proof.
  assert (Hrefl : clean_frame (shot_id shot) (data w) (data w)).
  { split; [done | split; [by left | done]]. }
  unfold clean_depthmap.
  apply (bind_data_rel _ _ _ w (data w)); [done | apply keeps_data_get | done |].
  intros d w1 Hw1.
  apply (bind_data_rel _ _ _ w1 (data w)); [done | | done |].
  { unfold clean_depthmap_exists. keeps_data_tac. }
  intros [|] w2 Hw2.
  { unfold logger_info. by rewrite keeps_data_log, Hw2. }
  apply (bind_data_rel _ _ _ w2 (data w));
    [done | apply keeps_data_log | done |].
  intros _ w3 Hw3.
  apply (bind_data_rel _ _ _ w3 (data w)); [done | | done |].
  { unfold new_DepthmapCleaner. keeps_data_tac. }
  intros dc0 w4 Hw4.
  apply (bind_data_rel _ _ _ w4 (data w)); [done | | done |].
  { unfold dc_set_same_depth_threshold. keeps_data_tac. }
  intros dc1 w5 Hw5.
  apply (bind_data_rel _ _ _ w5 (data w)); [done | | done |].
  { unfold dc_set_min_consistent_views. keeps_data_tac. }
  intros dc2 w6 Hw6.
  apply (bind_data_rel _ _ _ w6 (data w));
    [done | apply keeps_data_add_views_cleaner | done |].
  intros dc w7 Hw7.
  apply (bind_data_rel _ _ _ w7 (data w));
    [done | apply keeps_data_call | done |].
  intros _ w8 Hw8.
  apply (bind_data_rel _ _ _ w8 (data w));
    [done | apply keeps_data_lift | done |].
  intros depth w9 Hw9.
  apply (bind_data_rel _ _ _ w9 (data w));
    [done | apply keeps_data_load_from | done |].
  intros raw w10 Hw10.
  erewrite bind_run by reflexivity.
  match goal with |- context [(_ ≫= _) ?w0] =>
    destruct (keeps_depthmaps_clean_tail cv2_resize depthmap_to_ply
                plt_show (depthmap_save_debug_files (config d))
                (interactive (config d)) shot depth
                ("Shot: " +:+ shot_id shot)
                [ShowDepth (raw_depth raw); ShowDepth depth] w0)
      as (Hr & Hc & Hp)
  end.
  unfold clean_frame. rewrite Hr, Hc, Hp.
  cbn [data raw_depthmaps clean_depthmaps pruned_depthmaps]. rewrite Hw10.
  split; [done | split; [right; eauto | done]].
Qed.

Lemma prune_depthmap_frame neighbors shot w :
  prune_frame (shot_id shot) (data w)
    (data (prune_depthmap pruner_prune cv2_resize neighbors shot w).2).
Proof.
  assert (Hrefl : prune_frame (shot_id shot) (data w) (data w)).
  { split; [done | split; [done | by left]]. }
  unfold prune_depthmap.
  apply (bind_data_rel _ _ _ w (data w)); [done | apply keeps_data_get | done |].
  intros d w1 Hw1.
  apply (bind_data_rel _ _ _ w1 (data w)); [done | | done |].
  { unfold pruned_depthmap_exists. keeps_data_tac. }
  intros [|] w2 Hw2.
  { unfold logger_info. by rewrite keeps_data_log, Hw2. }
  apply (bind_data_rel _ _ _ w2 (data w));
    [done | apply keeps_data_log | done |].
  intros _ w3 Hw3.
  apply (bind_data_rel _ _ _ w3 (data w)); [done | | done |].
  { unfold new_DepthmapPruner. keeps_data_tac. }
  intros dp0 w4 Hw4.
  apply (bind_data_rel _ _ _ w4 (data w)); [done | | done |].
  { unfold dp_set_same_depth_threshold. keeps_data_tac. }
  intros dp1 w5 Hw5.
  apply (bind_data_rel _ _ _ w5 (data w));
    [done | apply keeps_data_add_views_pruner | done |].
  intros dp w6 Hw6.
  apply (bind_data_rel _ _ _ w6 (data w));
    [done | apply keeps_data_call | done |].
  intros _ w7 Hw7.
  apply (bind_data_rel _ _ _ w7 (data w));
    [done | apply keeps_data_lift | done |].
  intros pa w8 Hw8.
  erewrite bind_run by reflexivity.
  unfold prune_frame.
  destruct (depthmap_save_debug_files (config d));
    cbn [save_point_cloud mbind M_bind mret M_ret get_data put_data snd data
         raw_depthmaps clean_depthmaps pruned_depthmaps];
    rewrite Hw8; (split; [done | split; [done | right; eauto]]).
Qed.

(** X8. Whatever the outcome, a stage runner leaves the stores of the
    other two stages as they were and, in its own store, changes at most
    the entry of its own shot: the depthmaps of every other shot are
    untouched. *)
Theorem stage_writes_only_its_artifact neighbors min_depth max_depth shot w :
  let w1 :=
    (compute_depthmap compute_brute_force compute_patch_match
       compute_patch_match_sample cv2_cvtColor_RGB2GRAY cv2_resize
       depthmap_to_ply plt_show neighbors min_depth max_depth shot w).2 in
  let w2 :=
    (clean_depthmap cleaner_clean cv2_resize depthmap_to_ply plt_show
      neighbors shot w).2
  in
  let w3 := (prune_depthmap pruner_prune cv2_resize neighbors shot w).2 in
  (estimate_frame (shot_id shot) (data w) (data w1) /\
   forall other, other ≠ shot_id shot ->
     raw_depthmaps (data w1) !! other = raw_depthmaps (data w) !! other) /\
  (clean_frame (shot_id shot) (data w) (data w2) /\
   forall other, other ≠ shot_id shot ->
     clean_depthmaps (data w2) !! other = clean_depthmaps (data w) !! other) /\
  (prune_frame (shot_id shot) (data w) (data w3) /\
   forall other, other ≠ shot_id shot ->
     pruned_depthmaps (data w3) !! other = pruned_depthmaps (data w) !! other).
Proof.
  intros w1 w2 w3.
  pose proof (compute_depthmap_frame neighbors min_depth max_depth shot w) as H1.
  pose proof (clean_depthmap_frame neighbors shot w) as H2.
  pose proof (prune_depthmap_frame neighbors shot w) as H3.
  split; [|split]; (split; [done|]); intros other Hne.
  - destruct H1 as (Hw & _). by eapply writes_at_other.
  - destruct H2 as (_ & Hw & _). by eapply writes_at_other.
  - destruct H3 as (_ & _ & Hw). by eapply writes_at_other.
Qed.

Lemma try_except_log_run arguments (job : M unit) w :
  catches format_exception arguments (job w)
    (try_except_log format_exception arguments job w).
Proof.
  unfold catches, try_except_log. destruct (job w) as [[[]|e] w']; simpl.
  - by rewrite app_nil_r.
  - repeat split; try done. by rewrite <- app_assoc.
Qed.

(** X9. The three job wrappers never raise. Each returns normally whether
    its stage returned or raised, with the dataset and the pydense calls as
    the stage left them; its log is the log of the stage, followed after a
    failure by two ERROR records, the arguments and the exception. *)
Theorem catched_jobs_never_raise arguments neighbors min_depth max_depth
    shot w :
  catches format_exception arguments
    (compute_depthmap compute_brute_force compute_patch_match
       compute_patch_match_sample cv2_cvtColor_RGB2GRAY cv2_resize
       depthmap_to_ply plt_show neighbors min_depth max_depth shot w)
    (compute_depthmap_catched compute_brute_force compute_patch_match
       compute_patch_match_sample cv2_cvtColor_RGB2GRAY cv2_resize
       depthmap_to_ply plt_show format_exception arguments neighbors
       min_depth max_depth shot w) /\
  catches format_exception arguments
    (clean_depthmap cleaner_clean cv2_resize depthmap_to_ply plt_show
       neighbors shot w)
    (clean_depthmap_catched cleaner_clean cv2_resize depthmap_to_ply plt_show
       format_exception arguments neighbors shot w) /\
  catches format_exception arguments
    (prune_depthmap pruner_prune cv2_resize neighbors shot w)
    (prune_depthmap_catched pruner_prune cv2_resize format_exception
       arguments neighbors shot w).
Proof.
  unfold compute_depthmap_catched, clean_depthmap_catched,
    prune_depthmap_catched.
  split; [|split]; apply try_except_log_run.
Qed.

End FrameTheorems.

(** ** Error paths of the stages *)

Section StageErrors.

Variable compute_brute_force :
  DepthmapEstimator -> result (DepthArray * PlaneArray * ScoreArray * IndexArray).
Variable compute_patch_match :
  DepthmapEstimator -> result (DepthArray * PlaneArray * ScoreArray * IndexArray).
Variable compute_patch_match_sample :
  DepthmapEstimator -> result (DepthArray * PlaneArray * ScoreArray * IndexArray).
Variable cleaner_clean : DepthmapCleaner -> result DepthArray.
Variable cv2_cvtColor_RGB2GRAY : Image -> Image.
Variable cv2_resize : Image -> Z -> Z -> Interpolation -> result Image.
Variable depthmap_to_ply : Shot -> DepthArray -> Image -> string.
Variable plt_show : string -> list Subplot -> result unit.

(** X10. With a [depthmap_method] that is none of the three known ones,
    the estimate stage of a shot without raw depthmap configures the
    estimator and adds the views, then raises [ValueError] (or the error of
    adding the views, if that failed first); it saves nothing: the dataset is
    as before. *)
Theorem unknown_method_raises neighbors min_depth max_depth shot w :
  raw_depthmaps (data w) !! shot_id shot = None ->
  depthmap_method (config (data w)) ≠ "BRUTE_FORCE" ->
  depthmap_method (config (data w)) ≠ "PATCH_MATCH" ->
  depthmap_method (config (data w)) ≠ "PATCH_MATCH_SAMPLE" ->
  let run :=
    compute_depthmap compute_brute_force compute_patch_match
      compute_patch_match_sample cv2_cvtColor_RGB2GRAY cv2_resize
      depthmap_to_ply plt_show neighbors min_depth max_depth shot w in
  let w0 :=
    {| data := data w;
       log_records :=
         log_records w ++
         [(INFO, "Computing depthmap for image " +:+ shot_id shot
                 +:+ " with " +:+ depthmap_method (config (data w)))];
       pydense_calls := pydense_calls w |} in
  run
  = match
      (de ← configure_estimator min_depth max_depth;
       add_views_to_depth_estimator cv2_cvtColor_RGB2GRAY cv2_resize
         neighbors de) w0
    with
    | (Ok _, w') =>
        (Raise (ValueError
           "Unknown depthmap method type (must be BRUTE_FORCE, PATCH_MATCH or PATCH_MATCH_SAMPLE)"),
         w')
    | (Raise e, w') => (Raise e, w')
    end /\
  (exists e, run.1 = Raise e) /\
  data run.2 = data w.
Proof.
  intros Hnone H1 H2 H3 run w0.
  assert (Hrun : run
    = match
        (de ← configure_estimator min_depth max_depth;
         add_views_to_depth_estimator cv2_cvtColor_RGB2GRAY cv2_resize
           neighbors de) w0
      with
      | (Ok _, w') =>
          (Raise (ValueError
             "Unknown depthmap method type (must be BRUTE_FORCE, PATCH_MATCH or PATCH_MATCH_SAMPLE)"),
           w')
      | (Raise e, w') => (Raise e, w')
      end).
  { subst run. unfold compute_depthmap.
    erewrite bind_run by reflexivity.
    erewrite bind_run by reflexivity.
    rewrite bool_decide_eq_false_2 by (rewrite Hnone; intros [? ?]; done).
    erewrite bind_run by reflexivity. fold w0.
    destruct (configure_estimator min_depth max_depth w0)
      as [[de0|e] w1] eqn:E1.
    2:{ erewrite bind_raise by exact E1.
        by erewrite bind_raise by exact E1. }
    erewrite bind_run by exact E1.
    erewrite (bind_run (configure_estimator min_depth max_depth)) by exact E1.
    destruct (add_views_to_depth_estimator cv2_cvtColor_RGB2GRAY cv2_resize
                neighbors de0 w1) as [[de|e] w2] eqn:E2.
    2:{ by erewrite bind_raise by exact E2. }
    erewrite bind_run by exact E2.
    erewrite bind_raise; [reflexivity|].
    unfold de_compute.
    by rewrite !bool_decide_eq_false_2 by done. }
  split; [exact Hrun|].
  pose proof (keeps_data_bind (configure_estimator min_depth max_depth)
    (fun de => add_views_to_depth_estimator cv2_cvtColor_RGB2GRAY cv2_resize
                 neighbors de)
    (keeps_data_configure_estimator min_depth max_depth)
    (keeps_data_add_views_estimator cv2_cvtColor_RGB2GRAY cv2_resize neighbors)
    w0) as Hk.
  rewrite Hrun.
  destruct ((de ← configure_estimator min_depth max_depth;
             add_views_to_depth_estimator cv2_cvtColor_RGB2GRAY cv2_resize
               neighbors de) w0) as [[de|e] w'];
    simpl in *; split; eauto.
Qed.

(** X11. The clean stage loads the shot's own raw depthmap only after the
    cleaner has run: for a shot with neither a clean nor a raw depthmap it
    configures the cleaner, adds the views of the neighbors that have one,
    calls [clean], and then raises [IOError]; nothing is saved. *)
Theorem clean_without_raw_raises neighbors shot w depth :
  clean_depthmaps (data w) !! shot_id shot = None ->
  raw_depthmaps (data w) !! shot_id shot = None ->
  cleaner_clean (configured_cleaner (data w) neighbors) = Ok depth ->
  clean_depthmap cleaner_clean cv2_resize depthmap_to_ply plt_show
    neighbors shot w
  = (Raise (IOError (shot_id shot)),
     {| data := data w;
        log_records :=
          log_records w ++
          [(INFO, "Cleaning depthmap for image " +:+ shot_id shot)];
        pydense_calls :=
          pydense_calls w ++
          [(Cleaner, "__init__"); (Cleaner, "set_same_depth_threshold");
           (Cleaner, "set_min_consistent_views")] ++
          replicate (length (cleaner_views (data w) neighbors))
            (Cleaner, "add_view") ++
          [(Cleaner, "clean")] |}).
Proof.
  intros Hnone Hraw Hclean. unfold clean_depthmap.
  erewrite bind_run by reflexivity.
  erewrite bind_run by reflexivity.
  rewrite bool_decide_eq_false_2 by (rewrite Hnone; intros [? ?]; done).
  erewrite bind_run by reflexivity.
  erewrite bind_run by reflexivity.
  erewrite bind_run by reflexivity.
  erewrite bind_run by reflexivity.
  erewrite bind_run by apply add_views_to_depth_cleaner_run.
  erewrite bind_run by reflexivity.
  cbn [dc_same_depth_threshold dc_min_consistent_views dc_views app data].
  fold (configured_cleaner (data w) neighbors).
  erewrite bind_run by (unfold lift; rewrite Hclean; reflexivity).
  erewrite bind_raise.
  2:{ unfold load_raw_depthmap, load_from.
      erewrite bind_run by reflexivity. cbn [data]. rewrite Hraw. reflexivity. }
  cbn [log_records pydense_calls].
  by rewrite <- !app_assoc.
Qed.

End StageErrors.

(** X12. The loop of the clean stage never raises and touches neither the
    dataset nor the log: it adds one view, and makes one [add_view] call,
    for each neighbor that has a raw depthmap, in the order of the
    neighbors, and passes over the others. *)
Theorem cleaner_skips_missing_neighbors neighbors dc w :
  exists dc' w',
    add_views_to_depth_cleaner neighbors dc w = (Ok dc', w') /\
    data w' = data w /\ log_records w' = log_records w /\
    dc_views dc'
    = dc_views dc ++
      omap
        (fun shot =>
           cleaner_view shot <$> raw_depthmaps (data w) !! shot_id shot)
        neighbors /\
    length (dc_views dc')
    = (length (dc_views dc) +
       length
         (List.filter
            (fun shot =>
               bool_decide
                 (is_Some (raw_depthmaps (data w) !! shot_id shot)))
            neighbors))%nat /\
    pydense_calls w'
    = pydense_calls w ++
      replicate
        (length
           (List.filter
              (fun shot =>
                 bool_decide
                   (is_Some (raw_depthmaps (data w) !! shot_id shot)))
              neighbors))
        (Cleaner, "add_view").
Proof.
  assert (Hlen :
    length (cleaner_views (data w) neighbors)
    = length
        (List.filter
           (fun shot =>
              bool_decide (is_Some (raw_depthmaps (data w) !! shot_id shot)))
           neighbors)).
  { unfold cleaner_views.
    induction neighbors as [|shot neighbors IH]; [done|].
    cbn [omap list_omap List.filter].
    destruct (raw_depthmaps (data w) !! shot_id shot) as [raw|] eqn:E.
    - rewrite bool_decide_eq_true_2 by eauto. simpl. by rewrite <- IH.
    - rewrite bool_decide_eq_false_2 by (intros [? ?]; done). exact IH. }
  eexists _, _. split; [apply add_views_to_depth_cleaner_run|].
  cbn [data log_records pydense_calls dc_views].
  rewrite length_app, Hlen. done.
Qed.

(** ** The views of the estimator *)

Lemma bind_Ok_inv {A B} (c : M A) (k : A -> M B) (w w' : World) (b : B) :
  (c ≫= k) w = (Ok b, w') ->
  exists a w1, c w = (Ok a, w1) /\ k a w1 = (Ok b, w').
Proof.
  unfold mbind, M_bind. destruct (c w) as [[a|e] w1]; [eauto | done].
Qed.

Lemma load_from_Ok_inv {V} (store : DataSet -> gmap string V) image w v w' :
  load_from store image w = (Ok v, w') ->
  store (data w) !! image = Some v /\ w' = w.
Proof.
  unfold load_from, get_data, mbind, M_bind, mret, M_ret, raise.
  destruct (store (data w) !! image); intros [= -> ->]; done.
Qed.

Section EstimatorViews.

Variable cv2_cvtColor_RGB2GRAY : Image -> Image.
Variable cv2_resize : Image -> Z -> Z -> Interpolation -> result Image.

Lemma load_combined_mask_run shot w :
  exists mask, load_combined_mask shot w = (Ok mask, w).
Proof.
  unfold load_combined_mask, load_undistorted_combined_mask, get_data, mbind,
    M_bind, mret, M_ret.
  destruct (undistorted_combined_masks (data w) !! shot_id shot); eauto.
Qed.

Lemma scale_image_Ok_inv image wd h interpolation w img w' :
  scale_image cv2_resize image wd h interpolation w = (Ok img, w') -> w' = w.
Proof. unfold scale_image, lift. by intros [= _ ->]. Qed.

(** X13. When the loop that feeds the estimator returns, it has added one
    view for each of the first [depthmap_num_matching_views + 1] neighbors
    and no other, each of those shots has a perspective camera and an
    undistorted image, and nothing but the estimator changed; so a neighbor
    among them with another projection type, or without image, makes the
    loop raise. *)
Theorem estimator_views_added neighbors de w de' w' :
  add_views_to_depth_estimator cv2_cvtColor_RGB2GRAY cv2_resize neighbors de w
  = (Ok de', w') ->
  let views :=
    py_slice_to neighbors (depthmap_num_matching_views (config (data w)) + 1)
  in
  length (de_views de') = (length (de_views de) + length views)%nat /\
  Forall
    (fun shot =>
       projection_type (camera shot) = "perspective" /\
       is_Some (undistorted_images (data w) !! shot_id shot))
    views /\
  data w' = data w /\ log_records w' = log_records w /\
  pydense_calls w'
  = pydense_calls w ++ replicate (length views) (Estimator, "add_view").
Proof.
  intros H views. unfold add_views_to_depth_estimator in H.
  erewrite bind_run in H by reflexivity. fold views in H.
  match type of H with context [for_each _ ?b] => set (body := b) in H end.
  assert (Hbody : forall de0 shot w0 de1 w1,
    body de0 shot w0 = (Ok de1, w1) ->
    projection_type (camera shot) = "perspective" /\
    is_Some (undistorted_images (data w0) !! shot_id shot) /\
    length (de_views de1) = S (length (de_views de0)) /\
    data w1 = data w0 /\ log_records w1 = log_records w0 /\
    pydense_calls w1 = pydense_calls w0 ++ [(Estimator, "add_view")]).
  { intros de0 shot w0 de1 w1 Hb. subst body. cbn beta in Hb.
    case_bool_decide as Hp; [|discriminate Hb].
    apply bind_Ok_inv in Hb as (image & wa & Hload & Hb).
    apply load_from_Ok_inv in Hload as [Himg ->].
    destruct (load_combined_mask_run shot w0) as [mask Hmask].
    erewrite bind_run in Hb by exact Hmask.
    destruct (shape (cv2_cvtColor_RGB2GRAY image)) as [oh ow].
    apply bind_Ok_inv in Hb as (h & wb & Hdiv & Hb).
    assert (wb = w0) as ->.
    { unfold floor_div in Hdiv. destruct (_ =? 0); [done|].
      by injection Hdiv as _ ->. }
    apply bind_Ok_inv in Hb as (img & wc & Hsc & Hb).
    unfold scale_down_image in Hsc.
    apply scale_image_Ok_inv in Hsc as ->.
    apply bind_Ok_inv in Hb as (mask' & wd & Hsm & Hb).
    apply scale_image_Ok_inv in Hsm as ->.
    unfold de_add_view, pydense_call, mbind, M_bind, mret, M_ret in Hb.
    injection Hb as <- <-. cbn. rewrite length_app. cbn.
    repeat split; eauto; lia. }
  clearbody body views. clear -H Hbody.
  revert de w H. induction views as [|shot views IH]; intros de w H.
  - injection H as -> ->. cbn. rewrite Nat.add_0_r, app_nil_r.
    repeat split; done.
  - cbn [for_each] in H.
    apply bind_Ok_inv in H as (de1 & w1 & Hb & H).
    destruct (Hbody _ _ _ _ _ Hb) as (Hp & Himg & Hlen & Hd & Hl & Hc).
    destruct (IH _ _ H) as (Hlen' & Hall & Hd' & Hl' & Hc').
    rewrite Hd in Hall.
    split; [cbn; lia|]. split; [by constructor|].
    split; [congruence|]. split; [congruence|].
    rewrite Hc', Hc. cbn. by rewrite <- app_assoc.
Qed.

End EstimatorViews.

Lemma estimator_views_added_witness :
  exists de' w',
    add_views_to_depth_estimator Scene.to_gray Scene.resize
      [Scene.shot_a; Scene.shot_b]
      {| de_depth_range := None; de_patchmatch_iterations := None;
         de_patch_size := None; de_min_patch_sd := None; de_views := [] |}
      Scene.world = (Ok de', w') /\
    length (de_views de') = 2%nat.
Proof.
  destruct (add_views_to_depth_estimator Scene.to_gray Scene.resize
              [Scene.shot_a; Scene.shot_b]
              {| de_depth_range := None; de_patchmatch_iterations := None;
                 de_patch_size := None; de_min_patch_sd := None;
                 de_views := [] |} Scene.world) as [[de'|e] w'] eqn:E;
    [|vm_compute in E; discriminate E].
  exists de', w'. split; [reflexivity|].
  destruct (estimator_views_added Scene.to_gray Scene.resize _ _ _ _ _ E)
    as (Hlen & _).
  rewrite Hlen. reflexivity.
Defined.

(** ** Merging the pruned depthmaps of a reconstruction *)

Lemma merge_concatenates_many
    (depthmap_provider : string -> result PointArrays) (w : World)
    (shot_ids : list string) (arrays : list PointArrays) :
  shot_ids <> [] ->
  Forall2 (fun shot_id pa => depthmap_provider shot_id = Ok pa)
    shot_ids arrays ->
  merge_depthmaps_from_provider shot_ids depthmap_provider w
  = (Ok {| pa_points := concat (map pa_points arrays);
           pa_normals := concat (map pa_normals arrays);
           pa_colors := concat (map pa_colors arrays);
           pa_labels := concat (map pa_labels arrays) |},
     {| data := data w;
        log_records := log_records w ++ [(INFO, "Merging depthmaps")];
        pydense_calls := pydense_calls w |}).
Proof.
  intros Hne H.
  unfold merge_depthmaps_from_provider, mbind, M_bind, logger_info,
    logger_log, lift. simpl.
  rewrite bool_decide_eq_false_2 by done.
  by rewrite (aggregate_depthmaps_concat _ _ _ Hne H).
Qed.

Lemma pruned_ids_loop (keys acc : list string) (w : World) :
  for_each keys
    (fun shot_ids s =>
       b ← pruned_depthmap_exists s;
       mret (if b : bool then shot_ids ++ [s] else shot_ids))
    acc w
  = (Ok (acc ++
         List.filter
           (fun s => bool_decide (is_Some (pruned_depthmaps (data w) !! s)))
           keys),
     w).
Proof.
  revert acc. induction keys as [|s keys IH]; intros acc.
  - cbn. by rewrite app_nil_r.
  - cbn [for_each List.filter].
    erewrite bind_run.
    2:{ unfold pruned_depthmap_exists.
        erewrite bind_run by reflexivity. reflexivity. }
    rewrite IH.
    destruct (bool_decide (is_Some (pruned_depthmaps (data w) !! s)));
      [by rewrite <- app_assoc | done].
Qed.

Lemma pruned_provider_loads (d : DataSet) (keys : list string) :
  Forall2
    (fun shot_id pa =>
       match pruned_depthmaps d !! shot_id with
       | Some pa' => Ok pa'
       | None => Raise (IOError shot_id)
       end = Ok pa)
    (List.filter
       (fun s => bool_decide (is_Some (pruned_depthmaps d !! s))) keys)
    (omap (fun s => pruned_depthmaps d !! s) keys).
Proof.
  induction keys as [|s keys IH]; [constructor|].
  cbn [List.filter omap list_omap].
  destruct (pruned_depthmaps d !! s) as [pa|] eqn:E.
  - rewrite bool_decide_eq_true_2 by eauto. constructor; [by rewrite E | done].
  - rewrite bool_decide_eq_false_2 by (intros [? ?]; done). exact IH.
Qed.

Section MergeTheorems.

Variable iter_shots : Reconstruction -> list string.

(** X14. [merge_depthmaps] never raises: it loads only the shots it found
    to have a pruned depthmap, so its result is, array by array, the
    concatenation of the pruned arrays of those shots, in the order in which
    [reconstruction.shots] iterates (empty when there is none), and the
    dataset is as before. *)
Theorem merge_depthmaps_total (reconstruction : Reconstruction) (w : World) :
  let arrays :=
    omap (fun s => pruned_depthmaps (data w) !! s)
      (iter_shots reconstruction) in
  exists w',
    merge_depthmaps iter_shots reconstruction w
    = (Ok {| pa_points := concat (map pa_points arrays);
             pa_normals := concat (map pa_normals arrays);
             pa_colors := concat (map pa_colors arrays);
             pa_labels := concat (map pa_labels arrays) |},
       w') /\
    data w' = data w /\ pydense_calls w' = pydense_calls w.
Proof.
  intros arrays. unfold merge_depthmaps.
  erewrite bind_run by apply pruned_ids_loop.
  erewrite bind_run by reflexivity. cbn [app].
  pose proof (pruned_provider_loads (data w) (iter_shots reconstruction))
    as Hload.
  fold arrays in Hload.
  destruct (List.filter
              (fun s => bool_decide (is_Some (pruned_depthmaps (data w) !! s)))
              (iter_shots reconstruction))
    as [|s ids] eqn:E.
  - inversion Hload as [Harr|]. eexists. split; [reflexivity | done].
  - pose proof (merge_concatenates_many
                (fun shot_id =>
                   match pruned_depthmaps (data w) !! shot_id with
                   | Some pa => Ok pa
                   | None => Raise (IOError shot_id)
                   end) w (s :: ids) arrays) as Hrun.
    eexists. split; [apply Hrun; done | done].
Qed.

End MergeTheorems.

(** ** Shape and idempotence of the masking *)

Lemma zero_or_nan_mul_zero (x : float) :
  exists X, Prim2SF (x * 0)%float = X /\
            (X = S754_nan \/ exists s, X = S754_zero s).
Proof.
  eexists. split; [reflexivity|]. rewrite mul_spec, Prim2SF_zero.
  destruct (Prim2SF x); simpl; eauto.
Qed.

Lemma zero_or_nan_mul_bool (z : float) (b : bool) :
  (Prim2SF z = S754_nan \/ exists s, Prim2SF z = S754_zero s) ->
  (z * bool_to_float b)%float = z.
Proof.
  intros H. apply Prim2SF_inj. rewrite mul_spec.
  destruct b; cbn [bool_to_float];
    [rewrite Prim2SF_one | rewrite Prim2SF_zero];
    destruct H as [->|[s ->]]; simpl; by rewrite ?xorb_false_r.
Qed.

Lemma zero_or_nan_mul_0 (z : float) :
  (Prim2SF z = S754_nan \/ exists s, Prim2SF z = S754_zero s) ->
  (z * 0)%float = z.
Proof. intros H. exact (zero_or_nan_mul_bool z false H). Qed.

(** Masking a masked pixel again changes nothing, for every value and
    every outcome of the score test. *)
Lemma mask_twice (t x : float) (g : bool) :
  (below t (below t x * bool_to_float g) * bool_to_float g)%float
  = (below t x * bool_to_float g)%float.
Proof.
  unfold below.
  destruct (zero_or_nan_mul_zero x) as (X & HX & Hz). rewrite <- HX in Hz.
  clear HX X.
  destruct (x <? t)%float eqn:E1, g; cbn [bool_to_float]; rewrite ?mul_one_r.
  - rewrite E1. cbn [bool_to_float]. by rewrite !mul_one_r.
  - rewrite (zero_or_nan_mul_bool (x * 0) _ Hz).
    by apply zero_or_nan_mul_0.
  - by rewrite (zero_or_nan_mul_bool (x * 0) _ Hz).
  - rewrite (zero_or_nan_mul_0 (x * 0) Hz).
    rewrite (zero_or_nan_mul_bool (x * 0) _ Hz).
    by apply zero_or_nan_mul_0.
Qed.

Lemma mask_pixel_below (d s max_depth min_score : float) :
  mask_pixel d s max_depth min_score
  = (below max_depth d * bool_to_float (min_score <? s))%float.
Proof. reflexivity. Qed.

Lemma zip_with_self_map {A B C} (f : A -> B -> C) (g : A -> B)
    (a : list (list A)) :
  zip_with (zip_with f) a (map (map g) a)
  = map (map (fun x => f x (g x))) a.
Proof.
  induction a as [|row a IH]; [done|]. cbn. rewrite IH. f_equal.
  clear. induction row as [|x row IH]; [done|]. cbn. by rewrite IH.
Qed.

Lemma stretch_map {A B} (f : A -> B) (n : nat) (l : list A) :
  stretch n (map f l) = map f (stretch n l).
Proof.
  destruct l as [|x [|y l]]; try done. simpl.
  induction n as [|n IH]; [done|]. simpl. by rewrite IH.
Qed.

Lemma broadcast_to_map {A B} (f : A -> B) h w (a : list (list A)) :
  broadcast_to h w (map (map f) a) = map (map f) (broadcast_to h w a).
Proof.
  unfold broadcast_to. rewrite <- stretch_map. f_equal.
  induction a as [|row a IH]; [done|]. cbn. by rewrite IH, stretch_map.
Qed.

(** The first product of the masking never broadcasts. *)
Lemma array_mul_bool_lt depth max_depth :
  rectangular depth = true ->
  array_mul_bool depth (array_lt depth max_depth)
  = Ok (map (map (below (np_float32 max_depth))) depth).
Proof.
  intros Hr. unfold array_lt. rewrite array_mul_bool_same by done.
  by rewrite zip_with_self_map.
Qed.

Lemma mask_zip_twice (t : float) (a : list (list float))
    (g : list (list bool)) :
  zip_with (zip_with (fun v b => (v * bool_to_float b)%float))
    (map (map (below t))
       (zip_with (zip_with (fun v b => (v * bool_to_float b)%float))
          (map (map (below t)) a) g))
    g
  = zip_with (zip_with (fun v b => (v * bool_to_float b)%float))
      (map (map (below t)) a) g.
Proof.
  revert g. induction a as [|row a IH]; intros [|grow g]; try done.
  cbn [map zip_with]. rewrite IH. f_equal.
  clear. revert grow. induction row as [|x row IH]; intros [|b grow];
    try done.
  cbn [map zip_with]. by rewrite IH, mask_twice.
Qed.

(** A second product with the same boolean array, for an array that has
    the shape of the first product. *)
Lemma array_mul_bool_again {A} (a : list (list A)) m a' h w :
  rectangular a = true -> rectangular m = true ->
  broadcast_dim (length a) (length m) = Some h ->
  broadcast_dim (ncols a) (ncols m) = Some w ->
  has_shape h w a' ->
  array_mul_bool a' m
  = Ok (zip_with (zip_with (fun v b => (v * bool_to_float b)%float)) a'
          (broadcast_to h w m)).
Proof.
  intros Ha Hm Eh Ew Hs.
  destruct (has_shape_rectangular _ _ _ Hs) as [Hr' Hn].
  unfold array_mul_bool. rewrite Hr', Hm. cbn [andb].
  destruct Hs as [Hlen Hrows].
  destruct a' as [|row a'].
  - simpl in Hlen. subst h. cbn [length zip_with]. change (@ncols float []) with 0%nat.
    rewrite (broadcast_dim_again _ _ _ Eh).
    assert (Hw : is_Some (broadcast_dim 0 (ncols m))).
    { destruct (broadcast_dim_cases _ _ _ Eh) as [[H0|H1] Hm0].
      - destruct a; [|done]. by exists w.
      - destruct Hm0 as [H0|H1'].
        + destruct m; [|done]. by eexists.
        + unfold broadcast_dim in Eh. rewrite H1, H1' in Eh. done. }
    destruct Hw as [w' ->]. done.
  - destruct Hn as [?|Hn]; [done|].
    rewrite Hlen, Hn.
    rewrite (broadcast_dim_again _ _ _ Eh), (broadcast_dim_again _ _ _ Ew).
    rewrite (broadcast_to_same h w (row :: a')); [done|].
    by split.
Qed.

Lemma mask_depth_Ok_inv depth score max_depth min_score masked :
  mask_depth depth score max_depth min_score = Ok masked ->
  rectangular depth = true /\ rectangular score = true /\
  exists h w,
    broadcast_dim (length depth) (length score) = Some h /\
    broadcast_dim (ncols depth) (ncols score) = Some w /\
    has_shape h w masked /\
    masked
    = zip_with (zip_with (fun v b => (v * bool_to_float b)%float))
        (map (map (below (np_float32 max_depth))) (broadcast_to h w depth))
        (broadcast_to h w (array_gt score min_score)).
Proof.
  unfold mask_depth. intros H.
  destruct (rectangular depth) eqn:Hr.
  2:{ unfold array_mul_bool in H. rewrite Hr in H. done. }
  rewrite array_mul_bool_lt in H by done. cbn in H.
  destruct (array_mul_bool_rectangular _ _ _ H) as [_ Hg].
  destruct (array_mul_bool_Ok _ _ _ H) as (h & w & Eh & Ew & Hs1 & Hs2 & ->).
  unfold array_gt in Hg, Eh, Ew.
  rewrite rectangular_map in Hg. rewrite !length_map in Eh.
  rewrite !ncols_map in Ew.
  split; [done|]. split; [done|]. exists h, w.
  split; [done|]. split; [done|]. split.
  - by apply has_shape_zip_with.
  - by rewrite broadcast_to_map.
Qed.

(** X16. Masking is idempotent, bit for bit and for every float: masking
    the saved depth map again with the same score map and thresholds gives
    the same map. *)
Theorem mask_depth_idempotent depth score max_depth min_score masked :
  mask_depth depth score max_depth min_score = Ok masked ->
  mask_depth masked score max_depth min_score = Ok masked.
Proof.
  intros H.
  destruct (mask_depth_Ok_inv _ _ _ _ _ H)
    as (Hd & Hsc & h & w & Eh & Ew & Hs & Hm).
  destruct (has_shape_rectangular _ _ _ Hs) as [Hr _].
  unfold mask_depth. rewrite array_mul_bool_lt by done. cbn.
  rewrite (array_mul_bool_again depth (array_gt score min_score) _ h w);
    try done.
  - f_equal. rewrite Hm at 2. rewrite Hm. apply mask_zip_twice.
  - unfold array_gt. by rewrite rectangular_map.
  - unfold array_gt. by rewrite length_map.
  - unfold array_gt. by rewrite ncols_map.
  - by apply has_shape_map.
Qed.

Lemma mask_rows (max_depth min_score : float) (row srow : list float) :
  zip_with (fun v b => (v * bool_to_float b)%float)
    (map (below max_depth) row)
    (map (fun v => (min_score <? v)%float) srow)
  = zip_with (fun d s => mask_pixel d s max_depth min_score) row srow.
Proof.
  revert srow. induction row as [|d row IH]; intros [|s srow]; try done.
  cbn. by rewrite IH.
Qed.

Lemma map_length_has_shape {A B} (a : list (list A)) (b : list (list B)) h w :
  map length a = map length b -> has_shape h w a -> has_shape h w b.
Proof.
  intros Hl [Hh Hw]. split.
  - rewrite <- Hh. by rewrite <- (length_map length b), <- Hl, length_map.
  - clear Hh. revert b Hl.
    induction Hw as [|ra a Hra _ IH]; intros [|rb b] Hl; try done.
    cbn in Hl. injection Hl as Hl1 Hl2. constructor; [lia|by apply IH].
Qed.

Lemma map_length_ncols {A B} (a : list (list A)) (b : list (list B)) :
  map length a = map length b -> length a = length b /\ ncols a = ncols b.
Proof.
  intros H. split.
  - by rewrite <- (length_map length a), H, length_map.
  - destruct a, b; try done. cbn in *. by injection H.
Qed.

(** X15. For depth and score maps with at least one row, the masking is
    defined exactly when both are arrays whose shapes NumPy can broadcast: in
    each dimension the two sizes agree or one of them is 1. The masked map
    has the broadcast shape, and for maps of one shape it holds [mask_pixel]
    of each pixel, the thresholds taken as float32. *)
Theorem mask_depth_defined depth score max_depth min_score :
  depth <> [] -> score <> [] ->
  (is_Ok (mask_depth depth score max_depth min_score) <->
   rectangular depth = true /\ rectangular score = true /\
   is_Some (broadcast_dim (length depth) (length score)) /\
   is_Some (broadcast_dim (ncols depth) (ncols score))) /\
  (forall masked,
     mask_depth depth score max_depth min_score = Ok masked ->
     (exists h w,
        broadcast_dim (length depth) (length score) = Some h /\
        broadcast_dim (ncols depth) (ncols score) = Some w /\
        length masked = h /\ Forall (fun row => length row = w) masked) /\
     (map length depth = map length score ->
      masked
      = zip_with
          (zip_with
             (fun d s =>
                mask_pixel d s (np_float32 max_depth) (np_float32 min_score)))
          depth score)).
Proof.
  intros _ _. split.
  - split.
    + destruct (mask_depth depth score max_depth min_score) as [masked|e] eqn:E;
        [|done]. intros _.
      destruct (mask_depth_Ok_inv _ _ _ _ _ E)
        as (Hd & Hsc & h & w & Eh & Ew & _).
      rewrite Eh, Ew. eauto.
    + intros (Hd & Hsc & [h Eh] & [w Ew]).
      unfold mask_depth. rewrite array_mul_bool_lt by done. cbn.
      unfold array_mul_bool, array_gt.
      rewrite !rectangular_map, Hd, Hsc. cbn [andb].
      rewrite !length_map, !ncols_map, Eh, Ew. done.
  - intros masked E.
    destruct (mask_depth_Ok_inv _ _ _ _ _ E)
      as (Hd & Hsc & h & w & Eh & Ew & [Hh Hw] & Hm).
    split; [by exists h, w|].
    intros Hshape. destruct (map_length_ncols _ _ Hshape) as [Hl Hn].
    rewrite <- Hl, broadcast_dim_same in Eh. injection Eh as <-.
    rewrite <- Hn, broadcast_dim_same in Ew. injection Ew as <-.
    pose proof (rectangular_has_shape depth Hd) as Hsd.
    rewrite Hm, (broadcast_to_same _ _ _ Hsd).
    rewrite (broadcast_to_same _ _ (array_gt score min_score)).
    2:{ unfold array_gt. apply has_shape_map.
        by apply (map_length_has_shape depth score). }
    unfold array_gt. clear. revert score.
    induction depth as [|row depth IH]; intros [|srow score]; try done.
    cbn [map zip_with]. by rewrite mask_rows, IH.
Qed.

Lemma mask_depth_defined_witness :
  is_Ok (mask_depth [[1%float; 2%float]; [3%float; 4%float]]
           [[0.5%float; 0.0625%float]] 7 0.1) /\
  ~ is_Ok (mask_depth [[1%float; 2%float]; [3%float; 4%float]]
             [[0.5%float; 0.5%float; 0.5%float]] 7 0.1).
Proof.
  split.
  - apply (mask_depth_defined [[1%float; 2%float]; [3%float; 4%float]]
             [[0.5%float; 0.0625%float]] 7 0.1); [done | done |].
    repeat split; by eexists.
  - intros H.
    apply (mask_depth_defined [[1%float; 2%float]; [3%float; 4%float]]
             [[0.5%float; 0.5%float; 0.5%float]] 7 0.1) in H;
      [|done|done].
    destruct H as (_ & _ & _ & [w Hw]). vm_compute in Hw. discriminate Hw.
Defined.

Lemma mask_depth_idempotent_witness :
  mask_depth [[0%float; 2%float]; [0%float; 0%float]] Scene.estimated_score
    7%float (depthmap_min_correlation_score Scene.settings)
  = Ok [[0%float; 2%float]; [0%float; 0%float]].
Proof.
  apply (mask_depth_idempotent Scene.estimated_depth).
  vm_compute. reflexivity.
Defined.

(** ** What the prune stage saves *)

Section StageCompletion.

Variable pruner_prune : DepthmapPruner -> result PointArrays.
Variable cv2_resize : Image -> Z -> Z -> Interpolation -> result Image.

(** X17. A pruned depthmap that the prune stage leaves for a shot that had
    none is what the pruner returned; the stage has then returned normally,
    and with the debug flag set the point cloud [pruned.npz.ply] holds the
    same arrays. *)
Theorem prune_saves_pruner_output neighbors shot w pa :
  pruned_depthmaps (data w) !! shot_id shot = None ->
  pruned_depthmaps
    (data (prune_depthmap pruner_prune cv2_resize neighbors shot w).2)
    !! shot_id shot = Some pa ->
  (prune_depthmap pruner_prune cv2_resize neighbors shot w).1 = Ok tt /\
  (exists dp, pruner_prune dp = Ok pa) /\
  (depthmap_save_debug_files (config (data w)) = true ->
   point_clouds
     (data (prune_depthmap pruner_prune cv2_resize neighbors shot w).2)
     !! "pruned.npz.ply" = Some pa).
Proof.
  intros Hnone. unfold prune_depthmap.
  erewrite bind_run by reflexivity.
  erewrite bind_run by reflexivity.
  rewrite bool_decide_eq_false_2 by (rewrite Hnone; intros [? ?]; done).
  erewrite bind_run by reflexivity.
  erewrite bind_run by reflexivity.
  erewrite bind_run by reflexivity.
  match goal with
  | |- context [(add_views_to_depth_pruner ?r ?n ?dp0 ≫= _) ?w0] =>
      pose proof (keeps_data_add_views_pruner r n dp0 w0) as Hk;
      destruct (add_views_to_depth_pruner r n dp0 w0) as [[dp|e] w1] eqn:E1
  end; simpl in Hk.
  2:{ erewrite bind_raise by exact E1. simpl. rewrite Hk, Hnone. done. }
  erewrite bind_run by exact E1.
  erewrite bind_run by reflexivity.
  destruct (pruner_prune dp) as [pa'|e] eqn:E2.
  2:{ erewrite bind_raise by reflexivity.
      simpl. rewrite Hk, Hnone. done. }
  erewrite bind_run by reflexivity.
  erewrite bind_run by reflexivity.
  destruct (depthmap_save_debug_files (config (data w)));
    unfold save_point_cloud, mbind, M_bind, mret, M_ret, get_data, put_data;
    simpl; rewrite lookup_insert_eq; intros [= <-];
    repeat split; eauto; try done.
  intros _. by rewrite lookup_insert_eq.
Qed.

End StageCompletion.

(** ** The further properties on the scene *)

Lemma unknown_method_raises_witness :
  (exists e, (Scene.run_estimate Scene.world_unknown_method).1 = Raise e) /\
  data (Scene.run_estimate Scene.world_unknown_method).2
  = data Scene.world_unknown_method.
Proof.
  refine (proj2 (unknown_method_raises Scene.estimator_kernel
                   Scene.estimator_kernel Scene.estimator_kernel
                   Scene.to_gray Scene.resize Scene.to_ply Scene.show
                   [Scene.shot_a; Scene.shot_b] 1%float 7%float Scene.shot_a
                   Scene.world_unknown_method _ _ _ _));
    vm_compute; done.
Defined.

Lemma clean_without_raw_raises_witness :
  (Scene.run_clean Scene.world).1 = Raise (IOError "a") /\
  data (Scene.run_clean Scene.world).2 = data Scene.world.
Proof.
  unfold Scene.run_clean.
  rewrite (clean_without_raw_raises Scene.cleaner_kernel Scene.resize
             Scene.to_ply Scene.show [Scene.shot_a; Scene.shot_b] Scene.shot_a
             Scene.world [[0%float; 2%float]; [0%float; 0%float]]);
    try (vm_compute; reflexivity).
  split; reflexivity.
Defined.

Lemma prune_saves_pruner_output_witness :
  (Scene.run_prune (Scene.run_clean (Scene.run_estimate Scene.world).2).2).1
  = Ok tt /\
  point_clouds
    (data (Scene.run_prune
             (Scene.run_clean (Scene.run_estimate Scene.world).2).2).2)
    !! "pruned.npz.ply" = Some Scene.points_of_a.
Proof.
  destruct (prune_saves_pruner_output Scene.pruner_kernel Scene.resize
              [Scene.shot_a; Scene.shot_b] Scene.shot_a
              (Scene.run_clean (Scene.run_estimate Scene.world).2).2
              Scene.points_of_a) as (Hok & _ & Hcloud);
    try (vm_compute; reflexivity).
  split; [exact Hok|]. apply Hcloud. vm_compute. reflexivity.
Defined.
